(** * Market basket analysis backend: a shallow embedding of [backend/main.py]

    The analytics core of the backend is embedded function by function:
    [_to_bool01], [transactional_to_onehot], [detect_and_encode],
    [calculate_optimal_support], [build_cooccurrence], the sorting done by
    [get_frequent_itemsets] and the analysis pipeline of [upload_dataset].

    Conventions of the embedding.
    - Python floats are idealised as rationals ([Q]); [0.01], [0.05] and the
      like are the exact fractions.
    - Python exceptions are values of [exn]; a function that may raise
      returns a [result].
    - Text is [string]: the bytes of its UTF-8 encoding.  [strip] removes
      the white space of Unicode, by its encodings of one, two and three
      bytes.  [lower] folds the ASCII letters, which is exact for every
      membership test the code makes: the only characters outside ASCII
      whose lower case holds an ASCII letter are U+0130 (i followed by
      U+0307) and U+212A (k), and none of the tokens looked for holds a k
      or ends in an i.
    - The library calls ([TransactionEncoder], [apriori],
      [association_rules], the pandas operations) are written out as the
      functions they compute. *)

From Stdlib Require Import List Bool Arith ZArith QArith Qminmax Lia String Ascii.
From Stdlib Require Import Permutation Sorted.
Import ListNotations.

Local Open Scope string_scope.
Local Open Scope list_scope.
Local Open Scope Z_scope.
Local Open Scope Q_scope.

(** ** Exceptions and results *)

Inductive exn : Type :=
| ValueError (msg : string)
| TypeError
| KeyError.

Inductive result (A : Type) : Type :=
| Ok (a : A)
| Raise (e : exn).

Arguments Ok {A} a.
Arguments Raise {A} e.

Definition bind {A B : Type} (r : result A) (k : A -> result B) : result B :=
  match r with
  | Ok a => k a
  | Raise e => Raise e
  end.

Notation "x <- r ;; k" := (bind r (fun x => k))
  (at level 61, r at next level, right associativity).

(** ** Rationals as Python numbers *)

Definition Qltb (a b : Q) : bool := negb (Qle_bool b a).

(** Python's [max(a, b)]: the first argument unless the second is greater. *)
Definition py_max (a b : Q) : Q := if Qltb a b then b else a.

(** Python's [min(a, b)]: the first argument unless the second is smaller. *)
Definition py_min (a b : Q) : Q := if Qltb b a then b else a.

(** ** Text *)

Definition is_upper (c : ascii) : bool :=
  let n := nat_of_ascii c in (65 <=? n)%nat && (n <=? 90)%nat.

Definition lower_ascii (c : ascii) : ascii :=
  if is_upper c then ascii_of_nat (nat_of_ascii c + 32) else c.

(** [s.lower()] *)
Fixpoint lower (s : string) : string :=
  match s with
  | EmptyString => EmptyString
  | String c s' => String (lower_ascii c) (lower s')
  end.

(** [sub in s] *)
Fixpoint contains (sub s : string) : bool :=
  String.prefix sub s ||
  match s with
  | EmptyString => false
  | String _ s' => contains sub s'
  end.

(** The white space [str.strip()] removes is the set of characters for
    which [str.isspace()] holds.  Of one byte: tab, line feed, vertical tab,
    form feed, carriage return, the four separators 28..31 and space. *)
Definition is_space (c : ascii) : bool :=
  let n := nat_of_ascii c in
  ((9 <=? n)%nat && (n <=? 13)%nat) || ((28 <=? n)%nat && (n <=? 32)%nat).

(** Of two bytes: U+0085 (C2 85) and U+00A0 (C2 A0). *)
Definition is_space2 (c1 c2 : ascii) : bool :=
  let n1 := nat_of_ascii c1 in
  let n2 := nat_of_ascii c2 in
  (n1 =? 194)%nat && ((n2 =? 133)%nat || (n2 =? 160)%nat).

(** Of three bytes: U+1680 (E1 9A 80), U+2000..U+200A (E2 80 80..8A),
    U+2028 and U+2029 (E2 80 A8, E2 80 A9), U+202F (E2 80 AF), U+205F
    (E2 81 9F) and U+3000 (E3 80 80). *)
Definition is_space3 (c1 c2 c3 : ascii) : bool :=
  let n1 := nat_of_ascii c1 in
  let n2 := nat_of_ascii c2 in
  let n3 := nat_of_ascii c3 in
  ((n1 =? 225)%nat && (n2 =? 154)%nat && (n3 =? 128)%nat) ||
  ((n1 =? 226)%nat && (n2 =? 128)%nat &&
   (((128 <=? n3)%nat && (n3 <=? 138)%nat) ||
    (n3 =? 168)%nat || (n3 =? 169)%nat || (n3 =? 175)%nat)) ||
  ((n1 =? 226)%nat && (n2 =? 129)%nat && (n3 =? 159)%nat) ||
  ((n1 =? 227)%nat && (n2 =? 128)%nat && (n3 =? 128)%nat).

(** [s.lstrip()]: the white space characters at the front are dropped one
    after the other. *)
Fixpoint lstrip (s : string) : string :=
  match s with
  | EmptyString => EmptyString
  | String c1 s1 =>
      if is_space c1 then lstrip s1
      else
        match s1 with
        | EmptyString => s
        | String c2 s2 =>
            if is_space2 c1 c2 then lstrip s2
            else
              match s2 with
              | EmptyString => s
              | String c3 s3 => if is_space3 c1 c2 c3 then lstrip s3 else s
              end
        end
  end.

(** A text of white space only ([""] included). *)
Definition only_space (s : string) : bool :=
  match lstrip s with
  | EmptyString => true
  | _ => false
  end.

(** [s.rstrip()]: the longest end of the text that is white space only is
    dropped. *)
Fixpoint rstrip (s : string) : string :=
  match s with
  | EmptyString => EmptyString
  | String c s' => if only_space s then EmptyString else String c (rstrip s')
  end.

(** [s.strip()] *)
Definition strip (s : string) : string := rstrip (lstrip s).

(** A text given by its bytes. *)
Definition bytes (l : list nat) : string :=
  fold_right (fun n s => String (ascii_of_nat n) s) EmptyString l.

(** The characters for which [str.isspace()] holds, each as the bytes of
    its UTF-8 encoding: U+0009..U+000D, U+001C..U+0020, U+0085, U+00A0,
    U+1680, U+2000..U+200A, U+2028, U+2029, U+202F, U+205F, U+3000. *)
Definition whitespace_chars : list string :=
  map bytes
      [ [9]; [10]; [11]; [12]; [13]; [28]; [29]; [30]; [31]; [32];
        [194; 133]; [194; 160];
        [225; 154; 128];
        [226; 128; 128]; [226; 128; 129]; [226; 128; 130]; [226; 128; 131];
        [226; 128; 132]; [226; 128; 133]; [226; 128; 134]; [226; 128; 135];
        [226; 128; 136]; [226; 128; 137]; [226; 128; 138];
        [226; 128; 168]; [226; 128; 169]; [226; 128; 175];
        [226; 129; 159];
        [227; 128; 128] ]%nat.

(** The first byte of a white space character. *)
Definition is_start (c : ascii) : bool :=
  let n := nat_of_ascii c in
  is_space c || (n =? 194)%nat || (n =? 225)%nat || (n =? 226)%nat || (n =? 227)%nat.

(** [s.split(sep)] for a one-character separator: the pieces between the
    separators, empty pieces included; the empty string gives one empty
    piece. *)
Fixpoint split (sep : ascii) (s : string) : list string :=
  match s with
  | EmptyString => [EmptyString]
  | String c s' =>
      if Ascii.eqb c sep then EmptyString :: split sep s'
      else match split sep s' with
           | [] => [String c EmptyString]
           | p :: ps => String c p :: ps
           end
  end.

(** Truthiness of a string: [if s]. *)
Definition nonempty (s : string) : bool :=
  match s with
  | EmptyString => false
  | _ => true
  end.

(** Facts about the bytes of white space, as facts about numbers. *)
Ltac bytes_to_nat :=
  unfold is_start, is_space, is_space2, is_space3 in *;
  repeat match goal with
         | c : ascii |- _ =>
             let n := fresh "n" in
             set (n := nat_of_ascii c) in *; clearbody n; clear c
         end;
  repeat match goal with
         | H : _ = false |- _ => apply not_true_iff_false in H
         end;
  try apply not_true_iff_false;
  repeat first [ rewrite orb_true_iff in * | rewrite andb_true_iff in *
               | rewrite Nat.eqb_eq in * | rewrite Nat.leb_le in * ].

(** ** Python objects held by a table *)

Inductive pyobj : Type :=
| PNaN                  (* a missing value: [None] or [nan] *)
| PBool (b : bool)
| PNum (q : Q)          (* an [int] or a [float] *)
| PStr (s : string).

(** [pd.isna(x)] *)
Definition isna (x : pyobj) : bool :=
  match x with
  | PNaN => true
  | _ => false
  end.

(** The tokens [_to_bool01] accepts. *)
Definition truthy_tokens : list string := ["1"; "true"; "yes"; "y"; "t"; "x"].

Definition str_in (s : string) (l : list string) : bool :=
  existsb (String.eqb s) l.

Definition bool01 (b : bool) : Z := if b then 1%Z else 0%Z.

(** [_to_bool01]: "Convert various types to binary 0/1".  A [bool] is an
    [int] for [isinstance]; [str(x)] of a text is the text itself. *)
Definition _to_bool01 (x : pyobj) : Z :=
  if isna x then 0%Z
  else match x with
       | PBool b => bool01 b
       | PNum q => bool01 (negb (Qeq_bool q 0))
       | PStr s => bool01 (str_in (lower (strip s)) truthy_tokens)
       | PNaN => 0%Z
       end.

(** Equality of Python objects as [set] and [dict] see it: [True == 1],
    and a missing value is found by identity.  The missing values of a
    table are taken to be one object, as the cells of a column of objects
    are.  The cells of a column of floats are separate objects, which
    [TransactionEncoder] keeps apart, one column each: for missing items of
    such a column the model has one column where the code has several. *)
Definition py_num (x : pyobj) : option Q :=
  match x with
  | PBool b => Some (if b then 1 else 0)
  | PNum q => Some q
  | _ => None
  end.

Definition py_eqb (x y : pyobj) : bool :=
  match x, y with
  | PNaN, PNaN => true
  | PStr a, PStr b => String.eqb a b
  | _, _ =>
      match py_num x, py_num y with
      | Some a, Some b => Qeq_bool a b
      | _, _ => false
      end
  end.

Definition is_str (x : pyobj) : bool :=
  match x with
  | PStr _ => true
  | _ => false
  end.

(** [x < y] between two texts or between two numbers ([nan] is below
    nothing and nothing is below it). *)
Definition py_ltb (x y : pyobj) : bool :=
  match x, y with
  | PStr a, PStr b => String.ltb a b
  | _, _ =>
      match py_num x, py_num y with
      | Some a, Some b => Qltb a b
      | _, _ => false
      end
  end.

(** ** Lists *)

Section Lists.
Context {A : Type}.

(** Stable insertion sort for a strict order [ltb]: equal elements keep
    their relative order. *)
Fixpoint insert_sorted (ltb : A -> A -> bool) (x : A) (l : list A) : list A :=
  match l with
  | [] => [x]
  | y :: l' => if ltb y x then y :: insert_sorted ltb x l' else x :: l
  end.

Definition isort (ltb : A -> A -> bool) (l : list A) : list A :=
  fold_right (insert_sorted ltb) [] l.

(** The distinct elements of a list, first occurrences kept. *)
Fixpoint dedupe (eqb : A -> A -> bool) (l : list A) : list A :=
  match l with
  | [] => []
  | x :: l' => x :: filter (fun y => negb (eqb x y)) (dedupe eqb l')
  end.

Definition null (l : list A) : bool :=
  match l with
  | [] => true
  | _ => false
  end.

End Lists.

(** [sorted(items)]: comparing a text with a number raises [TypeError]. *)
Definition py_sorted (l : list pyobj) : result (list pyobj) :=
  if forallb is_str l || forallb (fun x => negb (is_str x)) l
  then Ok (isort py_ltb l)
  else Raise TypeError.

(** ** Tables *)

(** A pandas column: [object] dtype holds Python objects, a numeric dtype
    holds numbers or [nan], a [bool] dtype holds booleans. *)
Inductive Series : Type :=
| ObjectSeries (cells : list pyobj)
| NumSeries (cells : list (option Q))
| BoolSeries (cells : list bool).

Definition is_object (s : Series) : bool :=
  match s with
  | ObjectSeries _ => true
  | _ => false
  end.

Definition box_num (o : option Q) : pyobj :=
  match o with
  | Some q => PNum q
  | None => PNaN
  end.

(** The cells of a column as Python objects. *)
Definition series_values (s : Series) : list pyobj :=
  match s with
  | ObjectSeries l => l
  | NumSeries l => map box_num l
  | BoolSeries l => map PBool l
  end.

Record Column : Type := { col_name : string; col_data : Series }.

Definition DataFrame : Type := list Column.

Definition default_column : Column :=
  {| col_name := ""; col_data := ObjectSeries [] |}.

(** [df.shape[1]] *)
Definition ncols (df : DataFrame) : nat := List.length df.

(** [len(df)] *)
Definition nrows (df : DataFrame) : nat :=
  match df with
  | [] => 0%nat
  | c :: _ => List.length (series_values (col_data c))
  end.

(** [df.empty]: some axis has length zero. *)
Definition df_empty (df : DataFrame) : bool :=
  (ncols df =? 0)%nat || (nrows df =? 0)%nat.

(** [df.loc[:, ~df.columns.str.contains('^Unnamed')]] *)
Definition drop_unnamed (df : DataFrame) : DataFrame :=
  filter (fun c => negb (String.prefix "Unnamed" (col_name c))) df.

(** The encoded table: column labels and the 0/1 cells, row by row
    ([df_encoded.values]). *)
Record EncodedDF : Type := { enc_columns : list pyobj; enc_values : list (list Z) }.

(** ** TransactionEncoder (mlxtend) *)

(** [fit]: the distinct items of all transactions, sorted. *)
Definition te_fit (transactions : list (list pyobj)) : result (list pyobj) :=
  py_sorted (dedupe py_eqb (List.concat transactions)).

(** [transform]: one row per transaction, one cell per column. *)
Definition te_transform (columns : list pyobj) (transactions : list (list pyobj))
  : list (list Z) :=
  map (fun t => map (fun c => bool01 (existsb (py_eqb c) t)) columns) transactions.

(** [transactional_to_onehot] *)
Definition transactional_to_onehot (transactions : list (list pyobj))
  : result EncodedDF :=
  let transactions := filter (fun t => negb (null t)) transactions in
  if null transactions
  then Raise (ValueError "No valid transactions found in the data")
  else
    columns <- te_fit transactions ;;
    Ok {| enc_columns := columns; enc_values := te_transform columns transactions |}.

(** ** Format detection *)

(** Order of group keys in [groupby]: numbers before texts. *)
Definition key_ltb (x y : pyobj) : bool :=
  match x, y with
  | PStr _, PStr _ => py_ltb x y
  | PStr _, _ => false
  | _, PStr _ => true
  | _, _ => py_ltb x y
  end.

(** [df.groupby(key)[item].apply(list).tolist()]: rows with a missing key
    are left out, groups come in key order, items in row order. *)
Definition groupby_lists (keys items : list pyobj) : list (list pyobj) :=
  let rows := combine keys items in
  let ks := isort key_ltb (dedupe py_eqb (filter (fun k => negb (isna k)) keys)) in
  map (fun k => map snd (filter (fun r => py_eqb (fst r) k) rows)) ks.

(** ['item' in name.lower() or 'product' in name.lower()] *)
Definition names_item_or_product (name : string) : bool :=
  contains "item" (lower name) || contains "product" (lower name).

(** ['item' in name.lower()] *)
Definition names_item (name : string) : bool := contains "item" (lower name).

Definition comma : ascii := ","%char.

Section Encoding.

(** [str(x)] for a number; what it prints is outside the model. *)
Variable str_num : Q -> string.

(** [str(x)] *)
Definition py_str (x : pyobj) : string :=
  match x with
  | PNaN => "nan"
  | PBool true => "True"
  | PBool false => "False"
  | PNum q => str_num q
  | PStr s => s
  end.

(** [series.fillna("")] *)
Definition fillna_empty (s : Series) : list pyobj :=
  map (fun x => if isna x then PStr "" else x) (series_values s).

(** [[item.strip() for item in str(row).split(",") if item.strip()]] *)
Definition split_items (row : pyobj) : list pyobj :=
  map PStr (filter nonempty (map strip (split comma (py_str row)))).

(** The loop of cases 2 and 3: the non-empty item lists of a column. *)
Definition comma_transactions (s : Series) : list (list pyobj) :=
  filter (fun items => negb (null items)) (map split_items (fillna_empty s)).

(** Case 4, one column: [apply(_to_bool01)] on an [object] column,
    [(column > 0).astype(int)] on any other. *)
Definition binarize (s : Series) : list Z :=
  match s with
  | ObjectSeries l => map _to_bool01 l
  | NumSeries l =>
      map (fun o => match o with
                    | Some q => bool01 (Qltb 0 q)
                    | None => 0%Z
                    end) l
  | BoolSeries l => map bool01 l
  end.

Definition Zsum (l : list Z) : Z := fold_right Z.add 0%Z l.

(** The rows of a table given by its columns. *)
Definition rows_of_columns (n : nat) (cols : list (list Z)) : list (list Z) :=
  map (fun i => map (fun c => nth i c 0%Z) cols) (seq 0 n).

(** Case 4: the table is taken as one-hot encoded already. *)
Definition encode_onehot (df : DataFrame) : result EncodedDF :=
  let encoded := map (fun c => binarize (col_data c)) df in
  if (Zsum (map Zsum encoded) =? 0)%Z
  then Raise (ValueError "No items found in any transaction after encoding")
  else Ok {| enc_columns := map (fun c => PStr (col_name c)) df;
             enc_values := rows_of_columns (nrows df) encoded |}.

(** [detect_and_encode] *)
Definition detect_and_encode (df : DataFrame) : result EncodedDF :=
  if df_empty df then Raise (ValueError "Empty dataframe provided")
  else
    let df := drop_unnamed df in
    let c0 := nth 0 df default_column in
    let c1 := nth 1 df default_column in
    if (ncols df =? 2)%nat && names_item_or_product (col_name c1)
    then
      let grouped := groupby_lists (series_values (col_data c0))
                                   (series_values (col_data c1)) in
      transactional_to_onehot grouped
    else if (ncols df =? 1)%nat
    then
      let transactions := comma_transactions (col_data c0) in
      if null transactions
      then Raise (ValueError "No valid transactions found")
      else transactional_to_onehot transactions
    else
      match filter (fun c => names_item (col_name c)) df with
      | col :: _ =>
          let transactions := comma_transactions (col_data col) in
          if negb (null transactions)
          then transactional_to_onehot transactions
          else encode_onehot df
      | [] => encode_onehot df
      end.

End Encoding.


(** ** Support thresholds *)

Record Suggestions : Type := {
  very_low : Q;
  low : Q;
  conservative : Q;
  moderate : Q;
  strict : Q
}.

(** Column [j] of a matrix given by its rows. *)
Definition column (X : list (list Z)) (j : nat) : list Z :=
  map (fun r => nth j r 0%Z) X.

(** [df_encoded.sum()]: the sum of every column. *)
Definition column_sums (df_encoded : EncodedDF) : list Z :=
  map (fun j => Zsum (column (enc_values df_encoded) j))
      (seq 0 (List.length (enc_columns df_encoded))).

(** [df_encoded.sum() / n_transactions] *)
Definition item_frequencies (df_encoded : EncodedDF) : list Q :=
  let n_transactions := List.length (enc_values df_encoded) in
  map (fun s => inject_Z s / inject_Z (Z.of_nat n_transactions))
      (column_sums df_encoded).

(** [Series.min()]; of no value at all it is [nan], which an encoded table
    (it has a column) never produces. *)
Definition series_min (l : list Q) : Q :=
  match l with
  | [] => 0
  | x :: l' => fold_left py_min l' x
  end.

Definition series_max (l : list Q) : Q :=
  match l with
  | [] => 0
  | x :: l' => fold_left py_max l' x
  end.

(** [Series.median()]: the middle of the sorted values, the mean of the two
    middle ones when their number is even. *)
Definition series_median (l : list Q) : Q :=
  let s := isort Qltb l in
  let n := List.length s in
  if Nat.even n
  then (nth (n / 2 - 1) s 0 + nth (n / 2) s 0) / 2
  else nth (n / 2) s 0.

(** [calculate_optimal_support] *)
Definition calculate_optimal_support (df_encoded : EncodedDF) : Suggestions :=
  let freqs := item_frequencies df_encoded in
  let min_freq := series_min freqs in
  let max_freq := series_max freqs in
  let median_freq := series_median freqs in
  {| very_low := py_max 0.01 (min_freq * 0.5);
     low := py_max 0.02 min_freq;
     conservative := py_max 0.05 (median_freq * 0.3);
     moderate := py_max 0.1 (median_freq * 0.5);
     strict := py_max 0.2 median_freq |}.

(** ** Co-occurrence *)

Definition dot (u v : list Z) : Z :=
  Zsum (map (fun p => (fst p * snd p)%Z) (combine u v)).

(** [X.T @ X] for a matrix of [n] columns. *)
Definition gram (n : nat) (X : list (list Z)) : list (list Z) :=
  map (fun i => map (fun j => dot (column X i) (column X j)) (seq 0 n)) (seq 0 n).

(** [np.fill_diagonal(m, 0)] *)
Definition fill_diagonal0 (m : list (list Z)) : list (list Z) :=
  map (fun ir => map (fun jx => if (fst ir =? fst jx)%nat then 0%Z else snd jx)
                     (combine (seq 0 (List.length (snd ir))) (snd ir)))
      (combine (seq 0 (List.length m)) m).

Record Cooccurrence : Type := { co_labels : list pyobj; co_values : list (list Z) }.

(** [build_cooccurrence] *)
Definition build_cooccurrence (df_encoded : EncodedDF) : Cooccurrence :=
  let X := enc_values df_encoded in
  let mat := gram (List.length (enc_columns df_encoded)) X in
  {| co_labels := enc_columns df_encoded; co_values := fill_diagonal0 mat |}.

(** Cell [(i, j)] of a matrix. *)
Definition cell (m : list (list Z)) (i j : nat) : Z := nth j (nth i m []) 0%Z.

(** ** apriori (mlxtend.frequent_patterns) *)

(** A row of the frequent-itemset table.  The [frozenset] of an itemset is
    kept as the list of its items in column order. *)
Record FrequentItemset : Type := { support : Q; itemsets : list pyobj }.

(** [valid_input_check]: every cell is 0 or 1. *)
Definition valid_input (X : list (list Z)) : bool :=
  forallb (forallb (fun v => (v =? 0)%Z || (v =? 1)%Z)) X.

(** Support of the single columns: [np.sum(X, axis=0) / n_rows]. *)
Definition support1 (X : list (list Z)) (j : nat) : Q :=
  inject_Z (Zsum (column X j)) / inject_Z (Z.of_nat (List.length X)).

(** Support of a combination of columns: the share of the rows of
    [np.all(X[:, combin], axis=2)]. *)
Definition row_has (r : list Z) (combo : list nat) : bool :=
  forallb (fun j => negb (nth j r 0 =? 0)%Z) combo.

Definition support_count (X : list (list Z)) (combo : list nat) : nat :=
  List.length (filter (fun r => row_has r combo) X).

Definition support_of (X : list (list Z)) (combo : list nat) : Q :=
  inject_Z (Z.of_nat (support_count X combo)) / inject_Z (Z.of_nat (List.length X)).

(** [np.unique(old_combinations.flatten())] *)
Definition items_types (old_combinations : list (list nat)) : list nat :=
  isort Nat.ltb (dedupe Nat.eqb (List.concat old_combinations)).

(** [generate_new_combinations]: every old combination extended by every
    item of the previous step above its last item. *)
Definition generate_new_combinations (old_combinations : list (list nat))
  : list (list nat) :=
  let items_types_in_previous_step := items_types old_combinations in
  flat_map (fun old_combination =>
              let max_combination := last old_combination 0%nat in
              let valid_items :=
                filter (fun item => (max_combination <? item)%nat)
                       items_types_in_previous_step in
              map (fun item => old_combination ++ [item]) valid_items)
           old_combinations.

(** The [while] loop, from the combinations kept at one size to those of
    all larger sizes.  It stops of itself when no combination can be formed
    or none is frequent; [fuel] bounds the number of rounds (see
    [apriori_levels_fuel]). *)
Fixpoint apriori_levels (fuel : nat) (X : list (list Z)) (min_support : Q)
  (previous : list (list nat)) : list (list nat * Q) :=
  match fuel with
  | O => []
  | S fuel' =>
      let combin := generate_new_combinations previous in
      if null combin then []
      else
        let scored := map (fun c => (c, support_of X c)) combin in
        let kept := filter (fun p => Qle_bool min_support (snd p)) scored in
        if null kept then []
        else kept ++ apriori_levels fuel' X min_support (map fst kept)
  end.

(** [apriori(df, min_support=min_support, use_colnames=True)] *)
Definition apriori (df : EncodedDF) (min_support : Q) : result (list FrequentItemset) :=
  if Qle_bool min_support 0
  then Raise (ValueError "`min_support` must be a positive number within the interval `(0, 1]`")
  else if negb (valid_input (enc_values df))
  then Raise (ValueError "The allowed values for a DataFrame are True, False, 0, 1")
  else
    let X := enc_values df in
    let n := List.length (enc_columns df) in
    let level1 :=
      filter (fun p => Qle_bool min_support (snd p))
             (map (fun j => ([j], support1 X j)) (seq 0 n)) in
    let all_res := level1 ++ apriori_levels n X min_support (map fst level1) in
    Ok (map (fun p => {| support := snd p;
                         itemsets := map (fun i => nth i (enc_columns df) PNaN) (fst p) |})
            all_res).

(** ** association_rules (mlxtend.frequent_patterns) *)

Record Rule : Type := {
  antecedents : list pyobj;
  consequents : list pyobj;
  antecedent_support : Q;
  consequent_support : Q;
  rule_support : Q;
  confidence : Q;
  lift : Q;
  supporting_transactions : list nat
}.

Definition item_in (x : pyobj) (s : list pyobj) : bool := existsb (py_eqb x) s.

(** Equality of two [frozenset]s. *)
Definition frozenset_eqb (a b : list pyobj) : bool :=
  forallb (fun x => item_in x b) a && forallb (fun x => item_in x a) b.

(** [dict(zip(keys, values))] as an association list in insertion order; a
    key met again keeps its place and takes the new value. *)
Fixpoint dict_set (d : list (list pyobj * Q)) (k : list pyobj) (v : Q)
  : list (list pyobj * Q) :=
  match d with
  | [] => [(k, v)]
  | (k', v') :: d' =>
      if frozenset_eqb k' k then (k', v) :: d' else (k', v') :: dict_set d' k v
  end.

Definition frequent_items_dict (df : list FrequentItemset) : list (list pyobj * Q) :=
  fold_left (fun d r => dict_set d (itemsets r) (support r)) df [].

(** [d[k]], raising [KeyError] for a missing key. *)
Definition dict_get (d : list (list pyobj * Q)) (k : list pyobj) : result Q :=
  match find (fun kv => frozenset_eqb (fst kv) k) d with
  | Some kv => Ok (snd kv)
  | None => Raise KeyError
  end.

(** [itertools.combinations(k, r)] *)
Fixpoint combinations {A : Type} (k : list A) (r : nat) : list (list A) :=
  match r with
  | O => [[]]
  | S r' =>
      match k with
      | [] => []
      | x :: k' => map (cons x) (combinations k' r') ++ combinations k' r
      end
  end.

(** [k.difference(antecedent)] *)
Definition difference (k antecedent : list pyobj) : list pyobj :=
  filter (fun x => negb (item_in x antecedent)) k.

(** [range(len(k) - 1, 0, -1)] *)
Definition range_down (n : nat) : list nat := rev (seq 1 (n - 1)).

Fixpoint sequence {A : Type} (l : list (result A)) : result (list A) :=
  match l with
  | [] => Ok []
  | r :: l' => x <- r ;; xs <- sequence l' ;; Ok (x :: xs)
  end.

(** The candidate rules of one frequent itemset, each with the three
    supports [sAC], [sA], [sC]. *)
Definition candidate_rules (d : list (list pyobj * Q)) (k : list pyobj) (sAC : Q)
  : result (list Rule) :=
  sequence
    (flat_map (fun idx =>
       map (fun antecedent =>
              let consequent := difference k antecedent in
              sA <- dict_get d antecedent ;;
              sC <- dict_get d consequent ;;
              Ok {| antecedents := antecedent;
                    consequents := consequent;
                    antecedent_support := sA;
                    consequent_support := sC;
                    rule_support := sAC;
                    confidence := sAC / sA;
                    lift := (sAC / sA) / sC;
                    supporting_transactions := [] |})
           (combinations k idx))
       (range_down (List.length k))).

(** [association_rules(df, metric="confidence", min_threshold=min_threshold)]:
    the candidates whose confidence reaches the threshold.  The columns
    leverage, conviction and zhangs_metric of the library's table are left
    out, and the candidates of an itemset come in the order of its items,
    where the library follows the iteration order of the [frozenset]. *)
Definition association_rules (df : list FrequentItemset) (min_threshold : Q)
  : result (list Rule) :=
  if null df
  then Raise (ValueError "The input DataFrame `df` containing the frequent itemsets is empty.")
  else
    let d := frequent_items_dict df in
    candidates <- sequence (map (fun kv => candidate_rules d (fst kv) (snd kv)) d) ;;
    Ok (filter (fun r => Qle_bool min_threshold (confidence r)) (List.concat candidates)).

(** ** The analysis pipeline *)

(** [sort_values("support", ascending=False)], and also
    [sorted(..., key=support, reverse=True)]: rows of greater support first.
    Rows of equal support stay in the order they came in; Python's [sorted]
    promises that, the default sort of pandas promises no order among them,
    and the properties proved of the sorted table use none. *)
Definition sort_by_support_desc (fi : list FrequentItemset) : list FrequentItemset :=
  isort (fun y x => Qltb (support x) (support y)) fi.

(** Position of a column label in the encoded table. *)
Fixpoint column_index (columns : list pyobj) (x : pyobj) : result nat :=
  match columns with
  | [] => Raise KeyError
  | c :: columns' =>
      if py_eqb c x then Ok 0%nat
      else i <- column_index columns' x ;; Ok (S i)
  end.

(** [find_supporting_transactions]: the index of every row that has all
    the items of the rule. *)
Definition find_supporting_transactions (df_encoded : EncodedDF) (row : Rule)
  : result (list nat) :=
  let all_items := dedupe py_eqb (antecedents row ++ consequents row) in
  if null all_items then Ok []
  else
    cols <- sequence (map (column_index (enc_columns df_encoded)) all_items) ;;
    let X := enc_values df_encoded in
    Ok (map fst (filter (fun ir => row_has (snd ir) cols)
                        (combine (seq 0 (List.length X)) X))).

Definition with_supporting_transactions (row : Rule) (l : list nat) : Rule :=
  {| antecedents := antecedents row;
     consequents := consequents row;
     antecedent_support := antecedent_support row;
     consequent_support := consequent_support row;
     rule_support := rule_support row;
     confidence := confidence row;
     lift := lift row;
     supporting_transactions := l |}.

(** [clean_for_json]: every [frozenset] becomes the sorted list of its
    items. *)
Definition clean_itemsets (fi : list FrequentItemset) : result (list FrequentItemset) :=
  sequence (map (fun r => s <- py_sorted (itemsets r) ;;
                          Ok {| support := support r; itemsets := s |}) fi).

Definition clean_rules (rules : list Rule) : result (list Rule) :=
  sequence (map (fun r => a <- py_sorted (antecedents r) ;;
                          c <- py_sorted (consequents r) ;;
                          Ok {| antecedents := a;
                                consequents := c;
                                antecedent_support := antecedent_support r;
                                consequent_support := consequent_support r;
                                rule_support := rule_support r;
                                confidence := confidence r;
                                lift := lift r;
                                supporting_transactions := supporting_transactions r |})
                rules).

Record Meta : Type := {
  meta_file_name : option string;
  meta_n_transactions : nat;
  meta_n_items : nat;
  meta_min_support : Q;
  meta_min_confidence : Q;
  meta_n_frequent_itemsets : nat;
  meta_n_rules : nat;
  meta_support_suggestions : Suggestions
}.

(** The global [STATE] after an analysis. *)
Record State : Type := {
  st_df_raw : DataFrame;
  st_df_encoded : EncodedDF;
  st_frequent_itemsets : list FrequentItemset;
  st_rules : list Rule;
  st_cooccurrence : Cooccurrence;
  st_meta : Meta
}.

(** What an [HTTPException] reports. *)
Inductive Detail : Type :=
| MinSupportOutOfRange        (* "min_support must be between 0 and 1" *)
| MinConfidenceOutOfRange     (* "min_confidence must be between 0 and 1" *)
| CsvFileEmpty                (* "CSV file is empty" *)
| NoFrequentItemsets          (* no frequent itemsets found *)
| AprioriError (e : exn)      (* the text of an exception of [apriori] *)
| ErrorProcessingFile (e : exn).

Inductive response (A : Type) : Type :=
| Success (a : A)
| HTTPException (status_code : nat) (detail : Detail).

Arguments Success {A} a.
Arguments HTTPException {A} status_code detail.

(** [file.filename and "sample_transactions" in file.filename] *)
Definition is_sample_file (filename : option string) : bool :=
  match filename with
  | Some name => nonempty name && contains "sample_transactions" name
  | None => false
  end.

(** "Run Apriori algorithm with automatic support adjustment if needed":
    the itemsets and the [min_support] they were mined at. *)
Definition apriori_with_adjustment (df_encoded : EncodedDF) (min_support : Q)
  (support_suggestions : Suggestions) : response (list FrequentItemset * Q) :=
  match apriori df_encoded min_support with
  | Raise e => HTTPException 400 (AprioriError e)
  | Ok frequent_itemsets =>
      let retried :=
        if null frequent_itemsets && Qltb (very_low support_suggestions) min_support
        then (apriori df_encoded (very_low support_suggestions),
              very_low support_suggestions)
        else (Ok frequent_itemsets, min_support) in
      match fst retried with
      | Raise e => HTTPException 400 (AprioriError e)
      | Ok frequent_itemsets =>
          if null frequent_itemsets
          then HTTPException 400 NoFrequentItemsets
          else Success (frequent_itemsets, snd retried)
      end
  end.

(** "Generate association rules": the rules and the [min_confidence] they
    were filtered at; any exception leaves no rules. *)
Definition rules_with_adjustment (frequent_itemsets : list FrequentItemset)
  (min_confidence : Q) : list Rule * Q :=
  if (1 <? List.length frequent_itemsets)%nat
  then
    match association_rules frequent_itemsets min_confidence with
    | Raise _ => ([], min_confidence)
    | Ok rules =>
        if null rules && Qltb 0.1 min_confidence
        then match association_rules frequent_itemsets 0.1 with
             | Raise _ => ([], 0.1)
             | Ok rules => (rules, 0.1)
             end
        else (rules, min_confidence)
    end
  else ([], min_confidence).

Definition in_unit_interval (x : Q) : bool := Qltb 0 x && Qle_bool x 1.

Section Pipeline.

Variable str_num : Q -> string.

(** [upload_dataset], from the parsed table on. *)
Definition upload_dataset (filename : option string) (df_raw : DataFrame)
  (min_support min_confidence : Q) : response State :=
  if negb (in_unit_interval min_support) then HTTPException 400 MinSupportOutOfRange
  else if negb (in_unit_interval min_confidence)
  then HTTPException 400 MinConfidenceOutOfRange
  else if df_empty df_raw then HTTPException 400 CsvFileEmpty
  else
    match detect_and_encode str_num df_raw with
    | Raise e => HTTPException 500 (ErrorProcessingFile e)
    | Ok df_encoded =>
        let n_tx := List.length (enc_values df_encoded) in
        let n_items := List.length (enc_columns df_encoded) in
        let support_suggestions := calculate_optimal_support df_encoded in
        let min_support :=
          if is_sample_file filename then py_min min_support 0.05 else min_support in
        match apriori_with_adjustment df_encoded min_support support_suggestions with
        | HTTPException status_code detail => HTTPException status_code detail
        | Success (frequent_itemsets, min_support) =>
            let frequent_itemsets := sort_by_support_desc frequent_itemsets in
            let (rules, min_confidence) :=
              rules_with_adjustment frequent_itemsets min_confidence in
            let finished :=
              supporting <- sequence (map (find_supporting_transactions df_encoded) rules) ;;
              let rules := map (fun p => with_supporting_transactions (fst p) (snd p))
                               (combine rules supporting) in
              let cooccurrence := build_cooccurrence df_encoded in
              fi_json <- clean_itemsets frequent_itemsets ;;
              rules_json <- clean_rules rules ;;
              Ok {| st_df_raw := df_raw;
                    st_df_encoded := df_encoded;
                    st_frequent_itemsets := fi_json;
                    st_rules := rules_json;
                    st_cooccurrence := cooccurrence;
                    st_meta :=
                      {| meta_file_name := filename;
                         meta_n_transactions := n_tx;
                         meta_n_items := n_items;
                         meta_min_support := min_support;
                         meta_min_confidence := min_confidence;
                         meta_n_frequent_itemsets := List.length frequent_itemsets;
                         meta_n_rules := List.length rules;
                         meta_support_suggestions := support_suggestions |} |} in
            match finished with
            | Ok st => Success st
            | Raise e => HTTPException 500 (ErrorProcessingFile e)
            end
        end
    end.

End Pipeline.

(** [get_frequent_itemsets]: the itemsets of the last analysis, "sorted by
    support in descending order". *)
Definition get_frequent_itemsets (STATE : option State) : list FrequentItemset :=
  match STATE with
  | None => []
  | Some st => sort_by_support_desc (st_frequent_itemsets st)
  end.

(** ** The statements of the specification, as definitions *)

(** The four formats of the table, one per detection rule. *)
Inductive Format : Type :=
| GroupedIdItem
| SingleColumnList
| NamedItemColumn
| AlreadyEncoded.

(** The first column whose name contains "item". *)
Definition named_item_column (df : DataFrame) : option Column :=
  find (fun c => names_item (col_name c)) df.

(** Rules 1 to 4 as the specification words them, first match wins; rule 3
    asks only for a column whose name contains "item". *)
Definition detect_format_spec (df : DataFrame) : Format :=
  if (ncols df =? 2)%nat && names_item_or_product (col_name (nth 1 df default_column))
  then GroupedIdItem
  else if (ncols df =? 1)%nat then SingleColumnList
  else match named_item_column df with
       | Some _ => NamedItemColumn
       | None => AlreadyEncoded
       end.

Section Formats.

Variable str_num : Q -> string.

(** Rules 1 to 4 as the code applies them: rule 3 matches when the named
    column also yields a transaction. *)
Definition detect_format (df : DataFrame) : Format :=
  if (ncols df =? 2)%nat && names_item_or_product (col_name (nth 1 df default_column))
  then GroupedIdItem
  else if (ncols df =? 1)%nat then SingleColumnList
  else match named_item_column df with
       | Some col =>
           if null (comma_transactions str_num (col_data col))
           then AlreadyEncoded
           else NamedItemColumn
       | None => AlreadyEncoded
       end.

(** The comma-split strategy of rule 2: split every cell, discard empty
    items, drop the rows left without item; no row left is an error. *)
Definition comma_split_strategy (s : Series) : result EncodedDF :=
  let transactions := comma_transactions str_num s in
  if null transactions
  then Raise (ValueError "No valid transactions found")
  else transactional_to_onehot transactions.

(** The encoding each format stands for. *)
Definition encode_as (f : Format) (df : DataFrame) : result EncodedDF :=
  match f with
  | GroupedIdItem =>
      transactional_to_onehot
        (groupby_lists (series_values (col_data (nth 0 df default_column)))
                       (series_values (col_data (nth 1 df default_column))))
  | SingleColumnList => comma_split_strategy (col_data (nth 0 df default_column))
  | NamedItemColumn =>
      match named_item_column df with
      | Some col => comma_split_strategy (col_data col)
      | None => encode_onehot df
      end
  | AlreadyEncoded => encode_onehot df
  end.

End Formats.

(** The order the specification gives to the mined itemsets: support
    descending, then size ascending, then the items in lexicographic
    order. *)
Fixpoint lex_leb (a b : list pyobj) : bool :=
  match a, b with
  | [], _ => true
  | _ :: _, [] => false
  | x :: a', y :: b' => py_ltb x y || (py_eqb x y && lex_leb a' b')
  end.

Definition spec_before (a b : FrequentItemset) : bool :=
  Qltb (support b) (support a) ||
  (Qeq_bool (support a) (support b) &&
   ((List.length (itemsets a) <? List.length (itemsets b))%nat ||
    ((List.length (itemsets a) =? List.length (itemsets b))%nat &&
     lex_leb (itemsets a) (itemsets b)))).

Fixpoint sorted_by {A : Type} (before : A -> A -> bool) (l : list A) : bool :=
  match l with
  | [] => true
  | x :: l' => forallb (before x) l' && sorted_by before l'
  end.

(** Number of transactions that hold both item [i] and item [j]. *)
Definition both_count (X : list (list Z)) (i j : nat) : Z :=
  Z.of_nat (List.length
    (filter (fun r => (nth i r 0 =? 1)%Z && (nth j r 0 =? 1)%Z) X)).

Definition binary_matrix (X : list (list Z)) : Prop :=
  Forall (Forall (fun v => v = 0%Z \/ v = 1%Z)) X.

(** Minimum and median of a list of frequencies, as the words say. *)
Definition is_minimum (l : list Q) (m : Q) : Prop :=
  In m l /\ Forall (fun x => m <= x) l.

Definition is_median (l : list Q) (m : Q) : Prop :=
  exists s : list Q,
    Permutation l s /\ StronglySorted Qle s /\
    let n := List.length s in
    (Nat.even n = true -> m == (nth (n / 2 - 1) s 0 + nth (n / 2) s 0) / 2) /\
    (Nat.even n = false -> m == nth (n / 2) s 0).

(** The threshold mining starts from: the one asked for, capped at 0.05
    for a file named after the sample transactions. *)
Definition starting_support (filename : option string) (min_support : Q) : Q :=
  if is_sample_file filename then py_min min_support 0.05 else min_support.

(** What an analysis hands out: the itemsets and the rules. *)
Definition analysis_result (r : response State)
  : response (list FrequentItemset * list Rule) :=
  match r with
  | Success st => Success (st_frequent_itemsets st, st_rules st)
  | HTTPException status_code detail => HTTPException status_code detail
  end.

(** A combination of column indices: increasing, and below the number of
    columns. *)
Definition combination_of (n : nat) (c : list nat) : Prop :=
  StronglySorted lt c /\ Forall (fun i => (i < n)%nat) c.



(** ** Example tables *)

(** No example below prints a number into a text; they are run with this
    printer. *)
Definition str_num_unused (q : Q) : string := "".

Definition numbers (l : list Q) : Series := NumSeries (map Some l).

(** A one-hot table with the columns "b" and "a", in that order. *)
Definition table_ba : DataFrame :=
  [ {| col_name := "b"; col_data := numbers [1; 1; 0; 0] |};
    {| col_name := "a"; col_data := numbers [1; 0; 1; 0] |} ].

Definition encoded_ba : EncodedDF :=
  {| enc_columns := [PStr "b"; PStr "a"];
     enc_values := [[1; 1]; [1; 0]; [0; 1]; [0; 0]]%Z |}.

(** A table whose "items" column is blank throughout, next to a one-hot
    column. *)
Definition table_blank_items : DataFrame :=
  [ {| col_name := "items"; col_data := NumSeries [None; None] |};
    {| col_name := "a"; col_data := numbers [1; 0] |} ].

(** A one-hot table with a negative number in a numeric column. *)
Definition table_negative : DataFrame :=
  [ {| col_name := "a"; col_data := numbers [-1; 1] |};
    {| col_name := "b"; col_data := numbers [1; 0] |} ].

(** A table of three columns, the first one the unnamed index column that
    a saved table carries. *)
Definition table_unnamed : DataFrame :=
  [ {| col_name := "Unnamed: 0"; col_data := numbers [0; 1; 2] |};
    {| col_name := "tid"; col_data := numbers [1; 1; 2] |};
    {| col_name := "item"; col_data := ObjectSeries [PStr "milk"; PStr "bread"; PStr "milk"] |} ].

(** A table with a column and no row. *)
Definition table_no_rows : DataFrame :=
  [ {| col_name := "items"; col_data := ObjectSeries [] |} ].

(** ** The other endpoints *)

(** The answer of an endpoint: what it returns, or the status code of the
    error response. *)
Inductive http_result (A : Type) : Type :=
| HttpOk (a : A)
| HttpError (status_code : nat).

Arguments HttpOk {A} a.
Arguments HttpError {A} status_code.

(** [sep.join(l)] *)
Fixpoint join (sep : string) (l : list string) : string :=
  match l with
  | [] => EmptyString
  | s :: l' =>
      match l' with
      | [] => s
      | _ => String.append s (String.append sep (join sep l'))
      end
  end.

(** [int(x)]: the fraction is cut off. *)
Definition py_int (x : Q) : Z := Z.quot (Qnum x) (Zpos (Qden x)).

(** [Series.idxmax()] and [Series.idxmin()]: the label of the first
    greatest (smallest) value. *)
Definition idx_first (better : Q -> Q -> bool) (labels : list pyobj) (values : list Q)
  : pyobj :=
  match combine labels values with
  | [] => PNaN
  | p :: ps => fst (fold_left (fun best x => if better (snd best) (snd x) then x else best)
                              ps p)
  end.

Definition idxmax : list pyobj -> list Q -> pyobj := idx_first (fun best x => Qltb best x).

Definition idxmin : list pyobj -> list Q -> pyobj := idx_first (fun best x => Qltb x best).

Record ItemFrequency : Type := { item_name : pyobj; item_frequency : Q }.

(** The [stats] and the [recommendations] of [analyze_dataset]. *)
Record Stats : Type := {
  stats_n_transactions : nat;
  stats_n_items : nat;
  avg_items_per_transaction : Q;
  sparsity : Q;
  most_frequent_item : ItemFrequency;
  least_frequent_item : ItemFrequency;
  stats_support_suggestions : Suggestions;
  suggested_min_support : Q;
  suggested_min_confidence : Q
}.

(** [df_encoded.sum().sum()] *)
Definition total_sum (df_encoded : EncodedDF) : Z := Zsum (column_sums df_encoded).

(** [df_encoded.sum(axis=1).mean()] *)
Definition mean_row_sum (df_encoded : EncodedDF) : Q :=
  inject_Z (Zsum (map Zsum (enc_values df_encoded)))
  / inject_Z (Z.of_nat (List.length (enc_values df_encoded))).

(** The statistics [analyze_dataset] computes of an encoded table. *)
Definition dataset_stats (df_encoded : EncodedDF) : Stats :=
  let n_tx := List.length (enc_values df_encoded) in
  let n_items := List.length (enc_columns df_encoded) in
  let freqs := item_frequencies df_encoded in
  let support_suggestions := calculate_optimal_support df_encoded in
  {| stats_n_transactions := n_tx;
     stats_n_items := n_items;
     avg_items_per_transaction := mean_row_sum df_encoded;
     sparsity := 1 - inject_Z (total_sum df_encoded)
                     / inject_Z (Z.of_nat (n_tx * n_items));
     most_frequent_item :=
       {| item_name := idxmax (enc_columns df_encoded) freqs;
          item_frequency := series_max freqs |};
     least_frequent_item :=
       {| item_name := idxmin (enc_columns df_encoded) freqs;
          item_frequency := series_min freqs |};
     stats_support_suggestions := support_suggestions;
     suggested_min_support := low support_suggestions;
     suggested_min_confidence := 0.3 |}.

(** What the JSON encoder of the response makes of the name of an item.
    The name is the column label as [idxmax] hands it over: a text is
    always accepted; a label that is no text is a numpy scalar or [nan],
    which the encoder refuses unless it is a [float] it can write.  A table
    does not record whether a number is an [int] or a [float], so the
    verdict on a label that is no text is the parameter [json_other]. *)
Definition json_label (json_other : pyobj -> bool) (x : pyobj) : bool :=
  match x with
  | PStr _ => true
  | _ => json_other x
  end.

(** [analyze_dataset], from the parsed table on.  Every exception of the
    body is caught and answered with status 500: the [HTTPException] of
    the empty table, what [detect_and_encode] raises, and what
    [JSONResponse] raises of a name it cannot encode, since the response
    is built inside the [try]. *)
Definition analyze_dataset (str_num : Q -> string) (json_other : pyobj -> bool)
  (df_raw : DataFrame) : http_result Stats :=
  if df_empty df_raw then HttpError 500
  else match detect_and_encode str_num df_raw with
       | Raise _ => HttpError 500
       | Ok df_encoded =>
           let stats := dataset_stats df_encoded in
           if json_label json_other (item_name (most_frequent_item stats))
              && json_label json_other (item_name (least_frequent_item stats))
           then HttpOk stats
           else HttpError 500
       end.

(** A rule as [get_rules] hands it to the frontend. *)
Record RuleJson : Type := {
  rj_antecedent : list pyobj;
  rj_consequent : list pyobj;
  rj_support : Q;
  rj_confidence : Q;
  rj_lift : Q;
  rj_n_transactions : Z
}.

(** The rules [get_rules] shows "for demonstration" when there is none. *)
Definition sample_rules : list RuleJson :=
  [ {| rj_antecedent := [PStr "Bread"; PStr "Butter"];
       rj_consequent := [PStr "Milk"];
       rj_support := 0.2; rj_confidence := 0.8; rj_lift := 1.5;
       rj_n_transactions := 10 |};
    {| rj_antecedent := [PStr "Beer"];
       rj_consequent := [PStr "Chips"];
       rj_support := 0.15; rj_confidence := 0.7; rj_lift := 1.3;
       rj_n_transactions := 8 |} ].

(** [get_rules] (the endpoint [/rules]); [STATE] is [None] before any
    analysis. *)
Definition get_rules (STATE : option State) : list RuleJson :=
  match STATE with
  | None => sample_rules
  | Some st =>
      if null (st_rules st) then sample_rules
      else map (fun row =>
                  {| rj_antecedent := antecedents row;
                     rj_consequent := consequents row;
                     rj_support := rule_support row;
                     rj_confidence := confidence row;
                     rj_lift := lift row;
                     rj_n_transactions :=
                       py_int (rule_support row
                               * inject_Z (Z.of_nat (meta_n_transactions (st_meta st)))) |})
               (st_rules st)
  end.

(** [get_support_suggestions]: 404 when no table is loaded. *)
Definition get_support_suggestions (STATE : option State) : http_result Suggestions :=
  match STATE with
  | None => HttpError 404
  | Some st => HttpOk (calculate_optimal_support (st_df_encoded st))
  end.

(** The global [STATE] across an upload: a successful analysis takes the
    place of the last one, a failed one leaves it. *)
Definition upload_dataset_state (str_num : Q -> string) (STATE : option State)
  (filename : option string) (df_raw : DataFrame) (min_support min_confidence : Q)
  : option State :=
  match upload_dataset str_num filename df_raw min_support min_confidence with
  | Success st => Some st
  | HTTPException _ _ => STATE
  end.

(** The table [get_sample_dataset] builds of a sample: one column "items",
    one comma-joined cell per basket. *)
Definition sample_table (data : list (list string)) : DataFrame :=
  [ {| col_name := "items";
       col_data := ObjectSeries (map (fun row => PStr (join "," row)) data) |} ].

(** An item that survives being joined and split: not empty, of no comma,
    with no space around it. *)
Fixpoint has_char (c : ascii) (s : string) : bool :=
  match s with
  | EmptyString => false
  | String c' s' => Ascii.eqb c' c || has_char c s'
  end.

Definition clean_item (s : string) : Prop :=
  nonempty s = true /\ has_char comma s = false /\ strip s = s.

(** Every column of a table has as many cells as the table has rows. *)
Definition rectangular_table (df : DataFrame) : Prop :=
  Forall (fun c => List.length (series_values (col_data c)) = nrows df) df.

(** A number between 0 and 1. *)
Definition in_unit (q : Q) : Prop := 0 <= q /\ q <= 1.


(** Orders and the numbers of their products: the items are integers. *)
Definition table_product_ids : DataFrame :=
  [ {| col_name := "order_id"; col_data := numbers [1; 1; 2] |};
    {| col_name := "product_id"; col_data := numbers [10; 20; 10] |} ].

(** The JSON encoder on the labels of an index of integers: none is
    accepted. *)
Definition json_text_only (x : pyobj) : bool := false.

(** White space of one, two and three bytes: U+00A0, a space and
    U+2003. *)
Definition blank_example : list string :=
  [bytes [194; 160]; bytes [32]; bytes [226; 128; 131]]%nat.

(** Three baskets, the second one empty. *)
Definition baskets_example : list (list string) :=
  [["milk"; "bread"]; []; ["milk"]].


(** * Properties *)

(** ** Sorting *)

Section SortFacts.
Context {A : Type} (ltb : A -> A -> bool) (R : A -> A -> Prop).
Hypothesis R_trans : forall a b c, R a b -> R b c -> R a c.
Hypothesis ltb_true : forall y x, ltb y x = true -> R y x.
Hypothesis ltb_false : forall y x, ltb y x = false -> R x y.

Lemma insert_sorted_perm (x : A) (l : list A) :
  Permutation (x :: l) (insert_sorted ltb x l).
Proof.
  induction l as [|y l IH]; simpl.
  - apply Permutation_refl.
  - destruct (ltb y x).
    + eapply perm_trans; [apply perm_swap|].
      now apply perm_skip.
    + apply Permutation_refl.
Qed.

Lemma isort_perm (l : list A) : Permutation l (isort ltb l).
Proof.
  induction l as [|x l IH]; simpl.
  - constructor.
  - eapply perm_trans; [|apply insert_sorted_perm].
    now apply perm_skip.
Qed.

Lemma insert_sorted_sorted (x : A) (l : list A) :
  StronglySorted R l -> StronglySorted R (insert_sorted ltb x l).
Proof.
  induction 1 as [|y l Hs IH Hy]; simpl.
  - repeat constructor.
  - destruct (ltb y x) eqn:E.
    + constructor; [exact IH|].
      eapply Permutation_Forall; [apply insert_sorted_perm|].
      constructor; [now apply ltb_true | exact Hy].
    + constructor; [now constructor|].
      constructor; [now apply ltb_false|].
      eapply Forall_impl; [|exact Hy].
      intros z Hz. eapply R_trans; [apply ltb_false; exact E | exact Hz].
Qed.

Lemma isort_sorted (l : list A) : StronglySorted R (isort ltb l).
Proof.
  induction l as [|x l IH]; simpl.
  - constructor.
  - now apply insert_sorted_sorted.
Qed.

End SortFacts.

Lemma Qltb_true (a b : Q) : Qltb a b = true -> a < b.
Proof.
  unfold Qltb. intros H. apply negb_true_iff in H.
  apply Qnot_le_lt. intros Hle. apply Qle_bool_iff in Hle. congruence.
Qed.

Lemma Qltb_false (a b : Q) : Qltb a b = false -> b <= a.
Proof.
  unfold Qltb. intros H. apply negb_false_iff in H. now apply Qle_bool_iff.
Qed.

Lemma py_max_Qmax (a b : Q) : py_max a b == Qmax a b.
Proof.
  unfold py_max. destruct (Qltb a b) eqn:E.
  - apply Qltb_true in E. symmetry. apply Q.max_r. now apply Qlt_le_weak.
  - apply Qltb_false in E. symmetry. now apply Q.max_l.
Qed.

(** ** Encoding *)

Lemma filter_head_find {A : Type} (f : A -> bool) (l : list A) :
  find f l = match filter f l with
             | x :: _ => Some x
             | [] => None
             end.
Proof.
  induction l as [|x l IH]; simpl; [reflexivity|].
  destruct (f x); [reflexivity | exact IH].
Qed.

Lemma nrows_zero_empty (df : DataFrame) : nrows df = 0%nat -> df_empty df = true.
Proof.
  intros H. unfold df_empty. rewrite H. apply orb_true_r.
Qed.

Section EncodingFacts.

Variable str_num : Q -> string.

(** What [detect_and_encode] does once the table is known not to be empty,
    read off the remaining columns. *)
Lemma detect_and_encode_nonempty (df : DataFrame) :
  df_empty df = false ->
  detect_and_encode str_num df =
  encode_as str_num (detect_format str_num (drop_unnamed df)) (drop_unnamed df).
Proof.
  intros Hne. unfold detect_and_encode. rewrite Hne.
  set (d := drop_unnamed df).
  unfold detect_format, encode_as, named_item_column.
  destruct ((ncols d =? 2)%nat && names_item_or_product (col_name (nth 1 d default_column)));
    [reflexivity|].
  destruct (ncols d =? 1)%nat; [reflexivity|].
  rewrite filter_head_find.
  destruct (filter (fun c => names_item (col_name c)) d) as [|col rest] eqn:Hf;
    [reflexivity|].
  unfold comma_split_strategy.
  destruct (null (comma_transactions str_num (col_data col))) eqn:Hn; simpl.
  - reflexivity.
  - reflexivity.
Qed.

(** C9. A table with zero rows is refused at once with the error "Empty
    dataframe provided", and an upload of such a table ends in an error
    response, never in an analysis result. *)
Theorem empty_table_rejected (filename : option string) (df : DataFrame)
  (min_support min_confidence : Q) :
  nrows df = 0%nat ->
  detect_and_encode str_num df = Raise (ValueError "Empty dataframe provided") /\
  exists detail,
    upload_dataset str_num filename df min_support min_confidence
    = HTTPException 400 detail.
Proof.
  intros H. apply nrows_zero_empty in H. split.
  - unfold detect_and_encode. now rewrite H.
  - unfold upload_dataset.
    destruct (negb (in_unit_interval min_support)); [eauto|].
    destruct (negb (in_unit_interval min_confidence)); [eauto|].
    rewrite H. eauto.
Qed.

(** C10. For a table that is not empty, the columns whose name begins with
    "Unnamed" are dropped before any rule is tried: the columns kept are
    exactly the others, two tables with the same remaining columns are
    encoded alike, and the two-column and one-column rules look at the
    remaining columns only. *)
Theorem unnamed_columns_dropped (df : DataFrame) :
  df_empty df = false ->
  (forall c, In c (drop_unnamed df) <->
             In c df /\ String.prefix "Unnamed" (col_name c) = false) /\
  (forall df', df_empty df' = false -> drop_unnamed df' = drop_unnamed df ->
               detect_and_encode str_num df' = detect_and_encode str_num df) /\
  (forall c0 c1, drop_unnamed df = [c0; c1] ->
                 names_item_or_product (col_name c1) = true ->
                 detect_and_encode str_num df =
                 transactional_to_onehot
                   (groupby_lists (series_values (col_data c0))
                                  (series_values (col_data c1)))) /\
  (forall c0, drop_unnamed df = [c0] ->
              detect_and_encode str_num df = comma_split_strategy str_num (col_data c0)).
Proof.
  intros Hne. split; [|split; [|split]].
  - intros c. unfold drop_unnamed. rewrite filter_In, negb_true_iff. tauto.
  - intros df' Hne' Heq.
    rewrite (detect_and_encode_nonempty df' Hne'), (detect_and_encode_nonempty df Hne).
    now rewrite Heq.
  - intros c0 c1 Hd Hname. rewrite (detect_and_encode_nonempty df Hne), Hd.
    unfold detect_format. simpl. rewrite Hname. reflexivity.
  - intros c0 Hd. rewrite (detect_and_encode_nonempty df Hne), Hd. reflexivity.
Qed.

(** C5, as amended. For a table that is not empty the rules are tried in
    the fixed order 1, 2, 3, 4 on the columns left after the "Unnamed" ones
    are dropped, and the first match decides the encoding, where rule 3
    matches only when the first column named "item" yields at least one
    transaction; otherwise the one-hot fallback is taken. *)
Theorem detect_and_encode_format (df : DataFrame) :
  df_empty df = false ->
  detect_and_encode str_num df =
  encode_as str_num (detect_format str_num (drop_unnamed df)) (drop_unnamed df) /\
  (detect_format str_num (drop_unnamed df) <> detect_format_spec (drop_unnamed df) ->
   detect_format_spec (drop_unnamed df) = NamedItemColumn /\
   detect_format str_num (drop_unnamed df) = AlreadyEncoded /\
   exists col, named_item_column (drop_unnamed df) = Some col /\
               comma_transactions str_num (col_data col) = []).
Proof.
  intros Hne. split; [now apply detect_and_encode_nonempty|].
  unfold detect_format, detect_format_spec.
  set (d := drop_unnamed df).
  destruct ((ncols d =? 2)%nat && names_item_or_product (col_name (nth 1 d default_column)));
    [congruence|].
  destruct (ncols d =? 1)%nat; [congruence|].
  destruct (named_item_column d) as [col|]; [|congruence].
  destruct (comma_transactions str_num (col_data col)) eqn:Ht; simpl; [|congruence].
  intros _. repeat split. exists col. now split.
Qed.

End EncodingFacts.

(** ** One-hot cells *)

Lemma to_bool01_text (s : string) :
  _to_bool01 (PStr s) = 1%Z <-> In (lower (strip s)) truthy_tokens.
Proof.
  unfold _to_bool01, str_in. simpl isna. cbv iota.
  destruct (existsb (String.eqb (lower (strip s))) truthy_tokens) eqn:E; simpl.
  - split; [intros _|reflexivity].
    apply existsb_exists in E. destruct E as [t [Hin Heq]].
    apply String.eqb_eq in Heq. now subst.
  - split; [discriminate|]. intros Hin. exfalso.
    assert (existsb (String.eqb (lower (strip s))) truthy_tokens = true) as E'.
    { apply existsb_exists. eexists. split; [exact Hin|]. apply String.eqb_refl. }
    congruence.
Qed.

Lemma to_bool01_binary (x : pyobj) : _to_bool01 x = 0%Z \/ _to_bool01 x = 1%Z.
Proof.
  destruct x as [|b|q|s]; unfold _to_bool01; cbn [isna].
  - now left.
  - destruct b; [right | left]; reflexivity.
  - destruct (Qeq_bool q 0); [left | right]; reflexivity.
  - destruct (str_in (lower (strip s)) truthy_tokens); [right | left]; reflexivity.
Qed.

(** ** Co-occurrence *)

Lemma nth_map_seq {B : Type} (f : nat -> B) (n i : nat) (d : B) :
  (i < n)%nat -> nth i (map f (seq 0 n)) d = f i.
Proof.
  intros Hi.
  rewrite (nth_indep _ d (f 0%nat)) by (now rewrite length_map, length_seq).
  rewrite map_nth, seq_nth by exact Hi. reflexivity.
Qed.

Lemma nth_indexed {A B : Type} (g : nat -> A -> B) (l : list A) (s i : nat) (d : B) :
  nth i (map (fun p => g (fst p) (snd p)) (combine (seq s (List.length l)) l)) d =
  match nth_error l i with
  | Some x => g (s + i)%nat x
  | None => d
  end.
Proof.
  revert s i. induction l as [|x l IH]; intros s i.
  - destruct i; reflexivity.
  - destruct i as [|i]; simpl.
    + now rewrite Nat.add_0_r.
    + rewrite IH. now rewrite Nat.add_succ_r.
Qed.

Lemma cell_out_of_range (m : list (list Z)) (i j : nat) :
  nth_error m i = None -> cell m i j = 0%Z.
Proof.
  intros H. unfold cell. apply nth_error_None in H.
  rewrite (nth_overflow m [] H). now destruct j.
Qed.

Lemma cell_fill_diagonal0 (m : list (list Z)) (i j : nat) :
  cell (fill_diagonal0 m) i j = if (i =? j)%nat then 0%Z else cell m i j.
Proof.
  unfold fill_diagonal0.
  unfold cell at 1.
  rewrite (nth_indexed
             (fun i row => map (fun jx => if (i =? fst jx)%nat then 0%Z else snd jx)
                               (combine (seq 0 (List.length row)) row))).
  destruct (nth_error m i) as [row|] eqn:Hrow.
  - rewrite (nth_indexed (fun j x => if (0 + i =? j)%nat then 0%Z else x)).
    unfold cell. rewrite (nth_error_nth m i [] Hrow). simpl.
    destruct (nth_error row j) as [x|] eqn:Hx.
    + now rewrite (nth_error_nth row j 0%Z Hx).
    + apply nth_error_None in Hx. rewrite (nth_overflow row 0%Z Hx).
      now destruct (i =? j)%nat.
  - rewrite (cell_out_of_range m i j Hrow).
    destruct j; now destruct (i =? _)%nat.
Qed.

Lemma cell_gram (n : nat) (X : list (list Z)) (i j : nat) :
  (i < n)%nat -> (j < n)%nat ->
  cell (gram n X) i j = dot (column X i) (column X j).
Proof.
  intros Hi Hj. unfold cell, gram.
  rewrite (nth_map_seq _ n i [] Hi). now rewrite (nth_map_seq _ n j 0%Z Hj).
Qed.

(** A cell of [X.T @ X] is the sum over the rows of the products of the two
    column entries. *)
Lemma dot_column (X : list (list Z)) (i j : nat) :
  dot (column X i) (column X j) =
  Zsum (map (fun r => (nth i r 0 * nth j r 0)%Z) X).
Proof.
  unfold dot, column. induction X as [|r X IH]; simpl; [reflexivity|].
  now rewrite IH.
Qed.

Lemma nth_binary (r : list Z) (i : nat) :
  Forall (fun v => v = 0%Z \/ v = 1%Z) r -> nth i r 0%Z = 0%Z \/ nth i r 0%Z = 1%Z.
Proof.
  intros H. destruct (Nat.lt_ge_cases i (List.length r)) as [Hlt|Hge].
  - rewrite Forall_forall in H. apply H. now apply nth_In.
  - left. now apply nth_overflow.
Qed.

Lemma products_count (X : list (list Z)) (i j : nat) :
  binary_matrix X ->
  Zsum (map (fun r => (nth i r 0 * nth j r 0)%Z) X) = both_count X i j.
Proof.
  unfold both_count. induction 1 as [|r X Hr HX IH]; [reflexivity|].
  cbn [map filter Zsum fold_right]. fold (Zsum (map (fun r => (nth i r 0 * nth j r 0)%Z) X)).
  rewrite IH.
  destruct (nth_binary r i Hr) as [Ei|Ei], (nth_binary r j Hr) as [Ej|Ej];
    rewrite Ei, Ej;
    change (1 =? 1)%Z with true; change (0 =? 1)%Z with false;
    cbn [andb List.length]; rewrite ?Nat2Z.inj_succ; lia.
Qed.

(** C7. For a binary transaction matrix, [build_cooccurrence] returns the
    product of the transpose of the matrix with the matrix, with the
    diagonal set to zero: off the diagonal a cell counts the transactions
    that hold both items, the result is symmetric and its diagonal is
    zero. *)
Theorem build_cooccurrence_spec (df_encoded : EncodedDF) (i j : nat) :
  binary_matrix (enc_values df_encoded) ->
  (i < List.length (enc_columns df_encoded))%nat ->
  (j < List.length (enc_columns df_encoded))%nat ->
  let X := enc_values df_encoded in
  let n := List.length (enc_columns df_encoded) in
  let co := co_values (build_cooccurrence df_encoded) in
  co = fill_diagonal0 (gram n X) /\
  cell (gram n X) i j = Zsum (map (fun r => (nth i r 0 * nth j r 0)%Z) X) /\
  (i <> j -> cell co i j = both_count X i j) /\
  cell co i j = cell co j i /\
  cell co i i = 0%Z.
Proof.
  intros Hbin Hi Hj X n co.
  assert (Hg : forall a b, (a < n)%nat -> (b < n)%nat ->
            cell (gram n X) a b = Zsum (map (fun r => (nth a r 0 * nth b r 0)%Z) X)).
  { intros a b Ha Hb. now rewrite cell_gram, dot_column. }
  split; [reflexivity|]. split; [now apply Hg|].
  subst co. simpl. fold X n. rewrite !cell_fill_diagonal0.
  split; [|split].
  - intros Hij. apply Nat.eqb_neq in Hij. rewrite Hij, Hg by assumption.
    now apply products_count.
  - rewrite (Nat.eqb_sym j i). destruct (i =? j)%nat; [reflexivity|].
    rewrite !Hg by assumption. f_equal. apply map_ext. intros r. apply Z.mul_comm.
  - now rewrite Nat.eqb_refl.
Qed.

(** ** Support thresholds *)

Lemma py_max_Qmax_eq (a a' b : Q) : a == a' -> py_max a b == Qmax a' b.
Proof.
  intros H. rewrite py_max_Qmax. now rewrite H.
Qed.

Lemma py_min_le_l (a b : Q) : py_min a b <= a.
Proof.
  unfold py_min. destruct (Qltb b a) eqn:E.
  - apply Qlt_le_weak. now apply Qltb_true.
  - apply Qle_refl.
Qed.

Lemma py_min_le_r (a b : Q) : py_min a b <= b.
Proof.
  unfold py_min. destruct (Qltb b a) eqn:E.
  - apply Qle_refl.
  - now apply Qltb_false.
Qed.

Lemma py_min_cases (a b : Q) : py_min a b = a \/ py_min a b = b.
Proof.
  unfold py_min. destruct (Qltb b a); auto.
Qed.

Lemma fold_py_min (l : list Q) (x : Q) :
  In (fold_left py_min l x) (x :: l) /\
  fold_left py_min l x <= x /\
  Forall (fun y => fold_left py_min l x <= y) l.
Proof.
  revert x. induction l as [|y l IH]; intros x; simpl.
  - split; [now left|]. split; [apply Qle_refl | constructor].
  - destruct (IH (py_min x y)) as (Hin & Hle & Hall).
    split; [|split].
    + destruct Hin as [Hin|Hin]; [|now right; right].
      rewrite <- Hin. destruct (py_min_cases x y) as [E|E]; rewrite E; auto.
    + eapply Qle_trans; [exact Hle | apply py_min_le_l].
    + constructor; [|exact Hall].
      eapply Qle_trans; [exact Hle | apply py_min_le_r].
Qed.

Lemma series_min_is_minimum (l : list Q) : l <> [] -> is_minimum l (series_min l).
Proof.
  destruct l as [|x l]; [congruence|]. intros _. unfold is_minimum, series_min.
  destruct (fold_py_min l x) as (Hin & Hle & Hall).
  split; [exact Hin|]. now constructor.
Qed.

Lemma series_median_is_median (l : list Q) : is_median l (series_median l).
Proof.
  exists (isort Qltb l). split; [apply isort_perm|]. split.
  - apply isort_sorted.
    + intros a b c. apply Qle_trans.
    + intros y x H. apply Qlt_le_weak. now apply Qltb_true.
    + intros y x H. now apply Qltb_false.
  - unfold series_median. cbv zeta.
    destruct (Nat.even (List.length (isort Qltb l))); split; intros H;
      try discriminate; apply Qeq_refl.
Qed.

(** C8. For an encoded matrix that is not empty, [calculate_optimal_support]
    returns the five thresholds very_low = max(0.01, min_freq * 0.5),
    low = max(0.02, min_freq), conservative = max(0.05, median_freq * 0.3),
    moderate = max(0.10, median_freq * 0.5), strict = max(0.20, median_freq),
    where the frequency of an item is its column sum divided by the number
    of transactions and min_freq, median_freq are the minimum and the
    median of the frequencies. *)
Theorem calculate_optimal_support_spec (df_encoded : EncodedDF) :
  enc_values df_encoded <> [] ->
  enc_columns df_encoded <> [] ->
  let s := calculate_optimal_support df_encoded in
  let X := enc_values df_encoded in
  let freqs := item_frequencies df_encoded in
  freqs = map (fun j => inject_Z (Zsum (column X j)) / inject_Z (Z.of_nat (List.length X)))
              (seq 0 (List.length (enc_columns df_encoded))) /\
  exists min_freq median_freq : Q,
    is_minimum freqs min_freq /\
    is_median freqs median_freq /\
    very_low s == Qmax 0.01 (min_freq * 0.5) /\
    low s == Qmax 0.02 min_freq /\
    conservative s == Qmax 0.05 (median_freq * 0.3) /\
    moderate s == Qmax 0.10 (median_freq * 0.5) /\
    strict s == Qmax 0.20 median_freq.
Proof.
  intros Hrows Hcols s X freqs.
  assert (Hf : freqs = map (fun j => inject_Z (Zsum (column X j))
                                     / inject_Z (Z.of_nat (List.length X)))
                           (seq 0 (List.length (enc_columns df_encoded)))).
  { subst freqs. unfold item_frequencies, column_sums. now rewrite map_map. }
  split; [exact Hf|].
  exists (series_min freqs), (series_median freqs).
  split; [|split].
  - apply series_min_is_minimum. rewrite Hf.
    destruct (enc_columns df_encoded); [congruence | discriminate].
  - apply series_median_is_median.
  - subst s. unfold calculate_optimal_support. fold freqs. simpl.
    repeat split; apply py_max_Qmax_eq; reflexivity.
Qed.

(** ** Mining and rule generation *)

Lemma apriori_levels_support (fuel : nat) (X : list (list Z)) (min_support : Q)
  (previous : list (list nat)) :
  Forall (fun p => min_support <= snd p) (apriori_levels fuel X min_support previous).
Proof.
  revert previous. induction fuel as [|fuel IH]; intros previous; simpl.
  - constructor.
  - destruct (null (generate_new_combinations previous)); [constructor|].
    set (kept := filter _ _).
    destruct (null kept); [constructor|].
    apply Forall_app. split; [|apply IH].
    apply Forall_forall. intros p Hp. apply filter_In in Hp.
    now apply Qle_bool_iff.
Qed.

(** Every itemset [apriori] returns has at least the support asked for. *)
Lemma apriori_support (df : EncodedDF) (min_support : Q) (fi : list FrequentItemset) :
  apriori df min_support = Ok fi ->
  Forall (fun r => min_support <= support r) fi.
Proof.
  unfold apriori.
  destruct (Qle_bool min_support 0); [discriminate|].
  destruct (negb (valid_input (enc_values df))); [discriminate|].
  intros H. injection H as <-.
  apply Forall_map. simpl. apply Forall_app. split.
  - apply Forall_forall. intros p Hp. apply filter_In in Hp.
    now apply Qle_bool_iff.
  - apply apriori_levels_support.
Qed.

(** Every rule [association_rules] returns has at least the confidence
    asked for. *)
Lemma association_rules_confidence (fi : list FrequentItemset) (min_threshold : Q)
  (rules : list Rule) :
  association_rules fi min_threshold = Ok rules ->
  Forall (fun r => min_threshold <= confidence r) rules.
Proof.
  unfold association_rules. destruct (null fi); [discriminate|].
  destruct (sequence _) as [candidates|]; simpl; [|discriminate].
  intros H. injection H as <-.
  apply Forall_forall. intros r Hr. apply filter_In in Hr.
  now apply Qle_bool_iff.
Qed.

Lemma sequence_Forall2 {A B : Type} (f : A -> result B) (l : list A) (l' : list B) :
  sequence (map f l) = Ok l' -> Forall2 (fun x y => f x = Ok y) l l'.
Proof.
  revert l'. induction l as [|x l IH]; intros l'; simpl.
  - intros H. injection H as <-. constructor.
  - destruct (f x) as [y|] eqn:Hy; simpl; [|discriminate].
    destruct (sequence (map f l)) as [ys|]; simpl; [|discriminate].
    intros H. injection H as <-. constructor; [exact Hy | now apply IH].
Qed.

Lemma Forall2_transfer {A B : Type} (R : A -> B -> Prop) (P : A -> Prop) (P' : B -> Prop)
  (l : list A) (l' : list B) :
  (forall x y, R x y -> P x -> P' y) ->
  Forall2 R l l' -> Forall P l -> Forall P' l'.
Proof.
  intros HR H. induction H as [|x y l l' Hxy H IH]; intros HP.
  - constructor.
  - inversion HP; subst. constructor; eauto.
Qed.

Lemma clean_itemsets_supports (fi fi' : list FrequentItemset) :
  clean_itemsets fi = Ok fi' -> map support fi' = map support fi.
Proof.
  unfold clean_itemsets. intros H. apply sequence_Forall2 in H.
  induction H as [|x y l l' Hxy H IH]; [reflexivity|]. simpl.
  destruct (py_sorted (itemsets x)); simpl in Hxy; [|discriminate].
  injection Hxy as <-. simpl. now rewrite IH.
Qed.

Lemma clean_rules_confidence (P : Q -> Prop) (rules rules' : list Rule) :
  clean_rules rules = Ok rules' ->
  Forall (fun r => P (confidence r)) rules ->
  Forall (fun r => P (confidence r)) rules'.
Proof.
  unfold clean_rules. intros H. apply sequence_Forall2 in H.
  eapply Forall2_transfer; [|exact H].
  intros x y Hxy Hx. cbv beta in Hxy.
  destruct (py_sorted (antecedents x)); simpl in Hxy; [|discriminate].
  destruct (py_sorted (consequents x)); simpl in Hxy; [|discriminate].
  injection Hxy as <-. exact Hx.
Qed.

Lemma supporting_confidence (P : Q -> Prop) (rules : list Rule) (supporting : list (list nat)) :
  Forall (fun r => P (confidence r)) rules ->
  Forall (fun r => P (confidence r))
         (map (fun p => with_supporting_transactions (fst p) (snd p))
              (combine rules supporting)).
Proof.
  intros H. apply Forall_map. apply Forall_forall. intros [r l] Hin. simpl.
  apply in_combine_l in Hin. rewrite Forall_forall in H. now apply H.
Qed.

Lemma Forall_map_support (P : Q -> Prop) (l : list FrequentItemset) :
  Forall (fun r => P (support r)) l <-> Forall P (map support l).
Proof.
  symmetry. apply Forall_map.
Qed.

Lemma sort_by_support_desc_perm (fi : list FrequentItemset) :
  Permutation fi (sort_by_support_desc fi).
Proof.
  apply isort_perm.
Qed.

Lemma sort_by_support_desc_sorted (fi : list FrequentItemset) :
  StronglySorted (fun a b => support b <= support a) (sort_by_support_desc fi).
Proof.
  apply isort_sorted.
  - intros a b c Hab Hbc. eapply Qle_trans; eassumption.
  - intros y x H. apply Qlt_le_weak. now apply Qltb_true.
  - intros y x H. now apply Qltb_false.
Qed.

(** The itemsets and the threshold [apriori_with_adjustment] hands on. *)
Lemma apriori_with_adjustment_success (df_encoded : EncodedDF) (min_support : Q)
  (s : Suggestions) (fi : list FrequentItemset) (min_support' : Q) :
  apriori_with_adjustment df_encoded min_support s = Success (fi, min_support') ->
  apriori df_encoded min_support' = Ok fi /\ fi <> [] /\
  ((min_support' = min_support) \/
   (min_support' = very_low s /\ Qltb (very_low s) min_support = true /\
    apriori df_encoded min_support = Ok [])).
Proof.
  unfold apriori_with_adjustment.
  destruct (apriori df_encoded min_support) as [fi0|] eqn:H0; [|discriminate].
  destruct (null fi0 && Qltb (very_low s) min_support) eqn:Hretry; simpl.
  - apply andb_true_iff in Hretry. destruct Hretry as [Hnull Hlt].
    destruct fi0; [|discriminate].
    destruct (apriori df_encoded (very_low s)) as [fi1|] eqn:H1; [|discriminate].
    destruct fi1 as [|r fi1]; simpl; [discriminate|].
    intros H. injection H as <- <-. repeat split; auto. discriminate.
  - destruct fi0 as [|r fi0]; simpl; [discriminate|].
    intros H. injection H as <- <-. repeat split; auto. discriminate.
Qed.

(** When the error "no frequent itemsets" is reported. *)
Lemma apriori_with_adjustment_none (df_encoded : EncodedDF) (min_support : Q)
  (s : Suggestions) :
  apriori_with_adjustment df_encoded min_support s = HTTPException 400 NoFrequentItemsets
  <->
  apriori df_encoded min_support = Ok [] /\
  (Qltb (very_low s) min_support = false \/ apriori df_encoded (very_low s) = Ok []).
Proof.
  unfold apriori_with_adjustment.
  destruct (apriori df_encoded min_support) as [fi0|] eqn:H0.
  - destruct fi0 as [|r fi0]; simpl.
    + destruct (Qltb (very_low s) min_support) eqn:Hlt; simpl.
      * destruct (apriori df_encoded (very_low s)) as [[|r fi1]|] eqn:H1; simpl.
        -- split; auto.
        -- split; [discriminate|]. intros [_ [H|H]]; discriminate.
        -- split; [discriminate|]. intros [_ [H|H]]; discriminate.
      * split; auto.
    + split; [discriminate|]. intros [H _]. discriminate.
  - split; [discriminate|]. intros [H _]. discriminate.
Qed.

(** The rules and the threshold [rules_with_adjustment] hands on. *)
Lemma rules_with_adjustment_spec (fi : list FrequentItemset) (min_confidence : Q)
  (rules : list Rule) (min_confidence' : Q) :
  rules_with_adjustment fi min_confidence = (rules, min_confidence') ->
  Forall (fun r => min_confidence' <= confidence r) rules /\
  (min_confidence' = min_confidence \/
   (min_confidence' = 0.1 /\ Qltb 0.1 min_confidence = true /\
    association_rules fi min_confidence = Ok [])).
Proof.
  unfold rules_with_adjustment.
  destruct (1 <? List.length fi)%nat.
  - destruct (association_rules fi min_confidence) as [rules0|] eqn:H0.
    + destruct (null rules0 && Qltb 0.1 min_confidence) eqn:Hretry.
      * apply andb_true_iff in Hretry. destruct Hretry as [Hnull Hlt].
        destruct rules0; [|discriminate].
        destruct (association_rules fi 0.1) as [rules1|] eqn:H1;
          intros H; injection H as <- <-; split; auto.
        now apply association_rules_confidence in H1.
      * intros H. injection H as <- <-. split; auto.
        now apply association_rules_confidence in H0.
    + intros H. injection H as <- <-. split; auto.
  - intros H. injection H as <- <-. split; auto.
Qed.

(** ** The pipeline *)

Lemma in_unit_interval_py_min (x : Q) :
  in_unit_interval x = true -> in_unit_interval (py_min x 0.05) = true.
Proof.
  intros H. destruct (py_min_cases x 0.05) as [E|E]; rewrite E; [exact H | reflexivity].
Qed.

Lemma in_unit_interval_pos (x : Q) : in_unit_interval x = true -> 0 < x.
Proof.
  unfold in_unit_interval. intros H. apply andb_true_iff in H.
  apply Qltb_true. tauto.
Qed.

Section PipelineFacts.

Variable str_num : Q -> string.

(** The steps a successful upload went through. *)
Lemma upload_dataset_success (filename : option string) (df_raw : DataFrame)
  (min_support min_confidence : Q) (st : State) :
  upload_dataset str_num filename df_raw min_support min_confidence = Success st ->
  exists fi rules supporting,
    in_unit_interval min_support = true /\
    in_unit_interval min_confidence = true /\
    detect_and_encode str_num df_raw = Ok (st_df_encoded st) /\
    meta_support_suggestions (st_meta st) = calculate_optimal_support (st_df_encoded st) /\
    apriori_with_adjustment (st_df_encoded st) (starting_support filename min_support)
      (calculate_optimal_support (st_df_encoded st))
    = Success (fi, meta_min_support (st_meta st)) /\
    rules_with_adjustment (sort_by_support_desc fi) min_confidence
    = (rules, meta_min_confidence (st_meta st)) /\
    clean_itemsets (sort_by_support_desc fi) = Ok (st_frequent_itemsets st) /\
    clean_rules (map (fun p => with_supporting_transactions (fst p) (snd p))
                     (combine rules supporting)) = Ok (st_rules st).
Proof.
  unfold upload_dataset, starting_support.
  destruct (in_unit_interval min_support); simpl; [|discriminate].
  destruct (in_unit_interval min_confidence); simpl; [|discriminate].
  destruct (df_empty df_raw); [discriminate|].
  destruct (detect_and_encode str_num df_raw) as [enc|]; [|discriminate].
  destruct (apriori_with_adjustment enc _ _) as [[fi ms']|] eqn:Ha; [|discriminate].
  destruct (rules_with_adjustment (sort_by_support_desc fi) min_confidence)
    as [rules mc'] eqn:Hr.
  destruct (sequence (map (find_supporting_transactions enc) rules))
    as [supporting|]; simpl; [|discriminate].
  destruct (clean_itemsets (sort_by_support_desc fi)) as [fi_json|] eqn:Hf; simpl;
    [|discriminate].
  destruct (clean_rules _) as [rules_json|] eqn:Hc; simpl; [|discriminate].
  intros H. injection H as <-. simpl.
  exists fi, rules, supporting. repeat split; auto.
Qed.

(** C2, as amended. Every itemset of a successful analysis has support at
    least the [min_support] recorded in the result, and every rule has
    confidence at least the recorded [min_confidence]. The recorded
    [min_support] is the one mining started from (the one asked for, or its
    cap at 0.05 for a sample file) or the very_low suggestion; the recorded
    [min_confidence] is the one asked for or 0.1; neither exceeds what was
    asked for. *)
Theorem threshold_compliance (filename : option string) (df_raw : DataFrame)
  (min_support min_confidence : Q) (st : State) :
  upload_dataset str_num filename df_raw min_support min_confidence = Success st ->
  let m := st_meta st in
  Forall (fun r => meta_min_support m <= support r) (st_frequent_itemsets st) /\
  Forall (fun r => meta_min_confidence m <= confidence r) (st_rules st) /\
  (meta_min_support m = starting_support filename min_support \/
   meta_min_support m = very_low (meta_support_suggestions m)) /\
  (meta_min_confidence m = min_confidence \/ meta_min_confidence m = 0.1) /\
  meta_min_support m <= min_support /\
  meta_min_confidence m <= min_confidence.
Proof.
  intros H m. subst m.
  destruct (upload_dataset_success _ _ _ _ _ H)
    as (fi & rules & supporting & Hms & Hmc & Henc & Hsug & Ha & Hr & Hfi & Hrules).
  apply apriori_with_adjustment_success in Ha. destruct Ha as (Hap & Hne & Hms').
  apply rules_with_adjustment_spec in Hr. destruct Hr as (Hconf & Hmc').
  assert (Hstart : starting_support filename min_support <= min_support).
  { unfold starting_support. destruct (is_sample_file filename);
      [apply py_min_le_l | apply Qle_refl]. }
  split; [|split; [|split; [|split; [|split]]]].
  - apply (Forall_map_support (fun q => meta_min_support (st_meta st) <= q)).
    rewrite (clean_itemsets_supports _ _ Hfi).
    apply Forall_map_support.
    eapply Permutation_Forall; [apply sort_by_support_desc_perm|].
    exact (apriori_support _ _ _ Hap).
  - apply (clean_rules_confidence (fun q => meta_min_confidence (st_meta st) <= q) _ _ Hrules).
    now apply supporting_confidence.
  - rewrite Hsug. destruct Hms' as [E|(E & _)]; auto.
  - destruct Hmc' as [E|(E & _)]; auto.
  - destruct Hms' as [E|(E & Hlt & _)]; rewrite E; [exact Hstart|].
    eapply Qle_trans; [|exact Hstart]. apply Qlt_le_weak. now apply Qltb_true.
  - destruct Hmc' as [E|(E & Hlt & _)]; rewrite E; [apply Qle_refl|].
    apply Qlt_le_weak. now apply Qltb_true.
Qed.


Lemma StronglySorted_map_support (l : list FrequentItemset) :
  StronglySorted (fun a b => support b <= support a) l <->
  StronglySorted (fun x y => y <= x) (map support l).
Proof.
  induction l as [|a l IH]; simpl.
  - split; constructor.
  - split; intros H; inversion H as [|? ? Hs Hall]; subst; constructor; try tauto.
    + exact (proj2 (Forall_map support (fun y => y <= support a) l) Hall).
    + exact (proj1 (Forall_map support (fun y => y <= support a) l) Hall).
Qed.

(** Sorting again a list that is sorted by support leaves it as it is. *)
Lemma sort_by_support_desc_sorted_id (l : list FrequentItemset) :
  StronglySorted (fun a b => support b <= support a) l ->
  sort_by_support_desc l = l.
Proof.
  unfold sort_by_support_desc.
  induction 1 as [|x l Hs IH Hx]; simpl; [reflexivity|].
  fold (isort (fun y x0 => Qltb (support x0) (support y)) l). rewrite IH.
  destruct l as [|y l]; simpl; [reflexivity|].
  inversion Hx as [|? ? Hy _]; subst.
  destruct (Qltb (support x) (support y)) eqn:E; [|reflexivity].
  apply Qltb_true in E. exfalso. exact (Qlt_not_le _ _ E Hy).
Qed.

(** C4, as amended. The itemsets of a successful analysis are sorted by
    support, greatest first; nothing orders the itemsets of equal support by
    size or by their items. The list [get_frequent_itemsets] returns is that
    same list. *)
Theorem itemsets_sorted_by_support (filename : option string) (df_raw : DataFrame)
  (min_support min_confidence : Q) (st : State) :
  upload_dataset str_num filename df_raw min_support min_confidence = Success st ->
  StronglySorted (fun a b => support b <= support a) (st_frequent_itemsets st) /\
  get_frequent_itemsets (Some st) = st_frequent_itemsets st /\
  exists mined,
    apriori (st_df_encoded st) (meta_min_support (st_meta st)) = Ok mined /\
    Permutation (map support mined) (map support (st_frequent_itemsets st)).
Proof.
  intros H.
  destruct (upload_dataset_success _ _ _ _ _ H)
    as (fi & rules & supporting & _ & _ & _ & _ & Ha & _ & Hfi & _).
  apply apriori_with_adjustment_success in Ha. destruct Ha as (Hap & _ & _).
  assert (Hs : StronglySorted (fun a b => support b <= support a)
                              (st_frequent_itemsets st)).
  { apply StronglySorted_map_support.
    rewrite (clean_itemsets_supports _ _ Hfi).
    apply StronglySorted_map_support. apply sort_by_support_desc_sorted. }
  split; [exact Hs|]. split.
  - simpl. now apply sort_by_support_desc_sorted_id.
  - exists fi. split; [exact Hap|].
    rewrite (clean_itemsets_supports _ _ Hfi).
    apply Permutation_map. apply sort_by_support_desc_perm.
Qed.

(** C3, as amended. Two runs on the same table and thresholds give the same
    itemsets and rules when their file names agree on holding
    "sample_transactions"; a file name that holds it has [min_support]
    replaced by min(min_support, 0.05), and gives what any other file name
    gives at that lower threshold. *)
Theorem filename_dependence (filename1 filename2 : option string) (df_raw : DataFrame)
  (min_support min_confidence : Q) :
  in_unit_interval min_support = true ->
  (is_sample_file filename1 = is_sample_file filename2 ->
   analysis_result (upload_dataset str_num filename1 df_raw min_support min_confidence) =
   analysis_result (upload_dataset str_num filename2 df_raw min_support min_confidence)) /\
  (is_sample_file filename1 = true -> is_sample_file filename2 = false ->
   analysis_result (upload_dataset str_num filename1 df_raw min_support min_confidence) =
   analysis_result (upload_dataset str_num filename2 df_raw (py_min min_support 0.05)
                                   min_confidence)).
Proof.
  intros Hms.
  assert (Hgen : forall ms1 ms2,
            in_unit_interval ms1 = true -> in_unit_interval ms2 = true ->
            starting_support filename1 ms1 = starting_support filename2 ms2 ->
            analysis_result (upload_dataset str_num filename1 df_raw ms1 min_confidence) =
            analysis_result (upload_dataset str_num filename2 df_raw ms2 min_confidence)).
  { intros ms1 ms2 H1 H2 Hstart. unfold upload_dataset. rewrite H1, H2. simpl.
    destruct (negb (in_unit_interval min_confidence)); [reflexivity|].
    destruct (df_empty df_raw); [reflexivity|].
    destruct (detect_and_encode str_num df_raw) as [enc|]; [|reflexivity].
    fold (starting_support filename1 ms1). fold (starting_support filename2 ms2).
    rewrite Hstart.
    destruct (apriori_with_adjustment enc _ _) as [[fi ms']|]; [|reflexivity].
    destruct (rules_with_adjustment (sort_by_support_desc fi) min_confidence).
    destruct (sequence _); simpl; [|reflexivity].
    destruct (clean_itemsets _); simpl; [|reflexivity].
    destruct (clean_rules _); reflexivity. }
  split.
  - intros Hsame. apply Hgen; auto. unfold starting_support. now rewrite Hsame.
  - intros Ht Hf. apply Hgen; auto using in_unit_interval_py_min.
    unfold starting_support. now rewrite Ht, Hf.
Qed.

End PipelineFacts.

(** ** The rounds of [apriori] *)

Lemma increasing_length (c : list nat) (lo hi : nat) :
  StronglySorted lt c -> Forall (fun i => (lo <= i < hi)%nat) c ->
  (List.length c <= hi - lo)%nat.
Proof.
  intros Hs. revert lo. induction Hs as [|x c Hs IH Hx]; intros lo Hb; simpl.
  - lia.
  - inversion Hb as [|? ? Hx0 Hc]; subst.
    assert (Hc' : Forall (fun i => (S x <= i < hi)%nat) c).
    { rewrite Forall_forall in *. intros i Hi. specialize (Hx i Hi).
      specialize (Hc i Hi). lia. }
    specialize (IH _ Hc'). lia.
Qed.

Lemma combination_length (n : nat) (c : list nat) :
  combination_of n c -> (List.length c <= n)%nat.
Proof.
  intros [Hs Hb]. pose proof (increasing_length c 0 n Hs) as H.
  rewrite Nat.sub_0_r in H. apply H.
  eapply Forall_impl; [|exact Hb]. intros i Hi. simpl in Hi. lia.
Qed.

Lemma increasing_below_last (c : list nat) :
  StronglySorted lt c -> Forall (fun i => (i <= last c 0)%nat) c.
Proof.
  induction 1 as [|x c Hs IH Hx]; [constructor|].
  destruct c as [|y c]; [repeat constructor|].
  change (last (x :: y :: c) 0%nat) with (last (y :: c) 0%nat).
  constructor; [|exact IH].
  inversion Hx as [|? ? Hxy _]; subst. inversion IH as [|? ? Hy _]; subst. lia.
Qed.

Lemma increasing_snoc (c : list nat) (x : nat) :
  StronglySorted lt c -> (last c 0 < x)%nat \/ c = [] ->
  StronglySorted lt (c ++ [x]).
Proof.
  intros Hs Hx. pose proof (increasing_below_last c Hs) as Hl.
  induction Hs as [|y c Hs IH Hy]; simpl; [repeat constructor|].
  inversion Hl as [|? ? Hy0 Hl']; subst.
  constructor.
  - destruct c as [|z c]; [repeat constructor|]. apply IH.
    + left. destruct Hx as [Hx|Hx]; [exact Hx | discriminate].
    + exact Hl'.
  - apply Forall_app. split; [exact Hy|]. constructor; [|constructor].
    destruct Hx as [Hx|Hx]; [lia | discriminate].
Qed.

Lemma dedupe_In {A : Type} (eqb : A -> A -> bool) (l : list A) (x : A) :
  In x (dedupe eqb l) -> In x l.
Proof.
  induction l as [|y l IH]; simpl; [tauto|].
  intros [H|H]; [now left|]. apply filter_In in H. right. tauto.
Qed.

Lemma items_types_In (old : list (list nat)) (x : nat) :
  In x (items_types old) -> exists c, In c old /\ In x c.
Proof.
  unfold items_types. intros H.
  apply (Permutation_in _ (Permutation_sym (isort_perm Nat.ltb _))) in H.
  apply dedupe_In in H. apply in_concat in H. destruct H as [c [Hc Hx]]. eauto.
Qed.

(** Each round lengthens the combinations by one item and keeps them
    combinations. *)
Lemma generate_new_combinations_spec (n k : nat) (old : list (list nat)) :
  Forall (fun c => combination_of n c /\ List.length c = k) old ->
  Forall (fun c => combination_of n c /\ List.length c = S k)
         (generate_new_combinations old).
Proof.
  intros Hold. unfold generate_new_combinations.
  apply Forall_forall. intros c Hc. apply in_flat_map in Hc.
  destruct Hc as [o [Ho Hc]]. apply in_map_iff in Hc. destruct Hc as [x [<- Hx]].
  apply filter_In in Hx. destruct Hx as [Hx Hlt]. apply Nat.ltb_lt in Hlt.
  rewrite Forall_forall in Hold. destruct (Hold o Ho) as [[Hs Hb] Hlen].
  apply items_types_In in Hx. destruct Hx as [c' [Hc' Hxc']].
  destruct (Hold c' Hc') as [[_ Hb'] _]. rewrite Forall_forall in Hb'.
  split; [split|].
  - apply increasing_snoc; auto.
  - apply Forall_app. split; [exact Hb|]. constructor; [auto | constructor].
  - rewrite length_app. simpl. lia.
Qed.

(** The loop of [apriori] ends of itself: with [n] columns and combinations
    of size [k] at hand, [n + 1 - k] rounds are all it can make, and more
    fuel changes nothing. *)
Lemma apriori_levels_fuel (n : nat) (X : list (list Z)) (min_support : Q)
  (fuel k : nat) (previous : list (list nat)) :
  Forall (fun c => combination_of n c /\ List.length c = k) previous ->
  (n + 1 - k <= fuel)%nat ->
  apriori_levels fuel X min_support previous =
  apriori_levels (n + 1 - k) X min_support previous.
Proof.
  revert k previous. induction fuel as [|fuel IH]; intros k previous Hprev Hfuel.
  - replace (n + 1 - k)%nat with 0%nat by lia. reflexivity.
  - pose proof (generate_new_combinations_spec n k previous Hprev) as Hnew.
    destruct (n + 1 - k)%nat as [|m] eqn:Hm.
    + simpl. destruct (generate_new_combinations previous) as [|c cs]; [reflexivity|].
      inversion Hnew as [|? ? [Hc Hlen] _]; subst.
      apply combination_length in Hc. lia.
    + simpl. destruct (null (generate_new_combinations previous)); [reflexivity|].
      set (kept := filter _ _).
      destruct (null kept); [reflexivity|]. f_equal.
      assert (Hkept : Forall (fun c => combination_of n c /\ List.length c = S k)
                             (map fst kept)).
      { apply Forall_forall. intros c Hc. apply in_map_iff in Hc.
        destruct Hc as [[c' q] [<- Hin]]. apply filter_In in Hin.
        destruct Hin as [Hin _]. apply in_map_iff in Hin.
        destruct Hin as [c'' [E Hin]]. injection E as <- _.
        rewrite Forall_forall in Hnew. now apply Hnew. }
      rewrite (IH (S k) _ Hkept) by lia.
      replace (n + 1 - S k)%nat with m by lia. reflexivity.
Qed.

(** In [apriori] the fuel is the number of columns, which is enough. *)
Lemma apriori_fuel_enough (df : EncodedDF) (min_support : Q) (fuel : nat) :
  let n := List.length (enc_columns df) in
  let level1 := filter (fun p => Qle_bool min_support (snd p))
                       (map (fun j => ([j], support1 (enc_values df) j)) (seq 0 n)) in
  (n <= fuel)%nat ->
  apriori_levels fuel (enc_values df) min_support (map fst level1) =
  apriori_levels n (enc_values df) min_support (map fst level1).
Proof.
  intros n level1 Hfuel.
  rewrite (apriori_levels_fuel n _ _ fuel 1); [|  | lia].
  - now replace (n + 1 - 1)%nat with n by lia.
  - apply Forall_forall. intros c Hc. apply in_map_iff in Hc.
    destruct Hc as [[c' q] [<- Hin]]. apply filter_In in Hin. destruct Hin as [Hin _].
    apply in_map_iff in Hin. destruct Hin as [j [E Hj]]. injection E as <- _.
    apply in_seq in Hj. simpl. split; [|reflexivity].
    split; repeat constructor. lia.
Qed.

(** ** The matrices the encoder produces *)

Lemma bool01_binary (b : bool) : bool01 b = 0%Z \/ bool01 b = 1%Z.
Proof.
  destruct b; [right | left]; reflexivity.
Qed.

Lemma binarize_binary (s : Series) :
  Forall (fun v => v = 0%Z \/ v = 1%Z) (binarize s).
Proof.
  destruct s as [l|l|l]; simpl; apply Forall_forall; intros v Hv;
    apply in_map_iff in Hv; destruct Hv as [x [<- _]].
  - apply to_bool01_binary.
  - destruct x; [apply bool01_binary | now left].
  - apply bool01_binary.
Qed.

Lemma transactional_to_onehot_binary (transactions : list (list pyobj)) (enc : EncodedDF) :
  transactional_to_onehot transactions = Ok enc -> binary_matrix (enc_values enc).
Proof.
  unfold transactional_to_onehot.
  destruct (null _); [discriminate|].
  destruct (te_fit _) as [columns|]; simpl; [|discriminate].
  intros H. injection H as <-. simpl. unfold binary_matrix, te_transform.
  apply Forall_forall. intros r Hr. apply in_map_iff in Hr. destruct Hr as [t [<- _]].
  apply Forall_forall. intros v Hv. apply in_map_iff in Hv. destruct Hv as [c [<- _]].
  apply bool01_binary.
Qed.

Lemma encode_onehot_binary (df : DataFrame) (enc : EncodedDF) :
  encode_onehot df = Ok enc -> binary_matrix (enc_values enc).
Proof.
  unfold encode_onehot. destruct (_ =? 0)%Z; [discriminate|].
  intros H. injection H as <-. simpl. unfold binary_matrix, rows_of_columns.
  apply Forall_forall. intros r Hr. apply in_map_iff in Hr. destruct Hr as [i [<- _]].
  apply Forall_forall. intros v Hv. apply in_map_iff in Hv. destruct Hv as [c [<- Hc]].
  apply in_map_iff in Hc. destruct Hc as [col [<- _]].
  apply nth_binary. apply binarize_binary.
Qed.

(** Whatever the format, the encoded matrix holds only 0 and 1. *)
Lemma detect_and_encode_binary (str_num : Q -> string) (df : DataFrame) (enc : EncodedDF) :
  detect_and_encode str_num df = Ok enc -> binary_matrix (enc_values enc).
Proof.
  destruct (df_empty df) eqn:Hne.
  - unfold detect_and_encode. rewrite Hne. discriminate.
  - rewrite (detect_and_encode_nonempty str_num df Hne).
    destruct (detect_format str_num (drop_unnamed df)); simpl;
      unfold comma_split_strategy;
      repeat match goal with
             | |- context [match ?x with _ => _ end] => destruct x
             end;
      try discriminate;
      first [apply transactional_to_onehot_binary | apply encode_onehot_binary].
Qed.


(** ** The properties on the example tables *)




(** C2, counterexample. With [min_support = 0.9] and [min_confidence = 0.6]
    asked for, the analysis of [table_ba] returns an itemset of support
    1/4 and rules of confidence 1/2. *)
Lemma below_requested_thresholds :
  exists st,
    upload_dataset str_num_unused (Some "baskets.csv") table_ba 0.9 0.6 = Success st /\
    Exists (fun r => support r < 0.9) (st_frequent_itemsets st) /\
    Exists (fun r => confidence r < 0.6) (st_rules st).
Proof.
  eexists. split; [vm_compute; reflexivity|]. split.
  - apply Exists_cons_hd. reflexivity.
  - apply Exists_cons_hd. reflexivity.
Qed.

Lemma threshold_compliance_witness :
  exists st,
    upload_dataset str_num_unused (Some "baskets.csv") table_ba 0.9 0.6 = Success st /\
    Forall (fun r => meta_min_support (st_meta st) <= support r)
           (st_frequent_itemsets st) /\
    Forall (fun r => meta_min_confidence (st_meta st) <= confidence r) (st_rules st).
Proof.
  destruct (upload_dataset str_num_unused (Some "baskets.csv") table_ba 0.9 0.6)
    as [st|code detail] eqn:H; [|vm_compute in H; discriminate].
  exists st. split; [reflexivity|].
  pose proof (threshold_compliance str_num_unused _ _ _ _ _ H) as (Hs & Hc & _).
  split; assumption.
Defined.

(** C3, counterexample. The same table and thresholds give two itemsets
    under the file name "baskets.csv" and three under
    "sample_transactions.csv". *)
Lemma sample_file_changes_result :
  analysis_result
    (upload_dataset str_num_unused (Some "sample_transactions.csv") table_ba 0.5 0.6)
  <>
  analysis_result
    (upload_dataset str_num_unused (Some "baskets.csv") table_ba 0.5 0.6).
Proof.
  vm_compute. discriminate.
Qed.

Lemma filename_dependence_witness :
  in_unit_interval 0.5 = true /\
  analysis_result
    (upload_dataset str_num_unused (Some "sample_transactions.csv") table_ba 0.5 0.6)
  =
  analysis_result
    (upload_dataset str_num_unused (Some "baskets.csv") table_ba (py_min 0.5 0.05) 0.6).
Proof.
  split; [reflexivity|].
  apply (filename_dependence str_num_unused (Some "sample_transactions.csv")
           (Some "baskets.csv") table_ba 0.5 0.6); reflexivity.
Defined.

(** C4, counterexample. The itemsets {b} and {a} of [table_ba] have the
    same support and the same size and come out with {b} before {a}: not in
    the lexicographic order of their items. *)
Lemma ties_not_in_lexicographic_order :
  exists st,
    upload_dataset str_num_unused (Some "baskets.csv") table_ba 0.5 0.6 = Success st /\
    map itemsets (st_frequent_itemsets st) = [[PStr "b"]; [PStr "a"]] /\
    sorted_by spec_before (st_frequent_itemsets st) = false /\
    sorted_by spec_before (get_frequent_itemsets (Some st)) = false.
Proof.
  eexists. split; [vm_compute; reflexivity|]. repeat split; reflexivity.
Qed.

Lemma itemsets_sorted_by_support_witness :
  exists st,
    upload_dataset str_num_unused (Some "baskets.csv") table_ba 0.5 0.6 = Success st /\
    StronglySorted (fun a b => support b <= support a) (st_frequent_itemsets st) /\
    get_frequent_itemsets (Some st) = st_frequent_itemsets st.
Proof.
  destruct (upload_dataset str_num_unused (Some "baskets.csv") table_ba 0.5 0.6)
    as [st|code detail] eqn:H; [|vm_compute in H; discriminate].
  exists st. split; [reflexivity|].
  pose proof (itemsets_sorted_by_support str_num_unused _ _ _ _ _ H) as (Hs & Hg & _).
  split; assumption.
Defined.

(** C5, counterexample. In [table_blank_items] rule 3 matches (a column is
    named "items") and rules 1 and 2 do not, yet the table is encoded by
    the one-hot fallback, "items" becoming an item of the vocabulary, where
    the comma-split strategy ends in the error of no valid transaction. *)
Lemma blank_item_column_falls_through :
  df_empty table_blank_items = false /\
  detect_format_spec (drop_unnamed table_blank_items) = NamedItemColumn /\
  encode_as str_num_unused NamedItemColumn (drop_unnamed table_blank_items)
  = Raise (ValueError "No valid transactions found") /\
  detect_and_encode str_num_unused table_blank_items
  = encode_as str_num_unused AlreadyEncoded (drop_unnamed table_blank_items) /\
  detect_and_encode str_num_unused table_blank_items
  = Ok {| enc_columns := [PStr "items"; PStr "a"];
          enc_values := [[0; 1]; [0; 0]]%Z |} /\
  detect_and_encode str_num_unused table_blank_items
  <> encode_as str_num_unused (detect_format_spec (drop_unnamed table_blank_items))
               (drop_unnamed table_blank_items).
Proof.
  repeat split; try (vm_compute; reflexivity).
  vm_compute. discriminate.
Qed.

Lemma detect_and_encode_format_witness :
  df_empty table_blank_items = false /\
  detect_and_encode str_num_unused table_blank_items =
  encode_as str_num_unused
            (detect_format str_num_unused (drop_unnamed table_blank_items))
            (drop_unnamed table_blank_items).
Proof.
  split; [reflexivity|].
  exact (proj1 (detect_and_encode_format str_num_unused table_blank_items eq_refl)).
Defined.

(** C6, the failing input. In a numeric column the cell -1 is encoded as 0,
    while [_to_bool01] encodes the number -1 as 1. *)
Theorem negative_number_encoded_as_absent :
  binarize (numbers [-1; 1]) = [0; 1]%Z /\
  _to_bool01 (PNum (-1)) = 1%Z /\
  detect_and_encode str_num_unused table_negative
  = Ok {| enc_columns := [PStr "a"; PStr "b"];
          enc_values := [[0; 1]; [1; 0]]%Z |}.
Proof.
  repeat split; vm_compute; reflexivity.
Qed.

Lemma build_cooccurrence_spec_witness :
  binary_matrix (enc_values encoded_ba) /\
  (0 < List.length (enc_columns encoded_ba))%nat /\
  (1 < List.length (enc_columns encoded_ba))%nat /\
  cell (co_values (build_cooccurrence encoded_ba)) 0 1
  = both_count (enc_values encoded_ba) 0 1 /\
  cell (co_values (build_cooccurrence encoded_ba)) 0 1
  = cell (co_values (build_cooccurrence encoded_ba)) 1 0 /\
  cell (co_values (build_cooccurrence encoded_ba)) 0 0 = 0%Z.
Proof.
  assert (Hb : binary_matrix (enc_values encoded_ba))
    by (repeat constructor; auto).
  assert (H0 : (0 < List.length (enc_columns encoded_ba))%nat) by (simpl; lia).
  assert (H1 : (1 < List.length (enc_columns encoded_ba))%nat) by (simpl; lia).
  do 3 (split; [assumption|]).
  destruct (build_cooccurrence_spec encoded_ba 0 1 Hb H0 H1) as (_ & _ & Hc & Hs & Hd).
  split; [apply Hc; discriminate|]. split; assumption.
Defined.

Lemma calculate_optimal_support_spec_witness :
  enc_values encoded_ba <> [] /\
  enc_columns encoded_ba <> [] /\
  exists min_freq median_freq : Q,
    is_minimum (item_frequencies encoded_ba) min_freq /\
    is_median (item_frequencies encoded_ba) median_freq /\
    very_low (calculate_optimal_support encoded_ba) == Qmax 0.01 (min_freq * 0.5) /\
    strict (calculate_optimal_support encoded_ba) == Qmax 0.20 median_freq.
Proof.
  assert (Hr : enc_values encoded_ba <> []) by discriminate.
  assert (Hc : enc_columns encoded_ba <> []) by discriminate.
  do 2 (split; [assumption|]).
  destruct (calculate_optimal_support_spec encoded_ba Hr Hc)
    as (_ & mn & md & Hmin & Hmed & Hvl & _ & _ & _ & Hst).
  exists mn, md. exact (conj Hmin (conj Hmed (conj Hvl Hst))).
Defined.

Lemma empty_table_rejected_witness :
  nrows table_no_rows = 0%nat /\
  detect_and_encode str_num_unused table_no_rows
  = Raise (ValueError "Empty dataframe provided") /\
  exists detail,
    upload_dataset str_num_unused (Some "baskets.csv") table_no_rows 0.5 0.6
    = HTTPException 400 detail.
Proof.
  split; [reflexivity|].
  exact (empty_table_rejected str_num_unused (Some "baskets.csv") table_no_rows
           0.5 0.6 eq_refl).
Defined.

Lemma unnamed_columns_dropped_witness :
  df_empty table_unnamed = false /\
  ncols table_unnamed = 3%nat /\
  detect_and_encode str_num_unused table_unnamed
  = transactional_to_onehot
      (groupby_lists [PNum 1; PNum 1; PNum 2] [PStr "milk"; PStr "bread"; PStr "milk"]).
Proof.
  split; [reflexivity|]. split; [reflexivity|].
  destruct (unnamed_columns_dropped str_num_unused table_unnamed eq_refl)
    as (_ & _ & H & _).
  exact (H _ _ eq_refl eq_refl).
Defined.

(** * Further properties of the code *)

(** ** Equality of items *)

Lemma py_eqb_refl (x : pyobj) : py_eqb x x = true.
Proof.
  destruct x as [|b|q|s]; simpl.
  - reflexivity.
  - now destruct b.
  - apply Qeq_bool_refl.
  - apply String.eqb_refl.
Qed.


Lemma py_eqb_trans (x y z : pyobj) :
  py_eqb x y = true -> py_eqb y z = true -> py_eqb x z = true.
Proof.
  destruct x as [|b|q|s], y as [|b'|q'|s'], z as [|b''|q''|s'']; simpl;
    try discriminate; try reflexivity;
    try (intros H1 H2; eapply Qeq_bool_trans; eassumption).
  intros H1 H2. apply String.eqb_eq in H1, H2. subst. apply String.eqb_refl.
Qed.

(** Every element of a list has an equal one among its distinct
    elements. *)
Lemma dedupe_covers (l : list pyobj) (z : pyobj) :
  In z l -> exists y, In y (dedupe py_eqb l) /\ py_eqb y z = true.
Proof.
  induction l as [|x l IH]; simpl; [tauto|].
  intros [->|Hz].
  - exists z. split; [now left | apply py_eqb_refl].
  - destruct (IH Hz) as [y [Hy Hyz]].
    destruct (py_eqb x y) eqn:Hxy.
    + exists x. split; [now left | eapply py_eqb_trans; eassumption].
    + exists y. split; [|exact Hyz]. right. apply filter_In. now rewrite Hxy.
Qed.

Lemma py_sorted_perm (l l' : list pyobj) :
  py_sorted l = Ok l' -> Permutation l l'.
Proof.
  unfold py_sorted. destruct (_ || _); [|discriminate].
  intros H. injection H as <-. apply isort_perm.
Qed.

(** ** The matrix of [transactional_to_onehot] *)

(** X1. [transactional_to_onehot] raises "No valid transactions found in
    the data" exactly when every transaction is empty. *)
Theorem transactional_to_onehot_no_transactions (transactions : list (list pyobj)) :
  transactional_to_onehot transactions
  = Raise (ValueError "No valid transactions found in the data")
  <-> Forall (fun t => t = []) transactions.
Proof.
  unfold transactional_to_onehot.
  assert (Hf : filter (fun t : list pyobj => negb (null t)) transactions = []
               <-> Forall (fun t => t = []) transactions).
  { induction transactions as [|t ts IH]; simpl.
    - split; constructor.
    - destruct t; simpl.
      + rewrite IH. split; intros H; [now constructor | now inversion H].
      + split; [discriminate|]. intros H. inversion H. discriminate. }
  destruct (filter _ transactions) as [|t ts] eqn:E; simpl.
  - split; [intros _; now apply Hf | reflexivity].
  - split.
    + unfold te_fit, py_sorted. destruct (_ || _); simpl; discriminate.
    + intros H. apply Hf in H. discriminate.
Qed.

Lemma te_matrix_facts (transactions : list (list pyobj)) (enc : EncodedDF) :
  transactional_to_onehot transactions = Ok enc ->
  List.length (enc_values enc)
  = List.length (filter (fun t => negb (null t)) transactions) /\
  Forall (fun r => List.length r = List.length (enc_columns enc)) (enc_values enc) /\
  Forall (fun r => In 1%Z r) (enc_values enc) /\
  (forall j, (j < List.length (enc_columns enc))%nat ->
             In 1%Z (column (enc_values enc) j)) /\
  enc_values enc <> [] /\
  enc_columns enc <> [].
Proof.
  unfold transactional_to_onehot.
  set (ts := filter (fun t => negb (null t)) transactions).
  destruct (null ts) eqn:Hnull; [discriminate|].
  destruct (te_fit ts) as [columns|] eqn:Hfit; simpl; [|discriminate].
  intros H. injection H as <-. simpl.
  apply py_sorted_perm in Hfit.
  assert (Hts : Forall (fun t => t <> []) ts).
  { apply Forall_forall. intros t Ht. apply filter_In in Ht.
    destruct Ht as [_ Ht]. destruct t; [discriminate | discriminate]. }
  assert (Hrow : forall t, In t ts ->
            In 1%Z (map (fun c => bool01 (existsb (py_eqb c) t)) columns)).
  { intros t Ht. rewrite Forall_forall in Hts.
    destruct t as [|x t']; [now specialize (Hts _ Ht)|].
    assert (Hx : In x (List.concat ts)).
    { apply in_concat. exists (x :: t'). split; [exact Ht | now left]. }
    destruct (dedupe_covers _ _ Hx) as [y [Hy Hyx]].
    apply (Permutation_in _ Hfit) in Hy.
    apply in_map_iff. exists y. split; [|exact Hy].
    simpl. now rewrite Hyx. }
  unfold te_transform.
  split; [now rewrite length_map|]. split; [|split; [|split; [|split]]].
  - apply Forall_forall. intros r Hr. apply in_map_iff in Hr.
    destruct Hr as [t [<- _]]. now rewrite length_map.
  - apply Forall_forall. intros r Hr. apply in_map_iff in Hr.
    destruct Hr as [t [<- Ht]]. now apply Hrow.
  - intros j Hj.
    assert (Hc : In (nth j columns PNaN) (List.concat ts)).
    { apply (dedupe_In py_eqb).
      apply (Permutation_in _ (Permutation_sym Hfit)). now apply nth_In. }
    apply in_concat in Hc. destruct Hc as [t [Ht Hct]].
    unfold column. apply in_map_iff.
    exists (map (fun c => bool01 (existsb (py_eqb c) t)) columns).
    split; [|apply in_map_iff; eauto].
    rewrite (nth_indep _ 0%Z (bool01 (existsb (py_eqb PNaN) t)))
      by (now rewrite length_map).
    rewrite (map_nth (fun c => bool01 (existsb (py_eqb c) t))).
    assert (He : existsb (py_eqb (nth j columns PNaN)) t = true).
    { apply existsb_exists. eexists. split; [exact Hct | apply py_eqb_refl]. }
    now rewrite He.
  - destruct ts; [discriminate | discriminate].
  - destruct ts as [|t ts']; [discriminate|].
    specialize (Hrow t (or_introl eq_refl)).
    destruct columns; [contradiction | discriminate].
Qed.

(** X2. The matrix [transactional_to_onehot] returns has one row for every
    transaction that is not empty and one cell per item in every row; every
    row holds a 1 (the transaction has an item) and every column holds a 1
    (the item is in a transaction); there is a row and there is a column. *)
Theorem transactional_to_onehot_matrix (transactions : list (list pyobj))
  (enc : EncodedDF) :
  transactional_to_onehot transactions = Ok enc ->
  List.length (enc_values enc)
  = List.length (filter (fun t => negb (null t)) transactions) /\
  Forall (fun r => List.length r = List.length (enc_columns enc)) (enc_values enc) /\
  Forall (fun r => In 1%Z r) (enc_values enc) /\
  (forall j, (j < List.length (enc_columns enc))%nat ->
             In 1%Z (column (enc_values enc) j)) /\
  enc_values enc <> [] /\
  enc_columns enc <> [].
Proof.
  exact (te_matrix_facts transactions enc).
Qed.

(** ** The one-hot fallback *)

Lemma Zsum_nonneg (l : list Z) : Forall (fun v => (0 <= v)%Z) l -> (0 <= Zsum l)%Z.
Proof.
  induction 1 as [|v l Hv Hl IH]; simpl; lia.
Qed.

Lemma Zsum_zero (l : list Z) :
  Forall (fun v => (0 <= v)%Z) l -> (Zsum l = 0%Z <-> Forall (fun v => v = 0%Z) l).
Proof.
  induction 1 as [|v l Hv Hl IH]; simpl.
  - split; constructor.
  - pose proof (Zsum_nonneg l Hl) as Hs. split.
    + intros H. constructor; [lia|]. apply IH. lia.
    + intros H. inversion H as [|? ? Hv0 Hl0]; subst.
      apply IH in Hl0. lia.
Qed.

Lemma binary_nonneg (l : list Z) :
  Forall (fun v => v = 0%Z \/ v = 1%Z) l -> Forall (fun v => (0 <= v)%Z) l.
Proof.
  apply Forall_impl. intros v [-> | ->]; lia.
Qed.

(** X3. The one-hot fallback raises "No items found in any transaction
    after encoding" exactly when no cell of any column is encoded as 1;
    otherwise it returns a matrix with the columns of the table, in their
    order, as its items. *)
Theorem encode_onehot_no_items (df : DataFrame) :
  (encode_onehot df = Raise (ValueError "No items found in any transaction after encoding")
   <-> Forall (fun c => Forall (fun v => v = 0%Z) (binarize (col_data c))) df) /\
  (forall enc, encode_onehot df = Ok enc ->
               enc_columns enc = map (fun c => PStr (col_name c)) df /\
               exists c, In c df /\ In 1%Z (binarize (col_data c))).
Proof.
  unfold encode_onehot.
  set (encoded := map (fun c => binarize (col_data c)) df).
  assert (Hsum : Zsum (map Zsum encoded) = 0%Z
                 <-> Forall (fun c => Forall (fun v => v = 0%Z) (binarize (col_data c))) df).
  { rewrite Zsum_zero.
    - subst encoded. rewrite map_map, Forall_map.
      split; intros H; apply Forall_forall; intros c Hc;
        rewrite Forall_forall in H; specialize (H c Hc);
        now apply (Zsum_zero _ (binary_nonneg _ (binarize_binary (col_data c)))).
    - subst encoded. rewrite map_map. apply Forall_map, Forall_forall. intros c _.
      apply Zsum_nonneg, binary_nonneg, binarize_binary. }
  destruct (Zsum (map Zsum encoded) =? 0)%Z eqn:E.
  - apply Z.eqb_eq in E. split; [tauto | discriminate].
  - apply Z.eqb_neq in E. split.
    + split; [discriminate | tauto].
    + intros enc H. injection H as <-. split; [reflexivity|].
      destruct (Exists_dec (fun c => In 1%Z (binarize (col_data c))) df) as [Hex|Hno].
      * intros c. apply (in_dec Z.eq_dec).
      * apply Exists_exists in Hex. exact Hex.
      * exfalso. apply E, Hsum. apply Forall_forall. intros c Hc.
        apply Forall_forall. intros v Hv.
        pose proof (binarize_binary (col_data c)) as Hb. rewrite Forall_forall in Hb.
        destruct (Hb v Hv) as [-> | ->]; [reflexivity|].
        exfalso. apply Hno. apply Exists_exists. eauto.
Qed.

(** ** The matrix of [detect_and_encode] *)

Lemma encode_onehot_facts (df : DataFrame) (enc : EncodedDF) :
  (0 < nrows df)%nat ->
  encode_onehot df = Ok enc ->
  Forall (fun r => List.length r = List.length (enc_columns enc)) (enc_values enc) /\
  enc_columns enc <> [] /\
  enc_values enc <> [] /\
  List.length (enc_values enc) = nrows df.
Proof.
  intros Hrows. unfold encode_onehot.
  destruct (_ =? 0)%Z eqn:E; [discriminate|].
  intros H. injection H as <-. simpl. unfold rows_of_columns.
  split; [|split; [|split]].
  - apply Forall_forall. intros r Hr. apply in_map_iff in Hr.
    destruct Hr as [i [<- _]]. now rewrite !length_map.
  - destruct df; [discriminate E | discriminate].
  - destruct (nrows df); [lia | discriminate].
  - now rewrite length_map, length_seq.
Qed.

Lemma drop_unnamed_nrows (df : DataFrame) :
  rectangular_table df -> drop_unnamed df <> [] ->
  nrows (drop_unnamed df) = nrows df.
Proof.
  intros Hrect Hne. destruct (drop_unnamed df) as [|c d] eqn:E; [congruence|].
  simpl. unfold rectangular_table in Hrect. rewrite Forall_forall in Hrect.
  apply Hrect. assert (Hin : In c (drop_unnamed df)) by (rewrite E; now left).
  apply filter_In in Hin. tauto.
Qed.

Lemma detect_and_encode_facts (str_num : Q -> string) (df : DataFrame) (enc : EncodedDF) :
  rectangular_table df ->
  detect_and_encode str_num df = Ok enc ->
  binary_matrix (enc_values enc) /\
  Forall (fun r => List.length r = List.length (enc_columns enc)) (enc_values enc) /\
  enc_columns enc <> [] /\
  enc_values enc <> [].
Proof.
  intros Hrect H. split; [exact (detect_and_encode_binary str_num df enc H)|].
  destruct (df_empty df) eqn:Hne.
  { unfold detect_and_encode in H. rewrite Hne in H. discriminate. }
  assert (Hrows : (0 < nrows df)%nat).
  { unfold df_empty in Hne. apply orb_false_iff in Hne. destruct Hne as [_ Hn].
    apply Nat.eqb_neq in Hn. lia. }
  assert (Honehot : encode_onehot (drop_unnamed df) = Ok enc ->
            Forall (fun r => List.length r = List.length (enc_columns enc)) (enc_values enc) /\
            enc_columns enc <> [] /\ enc_values enc <> []).
  { intros Ho.
    assert (Hd : drop_unnamed df <> []).
    { intros Hd. rewrite Hd in Ho. discriminate. }
    pose proof (drop_unnamed_nrows df Hrect Hd) as Hn.
    destruct (encode_onehot_facts (drop_unnamed df) enc) as (H1 & H2 & H3 & _);
      [lia | exact Ho | auto]. }
  assert (Htrans : forall ts, transactional_to_onehot ts = Ok enc ->
            Forall (fun r => List.length r = List.length (enc_columns enc)) (enc_values enc) /\
            enc_columns enc <> [] /\ enc_values enc <> []).
  { intros ts Ht. destruct (te_matrix_facts ts enc Ht) as (_ & H1 & _ & _ & H2 & H3). auto. }
  rewrite (detect_and_encode_nonempty str_num df Hne) in H.
  destruct (detect_format str_num (drop_unnamed df)); simpl in H;
    unfold comma_split_strategy in H;
    repeat match type of H with
           | context [match ?x with _ => _ end] => destruct x
           end;
    try discriminate; eauto.
Qed.

(** X4. Whatever the format of a table, the matrix [detect_and_encode]
    returns holds only 0 and 1, has one cell per item in every row, and has
    at least one item and one transaction. *)
Theorem detect_and_encode_matrix (str_num : Q -> string) (df : DataFrame)
  (enc : EncodedDF) :
  rectangular_table df ->
  detect_and_encode str_num df = Ok enc ->
  binary_matrix (enc_values enc) /\
  Forall (fun r => List.length r = List.length (enc_columns enc)) (enc_values enc) /\
  enc_columns enc <> [] /\
  enc_values enc <> [].
Proof.
  exact (detect_and_encode_facts str_num df enc).
Qed.

(** ** Text that [_to_bool01] reads *)

Lemma is_space_lower (c : ascii) : is_space (lower_ascii c) = is_space c.
Proof.
  destruct c as [[] [] [] [] [] [] [] []]; reflexivity.
Qed.

Lemma lower_ascii_idem (c : ascii) : lower_ascii (lower_ascii c) = lower_ascii c.
Proof.
  destruct c as [[] [] [] [] [] [] [] []]; reflexivity.
Qed.

Lemma lower_idem (s : string) : lower (lower s) = lower s.
Proof.
  induction s as [|c s IH]; simpl; [reflexivity|].
  now rewrite lower_ascii_idem, IH.
Qed.

(** Case analysis along [lstrip]: a text starts with a white space
    character of one, two or three bytes, or with none. *)
Lemma lstrip_cases (P : string -> Prop) :
  P EmptyString ->
  (forall c s, is_space c = true -> P s -> P (String c s)) ->
  (forall c1 c2 s, is_space c1 = false -> is_space2 c1 c2 = true ->
                   P s -> P (String c1 (String c2 s))) ->
  (forall c1 c2 c3 s, is_space c1 = false -> is_space2 c1 c2 = false ->
                      is_space3 c1 c2 c3 = true ->
                      P s -> P (String c1 (String c2 (String c3 s)))) ->
  (forall c1, is_space c1 = false -> P (String c1 EmptyString)) ->
  (forall c1 c2, is_space c1 = false -> is_space2 c1 c2 = false ->
                 P (String c1 (String c2 EmptyString))) ->
  (forall c1 c2 c3 s, is_space c1 = false -> is_space2 c1 c2 = false ->
                      is_space3 c1 c2 c3 = false ->
                      P (String c1 (String c2 (String c3 s)))) ->
  forall s, P s.
Proof.
  intros H0 H1 H2 H3 S1 S2 S3 s.
  assert (H : forall n s, (String.length s <= n)%nat -> P s).
  { clear s. induction n as [|n IH]; intros s Hn.
    - destruct s; [exact H0 | simpl in Hn; lia].
    - destruct s as [|c1 s1]; [exact H0|]. simpl in Hn.
      destruct (is_space c1) eqn:E1; [apply H1; [exact E1 | apply IH; lia]|].
      destruct s1 as [|c2 s2]; [now apply S1|]. simpl in Hn.
      destruct (is_space2 c1 c2) eqn:E2; [apply H2; auto; apply IH; lia|].
      destruct s2 as [|c3 s3]; [now apply S2|]. simpl in Hn.
      destruct (is_space3 c1 c2 c3) eqn:E3; [apply H3; auto; apply IH; lia|].
      now apply S3. }
  apply (H (String.length s)). lia.
Qed.

Lemma is_start_space (c : ascii) : is_space c = true -> is_start c = true.
Proof.
  intros H. unfold is_start. now rewrite H.
Qed.

Lemma is_start_space2 (c1 c2 : ascii) : is_space2 c1 c2 = true -> is_start c1 = true.
Proof.
  intros H. bytes_to_nat. lia.
Qed.

Lemma is_start_space3 (c1 c2 c3 : ascii) :
  is_space3 c1 c2 c3 = true -> is_start c1 = true.
Proof.
  intros H. bytes_to_nat. lia.
Qed.

Lemma is_space2_start (c1 c2 : ascii) : is_start c2 = true -> is_space2 c1 c2 = false.
Proof.
  intros H. bytes_to_nat. lia.
Qed.

Lemma is_space3_start2 (c1 c2 c3 : ascii) :
  is_start c2 = true -> is_space3 c1 c2 c3 = false.
Proof.
  intros H. bytes_to_nat. lia.
Qed.

Lemma is_space3_start3 (c1 c2 c3 : ascii) :
  is_start c3 = true -> is_space3 c1 c2 c3 = false.
Proof.
  intros H. bytes_to_nat. lia.
Qed.

(** A text of white space only starts with the first byte of a white space
    character. *)
Lemma only_space_start (c : ascii) (w : string) :
  only_space (String c w) = true -> is_start c = true.
Proof.
  unfold only_space. cbn [lstrip].
  destruct (is_space c) eqn:E1; [intros _; now apply is_start_space|].
  destruct w as [|c2 w2]; [discriminate|].
  destruct (is_space2 c c2) eqn:E2; [intros _; now apply is_start_space2 in E2|].
  destruct w2 as [|c3 w3]; [discriminate|].
  destruct (is_space3 c c2 c3) eqn:E3; [intros _; now apply is_start_space3 in E3|].
  discriminate.
Qed.

Lemma only_space_lstrip (w : string) : only_space w = true -> lstrip w = EmptyString.
Proof.
  unfold only_space. now destruct (lstrip w).
Qed.

(** White space in front of a text is dropped by [lstrip]. *)
Lemma lstrip_app_l (w s : string) :
  only_space w = true -> lstrip (String.append w s) = lstrip s.
Proof.
  revert w. apply (lstrip_cases (fun w => only_space w = true ->
                                          lstrip (String.append w s) = lstrip s)).
  - reflexivity.
  - intros c w Hc IH Hw. cbn [String.append lstrip]. rewrite Hc. apply IH.
    unfold only_space in *. cbn [lstrip] in Hw. now rewrite Hc in Hw.
  - intros c1 c2 w H1 H2 IH Hw. cbn [String.append lstrip]. rewrite H1, H2. apply IH.
    unfold only_space in *. cbn [lstrip] in Hw. now rewrite H1, H2 in Hw.
  - intros c1 c2 c3 w H1 H2 H3 IH Hw. cbn [String.append lstrip].
    rewrite H1, H2, H3. apply IH.
    unfold only_space in *. cbn [lstrip] in Hw. now rewrite H1, H2, H3 in Hw.
  - intros c1 H1 Hw. unfold only_space in Hw. cbn [lstrip] in Hw.
    rewrite H1 in Hw. discriminate.
  - intros c1 c2 H1 H2 Hw. unfold only_space in Hw. cbn [lstrip] in Hw.
    rewrite H1, H2 in Hw. discriminate.
  - intros c1 c2 c3 w H1 H2 H3 Hw. unfold only_space in Hw. cbn [lstrip] in Hw.
    rewrite H1, H2, H3 in Hw. discriminate.
Qed.

(** White space behind a text is left by [lstrip], unless the text is
    white space only. *)
Lemma lstrip_app_r (s w : string) :
  only_space w = true ->
  lstrip (String.append s w)
  = match lstrip s with
    | EmptyString => EmptyString
    | r => String.append r w
    end.
Proof.
  intros Hw. revert s.
  apply (lstrip_cases (fun s => lstrip (String.append s w)
                                = match lstrip s with
                                  | EmptyString => EmptyString
                                  | r => String.append r w
                                  end)).
  - cbn [String.append lstrip]. now apply only_space_lstrip.
  - intros c s Hc IH. cbn [String.append lstrip]. now rewrite Hc.
  - intros c1 c2 s H1 H2 IH. cbn [String.append lstrip]. now rewrite H1, H2.
  - intros c1 c2 c3 s H1 H2 H3 IH. cbn [String.append lstrip]. now rewrite H1, H2, H3.
  - intros c1 H1. cbn [String.append lstrip]. rewrite H1.
    destruct w as [|c2 w2]; [reflexivity|].
    pose proof (only_space_start _ _ Hw) as Hs.
    rewrite (is_space2_start c1 c2 Hs).
    destruct w2 as [|c3 w3]; [reflexivity|].
    now rewrite (is_space3_start2 c1 c2 c3 Hs).
  - intros c1 c2 H1 H2. cbn [String.append lstrip]. rewrite H1, H2.
    destruct w as [|c3 w3]; [reflexivity|].
    pose proof (only_space_start _ _ Hw) as Hs.
    now rewrite (is_space3_start3 c1 c2 c3 Hs).
  - intros c1 c2 c3 s H1 H2 H3. cbn [String.append lstrip]. now rewrite H1, H2, H3.
Qed.

Lemma only_space_app (s w : string) :
  only_space w = true -> only_space (String.append s w) = only_space s.
Proof.
  intros Hw. unfold only_space. rewrite (lstrip_app_r s w Hw).
  destruct (lstrip s); reflexivity.
Qed.

(** White space behind a text is dropped by [rstrip]. *)
Lemma rstrip_app (s w : string) :
  only_space w = true -> rstrip (String.append s w) = rstrip s.
Proof.
  intros Hw. induction s as [|a s IH].
  - cbn [String.append]. destruct w as [|c w']; [reflexivity|].
    cbn [rstrip]. now rewrite Hw.
  - cbn [String.append rstrip].
    change (String a (String.append s w)) with (String.append (String a s) w).
    rewrite (only_space_app (String a s) w Hw), IH. reflexivity.
Qed.

Lemma strip_app_l (w s : string) :
  only_space w = true -> strip (String.append w s) = strip s.
Proof.
  intros Hw. unfold strip. now rewrite lstrip_app_l.
Qed.

Lemma strip_app_r (s w : string) :
  only_space w = true -> strip (String.append s w) = strip s.
Proof.
  intros Hw. unfold strip. rewrite (lstrip_app_r s w Hw).
  destruct (lstrip s) as [|c r] eqn:E; [reflexivity|].
  now apply rstrip_app.
Qed.

(** Every character of [whitespace_chars] is white space for [lstrip], and
    so is every text made of them. *)
Lemma whitespace_char_only_space (c : string) :
  In c whitespace_chars -> only_space c = true.
Proof.
  intros H. unfold whitespace_chars in H. cbn [map] in H.
  repeat (destruct H as [<- | H]; [reflexivity|]). destruct H.
Qed.

Lemma only_space_concat (w1 w2 : string) :
  only_space w1 = true -> only_space w2 = true ->
  only_space (String.append w1 w2) = true.
Proof.
  intros H1 H2. unfold only_space. rewrite (lstrip_app_l w1 w2 H1).
  exact H2.
Qed.

Lemma whitespace_only_space (ws : list string) :
  Forall (fun c => In c whitespace_chars) ws ->
  only_space (fold_right String.append EmptyString ws) = true.
Proof.
  induction 1 as [|c ws Hc _ IH]; [reflexivity|].
  cbn [fold_right]. apply only_space_concat; [|exact IH].
  now apply whitespace_char_only_space.
Qed.

(** [lower] leaves every byte outside the range of the ASCII letters, and
    keeps a letter a letter. *)
Lemma lower_ascii_cases (c : ascii) :
  lower_ascii c = c \/
  ((65 <= nat_of_ascii c <= 90)%nat /\ (97 <= nat_of_ascii (lower_ascii c) <= 122)%nat).
Proof.
  destruct c as [[] [] [] [] [] [] [] []];
    first [left; reflexivity | right; vm_compute; lia].
Qed.

Lemma is_space2_lower (c1 c2 : ascii) :
  is_space2 (lower_ascii c1) (lower_ascii c2) = is_space2 c1 c2.
Proof.
  destruct (lower_ascii_cases c1) as [-> | [H1 H1']];
    destruct (lower_ascii_cases c2) as [-> | [H2 H2']]; try reflexivity;
    apply eq_true_iff_eq; unfold is_space2;
    repeat first [ rewrite orb_true_iff | rewrite andb_true_iff
                 | rewrite Nat.eqb_eq | rewrite Nat.leb_le ]; lia.
Qed.

Lemma is_space3_lower (c1 c2 c3 : ascii) :
  is_space3 (lower_ascii c1) (lower_ascii c2) (lower_ascii c3) = is_space3 c1 c2 c3.
Proof.
  destruct (lower_ascii_cases c1) as [-> | [H1 H1']];
    destruct (lower_ascii_cases c2) as [-> | [H2 H2']];
    destruct (lower_ascii_cases c3) as [-> | [H3 H3']]; try reflexivity;
    apply eq_true_iff_eq; unfold is_space3;
    repeat first [ rewrite orb_true_iff | rewrite andb_true_iff
                 | rewrite Nat.eqb_eq | rewrite Nat.leb_le ]; lia.
Qed.

Lemma lstrip_space (c : ascii) (s : string) :
  is_space c = true -> lstrip (String c s) = lstrip s.
Proof.
  intros H. cbn [lstrip]. now rewrite H.
Qed.

Lemma lstrip_space2 (c1 c2 : ascii) (s : string) :
  is_space c1 = false -> is_space2 c1 c2 = true ->
  lstrip (String c1 (String c2 s)) = lstrip s.
Proof.
  intros H1 H2. change (lstrip (String c1 (String c2 s)))
    with (if is_space c1 then lstrip (String c2 s)
          else if is_space2 c1 c2 then lstrip s
               else match s with
                    | EmptyString => String c1 (String c2 s)
                    | String c3 s3 =>
                        if is_space3 c1 c2 c3 then lstrip s3
                        else String c1 (String c2 s)
                    end).
  now rewrite H1, H2.
Qed.

Lemma lstrip_space3 (c1 c2 c3 : ascii) (s : string) :
  is_space c1 = false -> is_space2 c1 c2 = false -> is_space3 c1 c2 c3 = true ->
  lstrip (String c1 (String c2 (String c3 s))) = lstrip s.
Proof.
  intros H1 H2 H3. change (lstrip (String c1 (String c2 (String c3 s))))
    with (if is_space c1 then lstrip (String c2 (String c3 s))
          else if is_space2 c1 c2 then lstrip (String c3 s)
               else if is_space3 c1 c2 c3 then lstrip s
                    else String c1 (String c2 (String c3 s))).
  now rewrite H1, H2, H3.
Qed.

Lemma lstrip_none1 (c1 : ascii) :
  is_space c1 = false -> lstrip (String c1 EmptyString) = String c1 EmptyString.
Proof.
  intros H1. cbn [lstrip]. now rewrite H1.
Qed.

Lemma lstrip_none2 (c1 c2 : ascii) :
  is_space c1 = false -> is_space2 c1 c2 = false ->
  lstrip (String c1 (String c2 EmptyString)) = String c1 (String c2 EmptyString).
Proof.
  intros H1 H2. change (lstrip (String c1 (String c2 EmptyString)))
    with (if is_space c1 then lstrip (String c2 EmptyString)
          else if is_space2 c1 c2 then EmptyString
               else String c1 (String c2 EmptyString)).
  now rewrite H1, H2.
Qed.

Lemma lstrip_none3 (c1 c2 c3 : ascii) (s : string) :
  is_space c1 = false -> is_space2 c1 c2 = false -> is_space3 c1 c2 c3 = false ->
  lstrip (String c1 (String c2 (String c3 s))) = String c1 (String c2 (String c3 s)).
Proof.
  intros H1 H2 H3. change (lstrip (String c1 (String c2 (String c3 s))))
    with (if is_space c1 then lstrip (String c2 (String c3 s))
          else if is_space2 c1 c2 then lstrip (String c3 s)
               else if is_space3 c1 c2 c3 then lstrip s
                    else String c1 (String c2 (String c3 s))).
  now rewrite H1, H2, H3.
Qed.

Lemma lstrip_lower (s : string) : lstrip (lower s) = lower (lstrip s).
Proof.
  revert s. apply lstrip_cases.
  - reflexivity.
  - intros c s Hc IH. cbn [lower].
    rewrite !lstrip_space; auto. now rewrite is_space_lower.
  - intros c1 c2 s H1 H2 IH. cbn [lower].
    rewrite !lstrip_space2; auto;
      [now rewrite is_space_lower | now rewrite is_space2_lower].
  - intros c1 c2 c3 s H1 H2 H3 IH. cbn [lower].
    rewrite !lstrip_space3; auto;
      [now rewrite is_space_lower | now rewrite is_space2_lower
       | now rewrite is_space3_lower].
  - intros c1 H1. cbn [lower].
    rewrite !lstrip_none1; auto. now rewrite is_space_lower.
  - intros c1 c2 H1 H2. cbn [lower].
    rewrite !lstrip_none2; auto;
      [now rewrite is_space_lower | now rewrite is_space2_lower].
  - intros c1 c2 c3 s H1 H2 H3. cbn [lower].
    rewrite !lstrip_none3; auto;
      [now rewrite is_space_lower | now rewrite is_space2_lower
       | now rewrite is_space3_lower].
Qed.

Lemma only_space_lower (s : string) : only_space (lower s) = only_space s.
Proof.
  unfold only_space. rewrite lstrip_lower. now destruct (lstrip s).
Qed.

Lemma rstrip_lower (s : string) : rstrip (lower s) = lower (rstrip s).
Proof.
  induction s as [|c s IH]; [reflexivity|].
  cbn [rstrip]. rewrite <- (only_space_lower (String c s)).
  cbn [lower rstrip]. rewrite IH.
  now destruct (only_space (String (lower_ascii c) (lower s))).
Qed.

Lemma strip_lower (s : string) : strip (lower s) = lower (strip s).
Proof.
  unfold strip. now rewrite lstrip_lower, rstrip_lower.
Qed.

(** X5. [_to_bool01] reads a text without regard to the case of its ASCII
    letters and to the white space before and after it, whichever of the
    characters of Unicode white space it is made of. *)
Theorem to_bool01_text_insensitive (s : string) (ws : list string) :
  Forall (fun c => In c whitespace_chars) ws ->
  let w := fold_right String.append EmptyString ws in
  _to_bool01 (PStr (lower s)) = _to_bool01 (PStr s) /\
  _to_bool01 (PStr (String.append w s)) = _to_bool01 (PStr s) /\
  _to_bool01 (PStr (String.append s w)) = _to_bool01 (PStr s).
Proof.
  intros Hws w. pose proof (whitespace_only_space ws Hws) as Hw. fold w in Hw.
  unfold _to_bool01. cbn [isna]. split; [|split].
  - now rewrite strip_lower, lower_idem.
  - now rewrite strip_app_l.
  - now rewrite strip_app_r.
Qed.

(** ** Joining and splitting the items of a basket *)

Lemma split_no_comma (s : string) :
  has_char comma s = false -> split comma s = [s].
Proof.
  induction s as [|c s IH]; simpl; [reflexivity|].
  intros H. apply orb_false_iff in H. destruct H as [Hc Hs].
  rewrite Hc, (IH Hs). reflexivity.
Qed.

Lemma split_append (s t : string) :
  has_char comma s = false ->
  split comma (String.append s (String comma t)) = s :: split comma t.
Proof.
  induction s as [|c s IH]; simpl.
  - intros _. reflexivity.
  - intros H. apply orb_false_iff in H. destruct H as [Hc Hs].
    rewrite Hc, (IH Hs). reflexivity.
Qed.

Lemma split_join (row : list string) :
  Forall (fun s => has_char comma s = false) row -> row <> [] ->
  split comma (join "," row) = row.
Proof.
  induction 1 as [|s row Hs Hrow IH]; [congruence|]. intros _.
  destruct row as [|s' row'].
  - simpl. now apply split_no_comma.
  - change (join "," (s :: s' :: row'))
      with (String.append s (String comma (join "," (s' :: row')))).
    rewrite (split_append _ _ Hs). f_equal. apply IH. discriminate.
Qed.

Lemma split_items_join (str_num : Q -> string) (row : list string) :
  Forall clean_item row ->
  split_items str_num (PStr (join "," row)) = map PStr row.
Proof.
  intros Hrow. unfold split_items. cbn [py_str]. f_equal.
  destruct row as [|s row']; [reflexivity|].
  rewrite split_join.
  - induction Hrow as [|x l [Hne [_ Hstrip]] Hl IH]; [reflexivity|].
    cbn [map filter]. rewrite Hstrip, Hne. f_equal. exact IH.
  - eapply Forall_impl; [|exact Hrow]. intros x [_ [Hx _]]. exact Hx.
  - discriminate.
Qed.

Lemma filter_idem {A : Type} (f : A -> bool) (l : list A) :
  filter f (filter f l) = filter f l.
Proof.
  induction l as [|x l IH]; simpl; [reflexivity|].
  destruct (f x) eqn:E; simpl; [now rewrite E, IH | exact IH].
Qed.

(** X6. A list of baskets whose items are clean (not empty, without comma,
    without space around) and one of which is not empty survives the way
    [get_sample_dataset] takes: joined with commas into a single column
    "items" and encoded, it gives what [transactional_to_onehot] gives of
    the baskets themselves. *)
Theorem sample_table_round_trip (str_num : Q -> string) (data : list (list string)) :
  Forall (Forall clean_item) data ->
  Exists (fun row => row <> []) data ->
  detect_and_encode str_num (sample_table data)
  = transactional_to_onehot (map (map PStr) data).
Proof.
  intros Hclean Hex.
  assert (Hdata : data <> []) by (destruct Hex; discriminate).
  assert (Hne : df_empty (sample_table data) = false).
  { unfold df_empty, sample_table, ncols, nrows. cbn [List.length col_data series_values].
    rewrite length_map. destruct data; [congruence | reflexivity]. }
  rewrite (detect_and_encode_nonempty str_num _ Hne).
  change (drop_unnamed (sample_table data)) with (sample_table data).
  change (detect_format str_num (sample_table data)) with SingleColumnList.
  unfold encode_as, comma_split_strategy, sample_table. cbn [nth col_data].
  assert (Ht : comma_transactions str_num
                 (ObjectSeries (map (fun row => PStr (join "," row)) data))
               = filter (fun t => negb (null t)) (map (map PStr) data)).
  { unfold comma_transactions, fillna_empty. cbn [series_values].
    rewrite !map_map. f_equal.
    apply map_ext_in. intros row Hrow. rewrite Forall_forall in Hclean.
    cbn [isna]. apply split_items_join. now apply Hclean. }
  rewrite Ht.
  assert (Hnn : null (filter (fun t => negb (null t)) (map (map PStr) data)) = false).
  { clear Ht Hne Hdata Hclean. induction Hex as [row l Hrow | row l Hl IH].
    - destruct row; [congruence | reflexivity].
    - cbn [map filter]. destruct (negb (null (map PStr row))); [reflexivity | exact IH]. }
  rewrite Hnn. unfold transactional_to_onehot. now rewrite filter_idem.
Qed.

(** ** Bounds of the suggested thresholds *)

Lemma Zsum_binary_le (l : list Z) :
  Forall (fun v => v = 0%Z \/ v = 1%Z) l -> (0 <= Zsum l <= Z.of_nat (List.length l))%Z.
Proof.
  induction 1 as [|v l Hv Hl IH]; simpl Zsum; cbn [List.length];
    rewrite ?Nat2Z.inj_succ; [simpl; lia|].
  destruct Hv as [-> | ->]; lia.
Qed.

Lemma column_binary (X : list (list Z)) (j : nat) :
  binary_matrix X -> Forall (fun v => v = 0%Z \/ v = 1%Z) (column X j).
Proof.
  intros H. unfold column. apply Forall_map.
  eapply Forall_impl; [|exact H]. intros r Hr. now apply nth_binary.
Qed.

Lemma fraction_unit (s n : Z) :
  (0 <= s <= n)%Z -> 0 <= inject_Z s / inject_Z n /\ inject_Z s / inject_Z n <= 1.
Proof.
  intros H. destruct (Z.eq_dec n 0) as [->|Hn].
  - assert (s = 0%Z) by lia. subst. split; discriminate.
  - assert (Hpos : 0 < inject_Z n).
    { change 0 with (inject_Z 0). rewrite <- Zlt_Qlt. lia. }
    split.
    + apply Qle_shift_div_l; [exact Hpos|]. rewrite Qmult_0_l.
      change 0 with (inject_Z 0). rewrite <- Zle_Qle. lia.
    + apply Qle_shift_div_r; [exact Hpos|]. rewrite Qmult_1_l.
      rewrite <- Zle_Qle. lia.
Qed.

Lemma item_frequencies_unit (df_encoded : EncodedDF) :
  binary_matrix (enc_values df_encoded) ->
  Forall in_unit (item_frequencies df_encoded).
Proof.
  intros Hbin. unfold item_frequencies, column_sums. rewrite map_map.
  apply Forall_map, Forall_forall. intros j _.
  apply fraction_unit.
  pose proof (Zsum_binary_le _ (column_binary _ j Hbin)) as H.
  unfold column in H. rewrite length_map in H. exact H.
Qed.

Lemma series_min_unit (l : list Q) : Forall in_unit l -> in_unit (series_min l).
Proof.
  destruct l as [|x l]; [intros _; split; discriminate|].
  intros H. destruct (series_min_is_minimum (x :: l)) as [Hin _]; [discriminate|].
  rewrite Forall_forall in H. now apply H.
Qed.

Lemma nth_unit (l : list Q) (i : nat) : Forall in_unit l -> in_unit (nth i l 0).
Proof.
  intros H. destruct (Nat.lt_ge_cases i (List.length l)) as [Hlt|Hge].
  - rewrite Forall_forall in H. apply H. now apply nth_In.
  - rewrite nth_overflow by exact Hge. split; discriminate.
Qed.

Lemma series_median_unit (l : list Q) : Forall in_unit l -> in_unit (series_median l).
Proof.
  intros H. unfold series_median. cbv zeta.
  assert (Hs : Forall in_unit (isort Qltb l)).
  { eapply Permutation_Forall; [apply isort_perm | exact H]. }
  set (s := isort Qltb l) in *.
  destruct (Nat.even (List.length s)); [|now apply nth_unit].
  destruct (nth_unit s (List.length s / 2 - 1) Hs) as [Ha0 Ha1].
  destruct (nth_unit s (List.length s / 2) Hs) as [Hb0 Hb1].
  set (a := nth (List.length s / 2 - 1) s 0) in *.
  set (b := nth (List.length s / 2) s 0) in *.
  split.
  - apply Qle_shift_div_l; [reflexivity|]. rewrite Qmult_0_l.
    rewrite <- (Qplus_0_l 0). now apply Qplus_le_compat.
  - apply Qle_shift_div_r; [reflexivity|].
    setoid_replace (1 * 2) with (1 + 1) by reflexivity.
    now apply Qplus_le_compat.
Qed.

Lemma py_max_lub (a b c : Q) : a <= c -> b <= c -> py_max a b <= c.
Proof.
  intros Ha Hb. unfold py_max. now destruct (Qltb a b).
Qed.

Lemma py_max_ge_l (a b : Q) : a <= py_max a b.
Proof.
  unfold py_max. destruct (Qltb a b) eqn:E.
  - apply Qlt_le_weak. now apply Qltb_true.
  - apply Qle_refl.
Qed.

Lemma py_max_ge_r (a b : Q) : b <= py_max a b.
Proof.
  unfold py_max. destruct (Qltb a b) eqn:E.
  - apply Qle_refl.
  - now apply Qltb_false.
Qed.

Lemma py_max_mono (a b a' b' : Q) :
  a <= a' -> b <= b' -> py_max a b <= py_max a' b'.
Proof.
  intros Ha Hb. apply py_max_lub.
  - eapply Qle_trans; [exact Ha | apply py_max_ge_l].
  - eapply Qle_trans; [exact Hb | apply py_max_ge_r].
Qed.

Lemma scale_le (x c d : Q) : 0 <= x -> c <= d -> x * c <= x * d.
Proof.
  intros Hx Hcd. rewrite (Qmult_comm x c), (Qmult_comm x d).
  now apply Qmult_le_compat_r.
Qed.

Lemma suggestions_bounds_facts (df_encoded : EncodedDF) :
  binary_matrix (enc_values df_encoded) ->
  let s := calculate_optimal_support df_encoded in
  (0.01 <= very_low s /\ very_low s <= 1) /\
  (0.02 <= low s /\ low s <= 1) /\
  (0.05 <= conservative s /\ conservative s <= 1) /\
  (0.1 <= moderate s /\ moderate s <= 1) /\
  (0.2 <= strict s /\ strict s <= 1) /\
  very_low s <= low s /\
  conservative s <= moderate s /\
  moderate s <= strict s.
Proof.
  intros Hbin s. subst s. unfold calculate_optimal_support. cbv zeta. simpl.
  pose proof (item_frequencies_unit df_encoded Hbin) as Hf.
  destruct (series_min_unit _ Hf) as [Hm0 Hm1].
  destruct (series_median_unit _ Hf) as [Hd0 Hd1].
  set (m := series_min (item_frequencies df_encoded)) in *.
  set (d := series_median (item_frequencies df_encoded)) in *.
  assert (Hhalf : forall x c, 0 <= x -> x <= 1 -> c <= 1 -> 0 <= c -> x * c <= 1).
  { intros x c Hx0 Hx1 Hc1 Hc0.
    eapply Qle_trans; [apply (scale_le x c 1 Hx0 Hc1)|]. now rewrite Qmult_1_r. }
  assert (Hshrink : forall x c, 0 <= x -> c <= 1 -> x * c <= x).
  { intros x c Hx0 Hc1.
    eapply Qle_trans; [apply (scale_le x c 1 Hx0 Hc1)|]. rewrite Qmult_1_r. apply Qle_refl. }
  repeat split; try apply py_max_ge_l.
  - apply py_max_lub; [discriminate | apply Hhalf; auto; discriminate].
  - apply py_max_lub; [discriminate | exact Hm1].
  - apply py_max_lub; [discriminate | apply Hhalf; auto; discriminate].
  - apply py_max_lub; [discriminate | apply Hhalf; auto; discriminate].
  - apply py_max_lub; [discriminate | exact Hd1].
  - apply py_max_mono; [discriminate | apply Hshrink; auto; discriminate].
  - apply py_max_mono; [discriminate | apply scale_le; auto; discriminate].
  - apply py_max_mono; [discriminate | apply Hshrink; auto; discriminate].
Qed.

(** X7. For a matrix of 0 and 1, every threshold [calculate_optimal_support]
    suggests is at least its floor (0.01, 0.02, 0.05, 0.1, 0.2) and at most
    1, so it is a [min_support] the upload accepts; and very_low <= low,
    conservative <= moderate <= strict. *)
Theorem suggestions_bounds (df_encoded : EncodedDF) :
  binary_matrix (enc_values df_encoded) ->
  let s := calculate_optimal_support df_encoded in
  (0.01 <= very_low s /\ very_low s <= 1) /\
  (0.02 <= low s /\ low s <= 1) /\
  (0.05 <= conservative s /\ conservative s <= 1) /\
  (0.1 <= moderate s /\ moderate s <= 1) /\
  (0.2 <= strict s /\ strict s <= 1) /\
  very_low s <= low s /\
  conservative s <= moderate s /\
  moderate s <= strict s.
Proof.
  exact (suggestions_bounds_facts df_encoded).
Qed.

(** ** Shape and size of the co-occurrence matrix *)

Lemma fill_diagonal0_shape (m : list (list Z)) (n : nat) :
  Forall (fun r => List.length r = n) m ->
  List.length (fill_diagonal0 m) = List.length m /\
  Forall (fun r => List.length r = n) (fill_diagonal0 m).
Proof.
  intros H. unfold fill_diagonal0. split.
  - now rewrite length_map, length_combine, length_seq, Nat.min_id.
  - apply Forall_map, Forall_forall. intros [i r] Hin. simpl.
    rewrite length_map, length_combine, length_seq, Nat.min_id.
    apply in_combine_r in Hin. rewrite Forall_forall in H. now apply H.
Qed.

Lemma gram_shape (n : nat) (X : list (list Z)) :
  List.length (gram n X) = n /\ Forall (fun r => List.length r = n) (gram n X).
Proof.
  unfold gram. split.
  - now rewrite length_map, length_seq.
  - apply Forall_map, Forall_forall. intros i _. now rewrite length_map, length_seq.
Qed.

Lemma both_count_le (X : list (list Z)) (i j : nat) :
  binary_matrix X -> (0 <= both_count X i j <= Zsum (column X i))%Z.
Proof.
  unfold both_count, column. induction 1 as [|r X Hr HX IH]; [simpl; lia|].
  cbn [map filter Zsum fold_right].
  fold (Zsum (map (fun r => nth i r 0%Z) X)).
  destruct (nth_binary r i Hr) as [Ei|Ei], (nth_binary r j Hr) as [Ej|Ej];
    rewrite Ei, Ej;
    change (1 =? 1)%Z with true; change (0 =? 1)%Z with false;
    cbn [andb List.length]; rewrite ?Nat2Z.inj_succ; lia.
Qed.

(** X8. For a matrix of 0 and 1 over [n] items, [build_cooccurrence]
    returns an [n] by [n] matrix labelled by the items, and no cell is
    negative or greater than the number of transactions that hold the item
    of its row. *)
Theorem build_cooccurrence_shape (df_encoded : EncodedDF) :
  binary_matrix (enc_values df_encoded) ->
  let n := List.length (enc_columns df_encoded) in
  let co := build_cooccurrence df_encoded in
  co_labels co = enc_columns df_encoded /\
  List.length (co_values co) = n /\
  Forall (fun r => List.length r = n) (co_values co) /\
  forall i j, (i < n)%nat -> (j < n)%nat ->
    (0 <= cell (co_values co) i j <= Zsum (column (enc_values df_encoded) i))%Z.
Proof.
  intros Hbin n co. subst co. unfold build_cooccurrence. simpl. fold n.
  destruct (gram_shape n (enc_values df_encoded)) as [Hlen Hrows].
  destruct (fill_diagonal0_shape _ n Hrows) as [Hlen' Hrows'].
  split; [reflexivity|]. split; [now rewrite Hlen'|]. split; [exact Hrows'|].
  intros i j Hi Hj. rewrite cell_fill_diagonal0.
  pose proof (both_count_le (enc_values df_encoded) i j Hbin) as Hb.
  destruct (i =? j)%nat.
  - lia.
  - rewrite cell_gram, dot_column, products_count by assumption. exact Hb.
Qed.

(** ** The transactions that support a rule *)






(** ** When an upload finds no frequent itemset *)

Lemma filter_nil_iff {A : Type} (f : A -> bool) (l : list A) :
  filter f l = [] <-> Forall (fun x => f x = false) l.
Proof.
  induction l as [|x l IH]; simpl.
  - split; constructor.
  - destruct (f x) eqn:E.
    + split; [discriminate|]. intros H. inversion H. congruence.
    + rewrite IH. split; intros H; [now constructor | now inversion H].
Qed.

Lemma item_frequencies_support1 (df : EncodedDF) :
  item_frequencies df
  = map (support1 (enc_values df)) (seq 0 (List.length (enc_columns df))).
Proof.
  unfold item_frequencies, column_sums, support1. now rewrite map_map.
Qed.

Lemma valid_input_binary (X : list (list Z)) : binary_matrix X -> valid_input X = true.
Proof.
  intros Hbin. unfold valid_input. apply forallb_forall. intros r Hr.
  apply forallb_forall. intros v Hv.
  unfold binary_matrix in Hbin. rewrite Forall_forall in Hbin.
  specialize (Hbin r Hr). rewrite Forall_forall in Hbin.
  destruct (Hbin v Hv) as [-> | ->]; reflexivity.
Qed.

Lemma apriori_levels_nil (fuel : nat) (X : list (list Z)) (min_support : Q) :
  apriori_levels fuel X min_support [] = [].
Proof.
  destruct fuel; reflexivity.
Qed.

(** On a matrix of 0 and 1, mining finds nothing exactly when every item
    is rarer than the threshold. *)
Lemma apriori_empty_iff (df : EncodedDF) (min_support : Q) :
  binary_matrix (enc_values df) -> 0 < min_support ->
  (apriori df min_support = Ok [] <->
   Forall (fun f => f < min_support) (item_frequencies df)).
Proof.
  intros Hbin Hpos. unfold apriori.
  destruct (Qle_bool min_support 0) eqn:E.
  { apply Qle_bool_iff in E. exfalso. exact (Qlt_not_le _ _ Hpos E). }
  rewrite (valid_input_binary _ Hbin). cbn [negb].
  rewrite item_frequencies_support1.
  set (n := List.length (enc_columns df)).
  set (level1 := filter _ _).
  assert (Hl : level1 = [] <->
               Forall (fun f => f < min_support) (map (support1 (enc_values df)) (seq 0 n))).
  { subst level1. rewrite filter_nil_iff, Forall_map, Forall_map.
    split; intros H; eapply Forall_impl; try exact H; intros j Hj; simpl in *.
    - apply Qnot_le_lt. intros Hle. apply Qle_bool_iff in Hle. congruence.
    - destruct (Qle_bool min_support (support1 (enc_values df) j)) eqn:Eb; [|reflexivity].
      apply Qle_bool_iff in Eb. exfalso. exact (Qlt_not_le _ _ Hj Eb). }
  split.
  - intros H. injection H as H. apply map_eq_nil in H. apply app_eq_nil in H.
    apply Hl. tauto.
  - intros H. apply Hl in H. rewrite H. simpl. now rewrite apriori_levels_nil.
Qed.

Lemma starting_support_pos (filename : option string) (min_support : Q) :
  in_unit_interval min_support = true -> 0 < starting_support filename min_support.
Proof.
  intros H. unfold starting_support. destruct (is_sample_file filename).
  - apply in_unit_interval_pos. now apply in_unit_interval_py_min.
  - now apply in_unit_interval_pos.
Qed.

Lemma upload_dataset_none (str_num : Q -> string) (filename : option string)
  (df_raw : DataFrame) (min_support min_confidence : Q) (df_encoded : EncodedDF) :
  in_unit_interval min_support = true ->
  in_unit_interval min_confidence = true ->
  df_empty df_raw = false ->
  detect_and_encode str_num df_raw = Ok df_encoded ->
  (upload_dataset str_num filename df_raw min_support min_confidence
   = HTTPException 400 NoFrequentItemsets <->
   apriori_with_adjustment df_encoded (starting_support filename min_support)
     (calculate_optimal_support df_encoded)
   = HTTPException 400 NoFrequentItemsets).
Proof.
  intros Hms Hmc Hne Henc. unfold upload_dataset. rewrite Hms, Hmc, Hne, Henc. simpl.
  fold (starting_support filename min_support).
  destruct (apriori_with_adjustment _ _ _) as [[fi ms']|code detail].
  - split; [|discriminate].
    destruct (rules_with_adjustment (sort_by_support_desc fi) min_confidence).
    destruct (sequence _); simpl; [|discriminate].
    destruct (clean_itemsets _); simpl; [|discriminate].
    destruct (clean_rules _); simpl; discriminate.
  - split; intros H; injection H as -> ->; reflexivity.
Qed.

Lemma below_very_low (df_encoded : EncodedDF) :
  binary_matrix (enc_values df_encoded) ->
  (Forall (fun f => f < very_low (calculate_optimal_support df_encoded))
          (item_frequencies df_encoded) <->
   Forall (fun f => f < 0.01) (item_frequencies df_encoded)).
Proof.
  intros Hbin. unfold calculate_optimal_support. cbn [very_low].
  pose proof (item_frequencies_unit df_encoded Hbin) as Hu.
  remember (item_frequencies df_encoded) as F eqn:EF. clear EF.
  split; intros H.
  - unfold py_max in H. destruct (Qltb 0.01 (series_min F * 0.5)); [|exact H].
    destruct F as [|f F']; [constructor|].
    destruct (series_min_is_minimum (f :: F')) as [Hin _]; [discriminate|].
    rewrite Forall_forall in Hu. destruct (Hu _ Hin) as [Hm0 _].
    rewrite Forall_forall in H. specialize (H _ Hin).
    exfalso. apply (Qlt_not_le _ _ H).
    eapply Qle_trans; [apply (scale_le _ 0.5 1 Hm0); discriminate|].
    rewrite Qmult_1_r. apply Qle_refl.
  - eapply Forall_impl; [|exact H]. intros x Hx.
    eapply Qlt_le_trans; [exact Hx | apply py_max_ge_l].
Qed.

Lemma no_frequent_itemsets_facts (str_num : Q -> string) (filename : option string)
  (df_raw : DataFrame) (min_support min_confidence : Q) (df_encoded : EncodedDF) :
  in_unit_interval min_support = true ->
  in_unit_interval min_confidence = true ->
  df_empty df_raw = false ->
  detect_and_encode str_num df_raw = Ok df_encoded ->
  (upload_dataset str_num filename df_raw min_support min_confidence
   = HTTPException 400 NoFrequentItemsets <->
   Forall (fun f => f < starting_support filename min_support /\ f < 0.01)
          (item_frequencies df_encoded)).
Proof.
  intros Hms Hmc Hne Henc.
  rewrite (upload_dataset_none str_num filename df_raw min_support min_confidence
             df_encoded Hms Hmc Hne Henc).
  rewrite apriori_with_adjustment_none.
  pose proof (detect_and_encode_binary str_num df_raw df_encoded Henc) as Hbin.
  pose proof (starting_support_pos filename min_support Hms) as Hstart.
  set (start := starting_support filename min_support) in *.
  set (s := calculate_optimal_support df_encoded).
  assert (Hvl : 0 < very_low s).
  { eapply Qlt_le_trans; [|apply py_max_ge_l]. reflexivity. }
  rewrite (apriori_empty_iff df_encoded start Hbin Hstart).
  rewrite (apriori_empty_iff df_encoded (very_low s) Hbin Hvl).
  subst s. rewrite (below_very_low df_encoded Hbin).
  split.
  - intros [Hs [Hle | Hlow]].
    + apply Qltb_false in Hle.
      assert (Hlow : Forall (fun f => f < 0.01) (item_frequencies df_encoded)).
      { apply (below_very_low df_encoded Hbin).
        eapply Forall_impl; [|exact Hs]. intros f Hf.
        eapply Qlt_le_trans; [exact Hf | exact Hle]. }
      rewrite Forall_forall in *. intros f Hf. split; auto.
    + rewrite Forall_forall in *. intros f Hf. split; auto.
  - intros H. split; [|right].
    + eapply Forall_impl; [|exact H]. intros f [Hf _]. exact Hf.
    + eapply Forall_impl; [|exact H]. intros f [_ Hf]. exact Hf.
Qed.

(** X10. For an upload with valid thresholds whose table is encoded, the
    error "no frequent itemsets" is reported exactly when every item
    occurs in less than 1% of the transactions and in less than the
    starting [min_support]. *)
Theorem no_frequent_itemsets_iff (str_num : Q -> string) (filename : option string)
  (df_raw : DataFrame) (min_support min_confidence : Q) (df_encoded : EncodedDF) :
  in_unit_interval min_support = true ->
  in_unit_interval min_confidence = true ->
  df_empty df_raw = false ->
  detect_and_encode str_num df_raw = Ok df_encoded ->
  (upload_dataset str_num filename df_raw min_support min_confidence
   = HTTPException 400 NoFrequentItemsets <->
   Forall (fun f => f < starting_support filename min_support /\ f < 0.01)
          (item_frequencies df_encoded)).
Proof.
  exact (no_frequent_itemsets_facts str_num filename df_raw min_support min_confidence
           df_encoded).
Qed.

(** ** What a successful upload stores *)

Lemma sequence_length {A B : Type} (f : A -> result B) (l : list A) (l' : list B) :
  sequence (map f l) = Ok l' -> List.length l' = List.length l.
Proof.
  intros H. apply sequence_Forall2 in H. symmetry. now apply Forall2_length in H.
Qed.

Lemma upload_metadata_facts (str_num : Q -> string) (filename : option string)
  (df_raw : DataFrame) (min_support min_confidence : Q) (st : State) :
  upload_dataset str_num filename df_raw min_support min_confidence = Success st ->
  let m := st_meta st in
  st_df_raw st = df_raw /\
  meta_file_name m = filename /\
  meta_n_transactions m = List.length (enc_values (st_df_encoded st)) /\
  meta_n_items m = List.length (enc_columns (st_df_encoded st)) /\
  meta_n_frequent_itemsets m = List.length (st_frequent_itemsets st) /\
  (0 < meta_n_frequent_itemsets m)%nat /\
  meta_n_rules m = List.length (st_rules st) /\
  st_cooccurrence st = build_cooccurrence (st_df_encoded st).
Proof.
  unfold upload_dataset.
  destruct (in_unit_interval min_support); simpl; [|discriminate].
  destruct (in_unit_interval min_confidence); simpl; [|discriminate].
  destruct (df_empty df_raw); [discriminate|].
  destruct (detect_and_encode str_num df_raw) as [enc|]; [|discriminate].
  destruct (apriori_with_adjustment enc _ _) as [[fi ms']|] eqn:Ha; [|discriminate].
  destruct (rules_with_adjustment (sort_by_support_desc fi) min_confidence)
    as [rules mc'] eqn:Hr.
  destruct (sequence (map (find_supporting_transactions enc) rules))
    as [supporting|] eqn:Hs; simpl; [|discriminate].
  destruct (clean_itemsets (sort_by_support_desc fi)) as [fi_json|] eqn:Hf; simpl;
    [|discriminate].
  destruct (clean_rules _) as [rules_json|] eqn:Hc; simpl; [|discriminate].
  intros H. injection H as <-. simpl.
  apply apriori_with_adjustment_success in Ha. destruct Ha as (_ & Hne & _).
  assert (Hlen : List.length fi_json = List.length (sort_by_support_desc fi)).
  { pose proof (clean_itemsets_supports _ _ Hf) as E.
    apply (f_equal (@List.length Q)) in E. now rewrite !length_map in E. }
  assert (Hsort : List.length (sort_by_support_desc fi) = List.length fi).
  { symmetry. apply Permutation_length, sort_by_support_desc_perm. }
  assert (Hrules : List.length rules_json = List.length rules).
  { unfold clean_rules in Hc. apply sequence_length in Hc.
    apply sequence_length in Hs.
    rewrite Hc, length_map, length_combine, Hs. apply Nat.min_id. }
  assert (Hmap : List.length (map (fun p : Rule * list nat =>
                                     with_supporting_transactions (fst p) (snd p))
                                  (combine rules supporting)) = List.length rules).
  { apply sequence_length in Hs. rewrite length_map, length_combine, Hs.
    apply Nat.min_id. }
  repeat split; try reflexivity; try congruence.
  rewrite Hsort. destruct fi; [exfalso; now apply Hne | simpl; lia].
Qed.

(** X11. The counts a successful upload reports are the sizes of the tables
    it stores: the transactions and items of the encoded matrix, the
    frequent itemsets (never none) and the rules; the co-occurrence matrix
    stored is the one of the encoded matrix. *)
Theorem upload_metadata (str_num : Q -> string) (filename : option string)
  (df_raw : DataFrame) (min_support min_confidence : Q) (st : State) :
  upload_dataset str_num filename df_raw min_support min_confidence = Success st ->
  let m := st_meta st in
  st_df_raw st = df_raw /\
  meta_file_name m = filename /\
  meta_n_transactions m = List.length (enc_values (st_df_encoded st)) /\
  meta_n_items m = List.length (enc_columns (st_df_encoded st)) /\
  meta_n_frequent_itemsets m = List.length (st_frequent_itemsets st) /\
  (0 < meta_n_frequent_itemsets m)%nat /\
  meta_n_rules m = List.length (st_rules st) /\
  st_cooccurrence st = build_cooccurrence (st_df_encoded st).
Proof.
  exact (upload_metadata_facts str_num filename df_raw min_support min_confidence st).
Qed.

(** ** The endpoints that read the last analysis *)

(** X12. [get_rules] never answers with an empty list. After an upload
    that succeeded and reports no rule, it answers with the two
    demonstration rules; after one that reports rules, it answers with one
    entry per rule, in their order and with their confidence. *)
Theorem get_rules_after_upload (str_num : Q -> string) (STATE : option State)
  (filename : option string) (df_raw : DataFrame) (min_support min_confidence : Q)
  (st : State) :
  upload_dataset str_num filename df_raw min_support min_confidence = Success st ->
  let STATE' := upload_dataset_state str_num STATE filename df_raw
                                     min_support min_confidence in
  get_rules STATE <> [] /\
  get_rules STATE' <> [] /\
  (meta_n_rules (st_meta st) = 0%nat -> get_rules STATE' = sample_rules) /\
  (meta_n_rules (st_meta st) <> 0%nat ->
   map rj_confidence (get_rules STATE') = map confidence (st_rules st) /\
   map rj_antecedent (get_rules STATE') = map antecedents (st_rules st) /\
   map rj_consequent (get_rules STATE') = map consequents (st_rules st)).
Proof.
  intros H STATE'. subst STATE'. unfold upload_dataset_state. rewrite H.
  destruct (upload_metadata_facts _ _ _ _ _ _ H) as (_ & _ & _ & _ & _ & _ & Hn & _).
  assert (Hany : forall S0, get_rules S0 <> []).
  { intros [st0|]; simpl; [|discriminate].
    destruct (st_rules st0); simpl; discriminate. }
  split; [apply Hany|]. split; [apply Hany|]. rewrite Hn. simpl. split.
  - intros H0. destruct (st_rules st); [reflexivity | discriminate].
  - intros H0. destruct (st_rules st) as [|r rs]; [exfalso; now apply H0|].
    cbn [null]. rewrite !map_map. repeat split.
Qed.

(** X13. Whatever the last analysis stored, [get_frequent_itemsets] answers
    with the stored itemsets, each once, sorted by support with the
    greatest first; with no analysis it answers with the empty list. *)
Theorem get_frequent_itemsets_sorted (STATE : option State) :
  StronglySorted (fun a b => support b <= support a) (get_frequent_itemsets STATE) /\
  (STATE = None -> get_frequent_itemsets STATE = []) /\
  (forall st, STATE = Some st ->
              Permutation (st_frequent_itemsets st) (get_frequent_itemsets STATE)).
Proof.
  split; [|split].
  - destruct STATE as [st|]; simpl; [apply sort_by_support_desc_sorted | constructor].
  - intros ->. reflexivity.
  - intros st ->. simpl. apply sort_by_support_desc_perm.
Qed.

(** ** The statistics of [analyze_dataset] *)

Lemma Zsum_map_add {A : Type} (f g : A -> Z) (l : list A) :
  Zsum (map (fun x => (f x + g x)%Z) l) = (Zsum (map f l) + Zsum (map g l))%Z.
Proof.
  induction l as [|x l IH]; simpl; [reflexivity|]. rewrite IH. lia.
Qed.

Lemma Zsum_map_zero {A : Type} (l : list A) : Zsum (map (fun _ => 0%Z) l) = 0%Z.
Proof.
  induction l as [|x l IH]; simpl; [reflexivity | now rewrite IH].
Qed.

Lemma map_nth_all (r : list Z) : map (fun j => nth j r 0%Z) (seq 0 (List.length r)) = r.
Proof.
  induction r as [|x r IH]; simpl; [reflexivity|].
  f_equal. rewrite <- seq_shift, map_map. exact IH.
Qed.

(** Summing a matrix by rows or by columns gives the same total. *)
Lemma total_rows_columns (X : list (list Z)) (n : nat) :
  Forall (fun r => List.length r = n) X ->
  Zsum (map Zsum X) = Zsum (map (fun j => Zsum (column X j)) (seq 0 n)).
Proof.
  induction 1 as [|r X Hr HX IH]; simpl.
  - now rewrite Zsum_map_zero.
  - rewrite (Zsum_map_add (fun j => nth j r 0%Z) (fun j => Zsum (column X j))).
    rewrite <- IH, <- Hr, map_nth_all. reflexivity.
Qed.

Lemma total_bounds (X : list (list Z)) (n : nat) :
  binary_matrix X -> Forall (fun r => List.length r = n) X ->
  (0 <= Zsum (map Zsum X) <= Z.of_nat (List.length X * n))%Z.
Proof.
  intros Hbin Hrect. induction Hrect as [|r X Hr HX IH]; simpl; [lia|].
  inversion Hbin as [|? ? Hb HbX]; subst.
  specialize (IH HbX). pose proof (Zsum_binary_le r Hb). lia.
Qed.

Lemma fold_py_max (l : list Q) (x : Q) :
  x <= fold_left py_max l x /\ Forall (fun y => y <= fold_left py_max l x) l.
Proof.
  revert x. induction l as [|y l IH]; intros x; simpl.
  - split; [apply Qle_refl | constructor].
  - destruct (IH (py_max x y)) as (Hle & Hall). split; [|constructor; [|exact Hall]].
    + eapply Qle_trans; [apply py_max_ge_l | exact Hle].
    + eapply Qle_trans; [apply py_max_ge_r | exact Hle].
Qed.

Lemma fold_pairs (better : Q -> Q -> bool) (ps : list (pyobj * Q)) (p : pyobj * Q) :
  In (fold_left (fun best x => if better (snd best) (snd x) then x else best) ps p)
     (p :: ps) /\
  snd (fold_left (fun best x => if better (snd best) (snd x) then x else best) ps p)
  = fold_left (fun a b => if better a b then b else a) (map snd ps) (snd p).
Proof.
  revert p. induction ps as [|x ps IH]; intros p; simpl.
  - split; [now left | reflexivity].
  - destruct (IH (if better (snd p) (snd x) then x else p)) as [Hin Hsnd]. split.
    + destruct Hin as [Hin|Hin]; [|now right; right].
      rewrite <- Hin. destruct (better (snd p) (snd x)); auto.
    + rewrite Hsnd. now destruct (better (snd p) (snd x)).
Qed.

Lemma in_combine_nth {A B : Type} (l : list A) (l' : list B) (a : A) (b : B) :
  In (a, b) (combine l l') ->
  exists j, nth_error l j = Some a /\ nth_error l' j = Some b.
Proof.
  revert l'. induction l as [|x l IH]; intros [|y l'] H; simpl in H; try contradiction.
  destruct H as [H|H].
  - injection H as <- <-. now exists 0%nat.
  - destruct (IH l' H) as [j Hj]. now exists (S j).
Qed.

Lemma map_snd_combine {A B : Type} (l : list A) (l' : list B) :
  List.length l = List.length l' -> map snd (combine l l') = l'.
Proof.
  revert l'. induction l as [|x l IH]; intros [|y l'] H; simpl in *; try discriminate;
    [reflexivity|]. f_equal. apply IH. lia.
Qed.

(** The label [idx_first] picks stands in the place of the value that the
    matching fold picks. *)
Lemma idx_first_spec (better : Q -> Q -> bool) (labels : list pyobj) (values : list Q)
  (v : Q) (vs : list Q) :
  List.length labels = List.length values -> values = v :: vs ->
  exists j, nth_error labels j = Some (idx_first better labels values) /\
            nth_error values j
            = Some (fold_left (fun a b => if better a b then b else a) vs v).
Proof.
  intros Hlen ->. destruct labels as [|l ls]; [discriminate|].
  unfold idx_first. cbn [combine].
  destruct (fold_pairs better (combine ls vs) (l, v)) as [Hin Hsnd].
  rewrite map_snd_combine in Hsnd by (simpl in Hlen; lia). cbn [snd] in Hsnd.
  rewrite <- Hsnd.
  change ((l, v) :: combine ls vs) with (combine (l :: ls) (v :: vs)) in Hin.
  set (q := fold_left _ _ _) in *. destruct q as [a b]. simpl.
  now apply in_combine_nth.
Qed.

Lemma dataset_stats_facts (df_encoded : EncodedDF) :
  binary_matrix (enc_values df_encoded) ->
  Forall (fun r => List.length r = List.length (enc_columns df_encoded))
         (enc_values df_encoded) ->
  enc_columns df_encoded <> [] ->
  enc_values df_encoded <> [] ->
  let stats := dataset_stats df_encoded in
  (0 < stats_n_transactions stats)%nat /\
  (0 < stats_n_items stats)%nat /\
  0 <= sparsity stats /\ sparsity stats <= 1 /\
  0 <= avg_items_per_transaction stats /\
  avg_items_per_transaction stats <= inject_Z (Z.of_nat (stats_n_items stats)) /\
  item_frequency (least_frequent_item stats)
  <= item_frequency (most_frequent_item stats) /\
  Forall (fun f => item_frequency (least_frequent_item stats) <= f /\
                   f <= item_frequency (most_frequent_item stats))
         (item_frequencies df_encoded) /\
  (exists j,
     nth_error (enc_columns df_encoded) j = Some (item_name (most_frequent_item stats)) /\
     nth_error (item_frequencies df_encoded) j
     = Some (item_frequency (most_frequent_item stats))) /\
  (exists j,
     nth_error (enc_columns df_encoded) j = Some (item_name (least_frequent_item stats)) /\
     nth_error (item_frequencies df_encoded) j
     = Some (item_frequency (least_frequent_item stats))).
Proof.
  intros Hbin Hrect Hcols Hrows stats. subst stats. unfold dataset_stats. cbv zeta.
  cbn [stats_n_transactions stats_n_items sparsity avg_items_per_transaction
       most_frequent_item least_frequent_item item_frequency item_name].
  set (n_tx := List.length (enc_values df_encoded)).
  set (n_items := List.length (enc_columns df_encoded)).
  assert (Htx : (0 < n_tx)%nat).
  { subst n_tx. destruct (enc_values df_encoded); [congruence | simpl; lia]. }
  assert (Hit : (0 < n_items)%nat).
  { subst n_items. destruct (enc_columns df_encoded); [congruence | simpl; lia]. }
  assert (Htotal : total_sum df_encoded = Zsum (map Zsum (enc_values df_encoded))).
  { unfold total_sum, column_sums. symmetry. now apply total_rows_columns. }
  pose proof (total_bounds _ _ Hbin Hrect) as Hb. fold n_tx n_items in Hb.
  rewrite <- Htotal in Hb.
  destruct (fraction_unit _ _ Hb) as [Hf0 Hf1].
  set (freqs := item_frequencies df_encoded).
  assert (Hlen : List.length (enc_columns df_encoded) = List.length freqs).
  { subst freqs. unfold item_frequencies, column_sums.
    now rewrite !length_map, length_seq. }
  destruct freqs as [|v vs] eqn:Hfreqs.
  { exfalso. fold n_items in Hlen. simpl in Hlen. lia. }
  rewrite <- Hfreqs in *.
  destruct (series_min_is_minimum freqs) as [Hmin_in Hmin]; [rewrite Hfreqs; discriminate|].
  assert (Hmax : Forall (fun y => y <= series_max freqs) freqs).
  { rewrite Hfreqs. simpl. destruct (fold_py_max vs v) as [H1 H2]. now constructor. }
  assert (Hmean : mean_row_sum df_encoded
                  == inject_Z (total_sum df_encoded)
                     / inject_Z (Z.of_nat (n_tx * n_items))
                     * inject_Z (Z.of_nat n_items)).
  { unfold mean_row_sum. fold n_tx. rewrite <- Htotal.
    rewrite Nat2Z.inj_mul, inject_Z_mult.
    assert (H1 : ~ inject_Z (Z.of_nat n_tx) == 0).
    { change 0 with (inject_Z 0). rewrite inject_Z_injective. lia. }
    assert (H2 : ~ inject_Z (Z.of_nat n_items) == 0).
    { change 0 with (inject_Z 0). rewrite inject_Z_injective. lia. }
    field. split; assumption. }
  assert (Hitems : 0 <= inject_Z (Z.of_nat n_items)).
  { change 0 with (inject_Z 0). rewrite <- Zle_Qle. lia. }
  split; [exact Htx|]. split; [exact Hit|].
  split; [|split; [|split; [|split; [|split; [|split; [|split]]]]]].
  - unfold Qminus. rewrite <- (Qplus_opp_r (inject_Z (total_sum df_encoded)
                                            / inject_Z (Z.of_nat (n_tx * n_items)))).
    apply Qplus_le_compat; [exact Hf1 | apply Qle_refl].
  - unfold Qminus. setoid_replace 1 with (1 + - 0) at 2 by reflexivity.
    apply Qplus_le_compat; [apply Qle_refl|]. now apply Qopp_le_compat.
  - rewrite Hmean. now apply Qmult_le_0_compat.
  - rewrite Hmean.
    setoid_replace (inject_Z (Z.of_nat n_items))
      with (1 * inject_Z (Z.of_nat n_items)) at 2 by ring.
    now apply Qmult_le_compat_r.
  - rewrite Forall_forall in Hmax. now apply Hmax.
  - apply Forall_forall. intros f Hf. rewrite Forall_forall in Hmin, Hmax. auto.
  - unfold idxmax. destruct (idx_first_spec (fun best x => Qltb best x)
                               (enc_columns df_encoded) freqs v vs Hlen Hfreqs)
      as [j [Hj1 Hj2]].
    exists j. split; [exact Hj1|]. rewrite Hj2. f_equal. now rewrite Hfreqs.
  - unfold idxmin. destruct (idx_first_spec (fun best x => Qltb x best)
                               (enc_columns df_encoded) freqs v vs Hlen Hfreqs)
      as [j [Hj1 Hj2]].
    exists j. split; [exact Hj1|]. rewrite Hj2. f_equal. now rewrite Hfreqs.
Qed.

Lemma analyze_dataset_ok (str_num : Q -> string) (json_other : pyobj -> bool)
  (df_raw : DataFrame) (stats : Stats) :
  analyze_dataset str_num json_other df_raw = HttpOk stats ->
  exists df_encoded,
    detect_and_encode str_num df_raw = Ok df_encoded /\
    stats = dataset_stats df_encoded /\
    json_label json_other (item_name (most_frequent_item stats)) = true /\
    json_label json_other (item_name (least_frequent_item stats)) = true.
Proof.
  unfold analyze_dataset.
  destruct (df_empty df_raw); [discriminate|].
  destruct (detect_and_encode str_num df_raw) as [enc|] eqn:Henc; [|discriminate].
  destruct (json_label json_other (item_name (most_frequent_item (dataset_stats enc))))
    eqn:E1; [|discriminate].
  destruct (json_label json_other (item_name (least_frequent_item (dataset_stats enc))))
    eqn:E2; [|discriminate].
  intros H. injection H as <-. exists enc. auto.
Qed.

(** X14. When [analyze_dataset] succeeds on a table, the statistics it
    returns are those of a table with a transaction and an item: the
    sparsity lies between 0 and 1, the mean number of items per transaction
    between 0 and the number of items, and the most and the least frequent
    item named are items of the table, accepted by the JSON encoder, whose
    frequencies are the greatest and the smallest of all. *)
Theorem analyze_dataset_stats (str_num : Q -> string) (json_other : pyobj -> bool)
  (df_raw : DataFrame) (stats : Stats) :
  rectangular_table df_raw ->
  analyze_dataset str_num json_other df_raw = HttpOk stats ->
  exists df_encoded,
    detect_and_encode str_num df_raw = Ok df_encoded /\
    (0 < stats_n_transactions stats)%nat /\
    (0 < stats_n_items stats)%nat /\
    0 <= sparsity stats /\ sparsity stats <= 1 /\
    0 <= avg_items_per_transaction stats /\
    avg_items_per_transaction stats <= inject_Z (Z.of_nat (stats_n_items stats)) /\
    item_frequency (least_frequent_item stats)
    <= item_frequency (most_frequent_item stats) /\
    Forall (fun f => item_frequency (least_frequent_item stats) <= f /\
                     f <= item_frequency (most_frequent_item stats))
           (item_frequencies df_encoded) /\
    (exists j,
       nth_error (enc_columns df_encoded) j = Some (item_name (most_frequent_item stats)) /\
       nth_error (item_frequencies df_encoded) j
       = Some (item_frequency (most_frequent_item stats))) /\
    (exists j,
       nth_error (enc_columns df_encoded) j = Some (item_name (least_frequent_item stats)) /\
       nth_error (item_frequencies df_encoded) j
       = Some (item_frequency (least_frequent_item stats))) /\
    json_label json_other (item_name (most_frequent_item stats)) = true /\
    json_label json_other (item_name (least_frequent_item stats)) = true.
Proof.
  intros Hrect H.
  destruct (analyze_dataset_ok _ _ _ _ H) as (enc & Henc & -> & Hj1 & Hj2).
  exists enc. split; [exact Henc|].
  destruct (detect_and_encode_facts str_num df_raw enc Hrect Henc) as (Hb & Hr & Hc & Hv).
  destruct (dataset_stats_facts enc Hb Hr Hc Hv)
    as (H1 & H2 & H3 & H4 & H5 & H6 & H7 & H8 & H9 & H10).
  do 10 (split; [assumption|]). split; assumption.
Qed.

(** X15. [analyze_dataset] answers every failure with status 500: an empty
    table, which [upload_dataset] answers with 400 "CSV file is empty", any
    table [detect_and_encode] refuses, and any table whose most or least
    frequent item has a name the JSON encoder refuses.  It fails in no
    other case; a table of text items that is encoded is analysed. *)
Theorem analyze_dataset_errors (str_num : Q -> string) (json_other : pyobj -> bool)
  (filename : option string) (df_raw : DataFrame) (min_support min_confidence : Q) :
  in_unit_interval min_support = true ->
  in_unit_interval min_confidence = true ->
  (forall status_code,
      analyze_dataset str_num json_other df_raw = HttpError status_code ->
      status_code = 500%nat) /\
  (df_empty df_raw = true ->
   analyze_dataset str_num json_other df_raw = HttpError 500 /\
   upload_dataset str_num filename df_raw min_support min_confidence
   = HTTPException 400 CsvFileEmpty) /\
  (analyze_dataset str_num json_other df_raw = HttpError 500 <->
   (exists e, detect_and_encode str_num df_raw = Raise e) \/
   (exists df_encoded,
      detect_and_encode str_num df_raw = Ok df_encoded /\
      let freqs := item_frequencies df_encoded in
      (json_label json_other (idxmax (enc_columns df_encoded) freqs) = false \/
       json_label json_other (idxmin (enc_columns df_encoded) freqs) = false))) /\
  (forall df_encoded,
      rectangular_table df_raw ->
      detect_and_encode str_num df_raw = Ok df_encoded ->
      forallb is_str (enc_columns df_encoded) = true ->
      analyze_dataset str_num json_other df_raw = HttpOk (dataset_stats df_encoded)).
Proof.
  intros Hms Hmc. unfold analyze_dataset, upload_dataset. rewrite Hms, Hmc. simpl.
  destruct (df_empty df_raw) eqn:Hne.
  - assert (He : detect_and_encode str_num df_raw
                 = Raise (ValueError "Empty dataframe provided")).
    { unfold detect_and_encode. now rewrite Hne. }
    split; [intros c H; now injection H|]. split; [auto|].
    split; [split; [eauto | reflexivity]|].
    intros enc _ Henc. rewrite He in Henc. discriminate.
  - split; [|split; [discriminate|split]].
    + intros c. destruct (detect_and_encode str_num df_raw); [|intros H; now injection H].
      destruct (_ && _); [discriminate|]. intros H. now injection H.
    + destruct (detect_and_encode str_num df_raw) as [enc|e].
      * cbn [dataset_stats most_frequent_item least_frequent_item item_name].
        destruct (json_label json_other (idxmax _ _)) eqn:E1;
          destruct (json_label json_other (idxmin _ _)) eqn:E2; simpl.
        -- split; [discriminate|]. intros [[e He] | (enc' & He & Hj)]; [discriminate|].
           injection He as <-. cbv zeta in Hj. rewrite E1, E2 in Hj.
           destruct Hj; discriminate.
        -- split; [|reflexivity]. intros _. right. exists enc. split; [reflexivity|].
           cbv zeta. now right.
        -- split; [|reflexivity]. intros _. right. exists enc. split; [reflexivity|].
           cbv zeta. now left.
        -- split; [|reflexivity]. intros _. right. exists enc. split; [reflexivity|].
           cbv zeta. now left.
      * split; [eauto | reflexivity].
    + intros enc Hrect Henc Hstr. rewrite Henc.
      destruct (detect_and_encode_facts str_num df_raw enc Hrect Henc)
        as (Hb & Hr & Hc & Hv).
      destruct (dataset_stats_facts enc Hb Hr Hc Hv)
        as (_ & _ & _ & _ & _ & _ & _ & _ & [j [Hj _]] & [k [Hk _]]).
      rewrite forallb_forall in Hstr.
      apply nth_error_In in Hj. apply nth_error_In in Hk.
      apply Hstr in Hj. apply Hstr in Hk.
      assert (E1 : json_label json_other (item_name (most_frequent_item (dataset_stats enc)))
                   = true).
      { destruct (item_name (most_frequent_item (dataset_stats enc)));
          try discriminate; reflexivity. }
      assert (E2 : json_label json_other (item_name (least_frequent_item (dataset_stats enc)))
                   = true).
      { destruct (item_name (least_frequent_item (dataset_stats enc)));
          try discriminate; reflexivity. }
      cbn [dataset_stats most_frequent_item least_frequent_item item_name] in E1, E2.
      now rewrite E1, E2.
Qed.

(** ** Mining at the recommended threshold *)

Lemma filter_all {A : Type} (f : A -> bool) (l : list A) :
  Forall (fun x => f x = true) l -> filter f l = l.
Proof.
  induction 1 as [|x l Hx Hl IH]; simpl; [reflexivity|]. now rewrite Hx, IH.
Qed.

(** X16. On a matrix of 0 and 1 whose rarest item occurs in at least 2% of
    the transactions, mining at the threshold [analyze_dataset] recommends
    (the "low" suggestion) keeps every item of the table as a frequent
    itemset of one item. *)
Theorem recommended_support_keeps_items (df_encoded : EncodedDF)
  (fi : list FrequentItemset) :
  binary_matrix (enc_values df_encoded) ->
  0.02 <= series_min (item_frequencies df_encoded) ->
  apriori df_encoded (suggested_min_support (dataset_stats df_encoded)) = Ok fi ->
  forall j, (j < List.length (enc_columns df_encoded))%nat ->
    In {| support := support1 (enc_values df_encoded) j;
          itemsets := [nth j (enc_columns df_encoded) PNaN] |} fi.
Proof.
  intros Hbin Hmin. cbn [dataset_stats suggested_min_support].
  unfold calculate_optimal_support. cbn [low].
  set (m := series_min (item_frequencies df_encoded)) in *.
  assert (Hlow : py_max 0.02 m <= m) by (apply py_max_lub; [exact Hmin | apply Qle_refl]).
  assert (Hpos : 0 < py_max 0.02 m).
  { eapply Qlt_le_trans; [|apply py_max_ge_l]. reflexivity. }
  unfold apriori.
  destruct (Qle_bool (py_max 0.02 m) 0) eqn:E.
  { apply Qle_bool_iff in E. exfalso. exact (Qlt_not_le _ _ Hpos E). }
  rewrite (valid_input_binary _ Hbin). cbn [negb].
  intros H. injection H as <-. intros j Hj.
  apply in_map_iff. exists ([j], support1 (enc_values df_encoded) j).
  split; [reflexivity|]. apply in_or_app. left.
  rewrite filter_all.
  - apply in_map_iff. exists j. split; [reflexivity|]. apply in_seq. lia.
  - apply Forall_map, Forall_forall. intros k Hk. apply in_seq in Hk. cbn [snd].
    apply Qle_bool_iff. eapply Qle_trans; [exact Hlow|].
    assert (Hin : In (support1 (enc_values df_encoded) k) (item_frequencies df_encoded)).
    { rewrite item_frequencies_support1. apply in_map. apply in_seq. lia. }
    destruct (series_min_is_minimum (item_frequencies df_encoded)) as [_ Hall].
    { intros Hnil. rewrite Hnil in Hin. contradiction. }
    rewrite Forall_forall in Hall. now apply Hall.
Qed.

(** ** The order of texts *)

Lemma ascii_compare_refl (a : ascii) : Ascii.compare a a = Eq.
Proof.
  apply N.compare_refl.
Qed.

Lemma ascii_compare_lt_trans (a b c : ascii) :
  Ascii.compare a b = Lt -> Ascii.compare b c = Lt -> Ascii.compare a c = Lt.
Proof.
  unfold Ascii.compare. rewrite !N.compare_lt_iff. apply N.lt_trans.
Qed.

Lemma string_compare_lt_trans (s1 s2 s3 : string) :
  String.compare s1 s2 = Lt -> String.compare s2 s3 = Lt -> String.compare s1 s3 = Lt.
Proof.
  revert s2 s3. induction s1 as [|c1 s1 IH]; intros [|c2 s2] [|c3 s3]; simpl;
    try discriminate; try reflexivity.
  destruct (Ascii.compare c1 c2) eqn:E12; try discriminate;
    destruct (Ascii.compare c2 c3) eqn:E23; try discriminate; intros H1 H2.
  - apply Ascii.compare_eq_iff in E12, E23. subst.
    rewrite ascii_compare_refl. now apply (IH s2).
  - apply Ascii.compare_eq_iff in E12. subst. now rewrite E23.
  - apply Ascii.compare_eq_iff in E23. subst. now rewrite E12.
  - now rewrite (ascii_compare_lt_trans _ _ _ E12 E23).
Qed.

Lemma string_leb_trans (a b c : string) :
  String.leb a b = true -> String.leb b c = true -> String.leb a c = true.
Proof.
  unfold String.leb.
  destruct (String.compare a b) eqn:Eab; try discriminate;
    destruct (String.compare b c) eqn:Ebc; try discriminate; intros _ _.
  - apply String.compare_eq_iff in Eab. subst. now rewrite Ebc.
  - apply String.compare_eq_iff in Eab. subst. now rewrite Ebc.
  - apply String.compare_eq_iff in Ebc. subst. now rewrite Eab.
  - now rewrite (string_compare_lt_trans _ _ _ Eab Ebc).
Qed.

Lemma string_ltb_leb (y x : string) : String.ltb y x = true -> String.leb y x = true.
Proof.
  unfold String.ltb, String.leb. now destruct (String.compare y x).
Qed.

Lemma string_ltb_false_leb (y x : string) :
  String.ltb y x = false -> String.leb x y = true.
Proof.
  unfold String.ltb, String.leb. rewrite (String.compare_antisym x y).
  now destruct (String.compare y x).
Qed.

Lemma isort_strings_sorted (ss : list string) :
  StronglySorted (fun a b => String.leb a b = true) (isort String.ltb ss).
Proof.
  apply isort_sorted.
  - intros a b c. apply string_leb_trans.
  - intros y x. apply string_ltb_leb.
  - intros y x. apply string_ltb_false_leb.
Qed.

Lemma isort_map {A B : Type} (f : A -> B) (ltb : A -> A -> bool) (ltb' : B -> B -> bool)
  (l : list A) :
  (forall x y, ltb' (f x) (f y) = ltb x y) ->
  isort ltb' (map f l) = map f (isort ltb l).
Proof.
  intros Hf. induction l as [|x l IH]; simpl; [reflexivity|].
  fold (isort ltb' (map f l)). fold (isort ltb l). rewrite IH.
  generalize (isort ltb l). intros s. induction s as [|y s IHs]; simpl; [reflexivity|].
  rewrite Hf. destruct (ltb y x); simpl; [now rewrite IHs | reflexivity].
Qed.

Lemma all_text (l : list pyobj) :
  forallb is_str l = true -> exists ss, l = map PStr ss.
Proof.
  induction l as [|x l IH]; simpl.
  - exists []. reflexivity.
  - intros H. apply andb_true_iff in H. destruct H as [Hx Hl].
    destruct (IH Hl) as [ss ->]. destruct x as [| | |s]; try discriminate.
    exists (s :: ss). reflexivity.
Qed.

Lemma forallb_is_str_map (ss : list string) : forallb is_str (map PStr ss) = true.
Proof.
  induction ss as [|s ss IH]; simpl; [reflexivity | exact IH].
Qed.

(** Sorting a list of texts sorts the texts. *)
Lemma py_sorted_text (ss : list string) :
  py_sorted (map PStr ss) = Ok (map PStr (isort String.ltb ss)).
Proof.
  unfold py_sorted. rewrite forallb_is_str_map. cbn [orb]. f_equal.
  now apply isort_map.
Qed.

Lemma sequence_raise {A B : Type} (f : A -> result B) (l : list A) (e : exn) :
  sequence (map f l) = Raise e -> exists x, In x l /\ f x = Raise e.
Proof.
  induction l as [|x l IH]; simpl; [discriminate|].
  destruct (f x) as [y|e'] eqn:Hx; simpl.
  - destruct (sequence (map f l)) as [ys|e'']; simpl; [discriminate|].
    intros H. injection H as ->. destruct (IH eq_refl) as [x' [Hin Hx']]. eauto.
  - intros H. injection H as ->. eauto.
Qed.

(** ** [clean_for_json] *)

(** X17. [clean_for_json] keeps the rows of the itemset table, their order
    and their supports, and turns every itemset into a list of the same
    items; an itemset of texts comes out sorted in lexicographic order. It
    raises only [TypeError], and only for an itemset that mixes texts with
    other values. *)
Theorem clean_itemsets_spec (fi : list FrequentItemset) :
  (forall fi', clean_itemsets fi = Ok fi' ->
     Forall2 (fun r r' =>
                support r' = support r /\
                Permutation (itemsets r) (itemsets r') /\
                forall ss, itemsets r = map PStr ss ->
                  exists ss', itemsets r' = map PStr ss' /\
                              StronglySorted (fun a b => String.leb a b = true) ss')
             fi fi') /\
  (forall e, clean_itemsets fi = Raise e ->
     e = TypeError /\
     exists r, In r fi /\
               forallb is_str (itemsets r) = false /\
               existsb is_str (itemsets r) = true).
Proof.
  unfold clean_itemsets. split.
  - intros fi' H. apply sequence_Forall2 in H.
    eapply Forall2_impl; [|exact H]. intros r r' Hr. cbv beta in Hr.
    destruct (py_sorted (itemsets r)) as [s|] eqn:Hs; simpl in Hr; [|discriminate].
    injection Hr as <-. simpl. split; [reflexivity|]. split.
    + now apply py_sorted_perm.
    + intros ss Hss. rewrite Hss, py_sorted_text in Hs. injection Hs as <-.
      eexists. split; [reflexivity | apply isort_strings_sorted].
  - intros e H. apply sequence_raise in H. destruct H as [r [Hin Hr]].
    unfold py_sorted in Hr.
    destruct (forallb is_str (itemsets r)) eqn:Hall; simpl in Hr; [discriminate|].
    destruct (forallb (fun x => negb (is_str x)) (itemsets r)) eqn:Hnone; simpl in Hr;
      [discriminate|].
    injection Hr as <-. split; [reflexivity|]. exists r. split; [exact Hin|].
    split; [exact Hall|].
    destruct (existsb is_str (itemsets r)) eqn:Hex; [reflexivity|].
    exfalso. assert (Hn : forallb (fun x => negb (is_str x)) (itemsets r) = true).
    { apply forallb_forall. intros x Hx. apply negb_true_iff.
      destruct (is_str x) eqn:Ex; [|reflexivity].
      assert (existsb is_str (itemsets r) = true) by (apply existsb_exists; eauto).
      congruence. }
    congruence.
Qed.

(** ** The vocabulary *)

Lemma dedupe_NoDup (l : list pyobj) : NoDup (dedupe py_eqb l).
Proof.
  induction l as [|x l IH]; simpl; [constructor|].
  constructor.
  - intros Hin. apply filter_In in Hin. destruct Hin as [_ Hx].
    now rewrite py_eqb_refl in Hx.
  - now apply NoDup_filter.
Qed.

Lemma sorted_NoDup_strict (ss : list string) :
  StronglySorted (fun a b => String.leb a b = true) ss -> NoDup ss ->
  StronglySorted (fun a b => String.ltb a b = true) ss.
Proof.
  induction 1 as [|s ss Hs IH Hall]; intros Hnd; [constructor|].
  inversion Hnd as [|? ? Hnotin Hnd']; subst.
  constructor; [now apply IH|].
  apply Forall_forall. intros b Hb. rewrite Forall_forall in Hall.
  specialize (Hall b Hb). unfold String.leb in Hall. unfold String.ltb.
  destruct (String.compare s b) eqn:E; try reflexivity; try discriminate.
  apply String.compare_eq_iff in E. subst. contradiction.
Qed.

(** X18. When every item of every transaction is a text,
    [transactional_to_onehot] labels the columns of its matrix with the
    items in strictly increasing lexicographic order: the vocabulary is
    sorted and no item has two columns; every column label is an item of
    some transaction. *)
Theorem transactional_to_onehot_vocabulary (transactions : list (list string))
  (enc : EncodedDF) :
  transactional_to_onehot (map (map PStr) transactions) = Ok enc ->
  exists vocabulary,
    enc_columns enc = map PStr vocabulary /\
    StronglySorted (fun a b => String.ltb a b = true) vocabulary /\
    forall item, In item vocabulary <-> exists t, In t transactions /\ In item t.
Proof.
  unfold transactional_to_onehot.
  destruct (null _); [discriminate|].
  set (ts := filter (fun t => negb (null t)) (map (map PStr) transactions)).
  unfold te_fit.
  set (items := dedupe py_eqb (List.concat ts)).
  assert (Hin : forall x, In x items <-> exists t, In t transactions /\ In x (map PStr t)).
  { intros x. subst items. split.
    - intros Hx. apply dedupe_In in Hx. apply in_concat in Hx.
      destruct Hx as [t [Ht Hxt]]. apply filter_In in Ht. destruct Ht as [Ht _].
      apply in_map_iff in Ht. destruct Ht as [t0 [<- Ht0]]. eauto.
    - intros [t [Ht Hxt]].
      assert (Hc : In x (List.concat ts)).
      { apply in_concat. exists (map PStr t). split; [|exact Hxt].
        apply filter_In. split; [now apply in_map|]. destruct t; [contradiction | reflexivity]. }
      destruct (dedupe_covers _ _ Hc) as [y [Hy Hyx]].
      apply in_map_iff in Hxt. destruct Hxt as [s [<- _]].
      destruct y as [| | |s']; simpl in Hyx; try discriminate.
      apply String.eqb_eq in Hyx. now subst. }
  assert (Htext : forallb is_str items = true).
  { apply forallb_forall. intros x Hx. apply Hin in Hx.
    destruct Hx as [t [_ Hx]]. apply in_map_iff in Hx. now destruct Hx as [s [<- _]]. }
  destruct (all_text items Htext) as [ss Hss].
  pose proof (dedupe_NoDup (List.concat ts)) as Hnd. fold items in Hnd.
  rewrite Hss in *. rewrite py_sorted_text. simpl.
  intros H. injection H as <-. simpl.
  exists (isort String.ltb ss). split; [reflexivity|]. split.
  - apply sorted_NoDup_strict; [apply isort_strings_sorted|].
    eapply Permutation_NoDup; [apply isort_perm|].
    eapply NoDup_map_inv. exact Hnd.
  - intros item. rewrite <- (Permutation_in' (eq_refl item) (isort_perm String.ltb ss)).
    split.
    + intros Hi. destruct (proj1 (Hin (PStr item)) (in_map PStr _ _ Hi)) as [t [Ht Hx]].
      exists t. split; [exact Ht|]. apply in_map_iff in Hx.
      destruct Hx as [s [Hs Hx]]. injection Hs as ->. exact Hx.
    + intros [t [Ht Hi]].
      assert (Hx : In (PStr item) (map PStr ss)).
      { apply Hin. exists t. split; [exact Ht | now apply in_map]. }
      apply in_map_iff in Hx. destruct Hx as [s [Hs Hx]]. injection Hs as ->. exact Hx.
Qed.

(** ** The supporting transactions of the rules of an upload *)










(** ** How many transactions a table yields *)

Lemma in_combine_exists {A B : Type} (l : list A) (l' : list B) (x : A) :
  In x l -> (List.length l <= List.length l')%nat -> exists y, In (x, y) (combine l l').
Proof.
  revert l'. induction l as [|a l IH]; intros [|b l'] Hx Hlen; simpl in *;
    try contradiction; try lia.
  destruct Hx as [-> | Hx]; [eauto|].
  destruct (IH l' Hx) as [y Hy]; [lia | eauto].
Qed.

Lemma length_filter_map {A B : Type} (f : A -> B) (p : B -> bool) (l : list A) :
  List.length (filter p (map f l)) = List.length (filter (fun x => p (f x)) l).
Proof.
  induction l as [|x l IH]; simpl; [reflexivity|].
  destruct (p (f x)); simpl; now rewrite IH.
Qed.

Lemma groupby_lists_groups (keys items : list pyobj) :
  (List.length keys <= List.length items)%nat ->
  Forall (fun g => null g = false) (groupby_lists keys items) /\
  List.length (groupby_lists keys items)
  = List.length (dedupe py_eqb (filter (fun k => negb (isna k)) keys)).
Proof.
  intros Hlen. unfold groupby_lists. split.
  - apply Forall_map, Forall_forall. intros k Hk.
    apply (Permutation_in _ (Permutation_sym (isort_perm key_ltb _))) in Hk.
    apply dedupe_In, filter_In in Hk. destruct Hk as [Hk _].
    destruct (in_combine_exists keys items k Hk Hlen) as [y Hy].
    assert (Hin : In (k, y) (filter (fun r => py_eqb (fst r) k) (combine keys items))).
    { apply filter_In. split; [exact Hy | apply py_eqb_refl]. }
    destruct (filter _ (combine keys items)); [contradiction | reflexivity].
  - rewrite length_map. symmetry. apply Permutation_length, isort_perm.
Qed.

Lemma comma_split_length (str_num : Q -> string) (s : Series) (enc : EncodedDF) :
  comma_split_strategy str_num s = Ok enc ->
  List.length (enc_values enc)
  = List.length (filter (fun x => negb (null (split_items str_num x)))
                        (fillna_empty s)).
Proof.
  unfold comma_split_strategy. destruct (null _); [discriminate|].
  intros H. destruct (te_matrix_facts _ _ H) as [Hl _]. rewrite Hl.
  unfold comma_transactions. rewrite filter_idem.
  apply (length_filter_map (split_items str_num) (fun t => negb (null t))).
Qed.

Lemma transactions_per_format_facts (str_num : Q -> string) (df : DataFrame)
  (enc : EncodedDF) :
  rectangular_table df ->
  detect_and_encode str_num df = Ok enc ->
  let d := drop_unnamed df in
  let cells_with_item := fun s =>
    List.length (filter (fun x => negb (null (split_items str_num x))) (fillna_empty s)) in
  match detect_format str_num d with
  | GroupedIdItem =>
      List.length (enc_values enc)
      = List.length (dedupe py_eqb
                       (filter (fun k => negb (isna k))
                               (series_values (col_data (nth 0 d default_column)))))
  | SingleColumnList =>
      List.length (enc_values enc) = cells_with_item (col_data (nth 0 d default_column))
  | NamedItemColumn =>
      exists col, named_item_column d = Some col /\
                  List.length (enc_values enc) = cells_with_item (col_data col)
  | AlreadyEncoded => List.length (enc_values enc) = nrows df
  end.
Proof.
  intros Hrect H d cells_with_item.
  destruct (df_empty df) eqn:Hne.
  { unfold detect_and_encode in H. rewrite Hne in H. discriminate. }
  assert (Hrows : (0 < nrows df)%nat).
  { unfold df_empty in Hne. apply orb_false_iff in Hne. destruct Hne as [_ Hn].
    apply Nat.eqb_neq in Hn. lia. }
  rewrite (detect_and_encode_nonempty str_num df Hne) in H. fold d in H.
  assert (Hcol : forall c, In c d -> List.length (series_values (col_data c)) = nrows df).
  { intros c Hc. unfold d in Hc. apply filter_In in Hc. destruct Hc as [Hc _].
    unfold rectangular_table in Hrect. rewrite Forall_forall in Hrect. now apply Hrect. }
  destruct (detect_format str_num d) eqn:Hfmt; simpl in H.
  - assert (Hd : ncols d = 2%nat).
    { unfold detect_format in Hfmt. destruct (ncols d =? 2)%nat eqn:E.
      - now apply Nat.eqb_eq in E.
      - simpl in Hfmt. destruct (ncols d =? 1)%nat; [discriminate|].
        destruct (named_item_column d) as [col|]; [|discriminate].
        destruct (null _); discriminate. }
    destruct d as [|c0 [|c1 [|c2 d']]] eqn:Ed; try discriminate. cbn [nth] in *.
    destruct (groupby_lists_groups (series_values (col_data c0))
                                   (series_values (col_data c1))) as [Hnn Hlen].
    { rewrite (Hcol c0), (Hcol c1); [lia | right; now left | now left]. }
    destruct (te_matrix_facts _ _ H) as [Hl _]. rewrite Hl, <- Hlen. f_equal.
    apply filter_all. eapply Forall_impl; [|exact Hnn]. intros g Hg. now rewrite Hg.
  - now apply comma_split_length.
  - destruct (named_item_column d) as [col|] eqn:Hnamed.
    + exists col. split; [reflexivity|]. now apply comma_split_length.
    + exfalso. unfold detect_format in Hfmt. rewrite Hnamed in Hfmt.
      destruct (_ && _); [discriminate|]. destruct (ncols d =? 1)%nat; discriminate.
  - assert (Hd : d <> []).
    { intros Hd. rewrite Hd in H. discriminate. }
    pose proof (drop_unnamed_nrows df Hrect Hd) as Hn. fold d in Hn.
    destruct (encode_onehot_facts d enc) as (_ & _ & _ & Hl); [lia | exact H|].
    now rewrite Hl.
Qed.

(** X20. The number of transactions of the encoded matrix follows the
    format of the table: one per distinct transaction id that is not
    missing (grouped format), one per cell that holds at least one item
    (single column and named item column), one per row of the table
    (one-hot fallback). *)
Theorem transactions_per_format (str_num : Q -> string) (df : DataFrame)
  (enc : EncodedDF) :
  rectangular_table df ->
  detect_and_encode str_num df = Ok enc ->
  let d := drop_unnamed df in
  let cells_with_item := fun s =>
    List.length (filter (fun x => negb (null (split_items str_num x))) (fillna_empty s)) in
  match detect_format str_num d with
  | GroupedIdItem =>
      List.length (enc_values enc)
      = List.length (dedupe py_eqb
                       (filter (fun k => negb (isna k))
                               (series_values (col_data (nth 0 d default_column)))))
  | SingleColumnList =>
      List.length (enc_values enc) = cells_with_item (col_data (nth 0 d default_column))
  | NamedItemColumn =>
      exists col, named_item_column d = Some col /\
                  List.length (enc_values enc) = cells_with_item (col_data col)
  | AlreadyEncoded => List.length (enc_values enc) = nrows df
  end.
Proof.
  exact (transactions_per_format_facts str_num df enc).
Qed.

(** ** After the encoding nothing raises *)



















(** ** The thresholds an analysis ends up with *)








(** ** The further properties on the example tables *)

Lemma encoded_ba_binary : binary_matrix (enc_values encoded_ba).
Proof.
  unfold binary_matrix. simpl.
  repeat first [apply Forall_cons | apply Forall_nil]; auto.
Qed.

Lemma table_ba_rectangular : rectangular_table table_ba.
Proof.
  unfold rectangular_table.
  repeat first [apply Forall_cons | apply Forall_nil]; reflexivity.
Qed.

Lemma transactional_to_onehot_matrix_witness :
  exists enc,
    transactional_to_onehot (map (map PStr) baskets_example) = Ok enc /\
    List.length (enc_values enc)
    = List.length (filter (fun t => negb (null t)) (map (map PStr) baskets_example)) /\
    Forall (fun r => In 1%Z r) (enc_values enc).
Proof.
  destruct (transactional_to_onehot (map (map PStr) baskets_example)) as [enc|e] eqn:H;
    [|vm_compute in H; discriminate].
  exists enc. split; [reflexivity|].
  destruct (transactional_to_onehot_matrix _ _ H) as (H1 & _ & H3 & _).
  split; assumption.
Defined.

Lemma detect_and_encode_matrix_witness :
  rectangular_table table_unnamed /\
  exists enc,
    detect_and_encode str_num_unused table_unnamed = Ok enc /\
    binary_matrix (enc_values enc) /\
    enc_values enc <> [].
Proof.
  assert (Hr : rectangular_table table_unnamed)
    by (unfold rectangular_table;
        repeat first [apply Forall_cons | apply Forall_nil]; reflexivity).
  split; [exact Hr|].
  destruct (detect_and_encode str_num_unused table_unnamed) as [enc|e] eqn:H;
    [|vm_compute in H; discriminate].
  exists enc. split; [reflexivity|].
  destruct (detect_and_encode_matrix _ _ _ Hr H) as (H1 & _ & _ & H4).
  split; assumption.
Defined.

Lemma to_bool01_text_insensitive_witness :
  Forall (fun c => In c whitespace_chars) blank_example /\
  _to_bool01 (PStr (lower "Yes")) = _to_bool01 (PStr "Yes") /\
  _to_bool01 (PStr (String.append (bytes [194; 160; 32; 226; 128; 131]%nat) "Yes"))
  = _to_bool01 (PStr "Yes") /\
  _to_bool01 (PStr (String.append "Yes" (bytes [194; 160; 32; 226; 128; 131]%nat)))
  = _to_bool01 (PStr "Yes").
Proof.
  assert (Hws : Forall (fun c => In c whitespace_chars) blank_example).
  { repeat first [apply Forall_cons | apply Forall_nil];
      unfold whitespace_chars; simpl; repeat (try (left; reflexivity); right). }
  split; [exact Hws|].
  exact (to_bool01_text_insensitive "Yes" blank_example Hws).
Defined.

Lemma baskets_example_clean : Forall (Forall clean_item) baskets_example.
Proof.
  repeat first [apply Forall_cons | apply Forall_nil | split | reflexivity].
Qed.

Lemma sample_table_round_trip_witness :
  Forall (Forall clean_item) baskets_example /\
  Exists (fun row => row <> []) baskets_example /\
  detect_and_encode str_num_unused (sample_table baskets_example)
  = transactional_to_onehot (map (map PStr) baskets_example).
Proof.
  assert (Hex : Exists (fun row : list string => row <> []) baskets_example)
    by (apply Exists_cons_hd; discriminate).
  split; [exact baskets_example_clean|]. split; [exact Hex|].
  exact (sample_table_round_trip str_num_unused baskets_example baskets_example_clean Hex).
Defined.

Lemma suggestions_bounds_witness :
  binary_matrix (enc_values encoded_ba) /\
  0.01 <= very_low (calculate_optimal_support encoded_ba) /\
  very_low (calculate_optimal_support encoded_ba) <= 1.
Proof.
  split; [exact encoded_ba_binary|].
  exact (proj1 (suggestions_bounds encoded_ba encoded_ba_binary)).
Defined.

Lemma build_cooccurrence_shape_witness :
  binary_matrix (enc_values encoded_ba) /\
  List.length (co_values (build_cooccurrence encoded_ba)) = 2%nat /\
  Forall (fun r => List.length r = 2%nat) (co_values (build_cooccurrence encoded_ba)).
Proof.
  split; [exact encoded_ba_binary|].
  destruct (build_cooccurrence_shape encoded_ba encoded_ba_binary) as (_ & H1 & H2 & _).
  split; assumption.
Defined.


Lemma no_frequent_itemsets_iff_witness :
  in_unit_interval 0.9 = true /\
  in_unit_interval 0.6 = true /\
  df_empty table_ba = false /\
  detect_and_encode str_num_unused table_ba = Ok encoded_ba /\
  (upload_dataset str_num_unused (Some "baskets.csv") table_ba 0.9 0.6
   = HTTPException 400 NoFrequentItemsets <->
   Forall (fun f => f < starting_support (Some "baskets.csv") 0.9 /\ f < 0.01)
          (item_frequencies encoded_ba)).
Proof.
  assert (H1 : in_unit_interval 0.9 = true) by reflexivity.
  assert (H2 : in_unit_interval 0.6 = true) by reflexivity.
  assert (H3 : df_empty table_ba = false) by reflexivity.
  assert (H4 : detect_and_encode str_num_unused table_ba = Ok encoded_ba)
    by (vm_compute; reflexivity).
  do 4 (split; [assumption|]).
  exact (no_frequent_itemsets_iff str_num_unused (Some "baskets.csv") table_ba 0.9 0.6
           encoded_ba H1 H2 H3 H4).
Defined.

Lemma upload_metadata_witness :
  exists st,
    upload_dataset str_num_unused (Some "baskets.csv") table_ba 0.9 0.6 = Success st /\
    meta_n_frequent_itemsets (st_meta st) = List.length (st_frequent_itemsets st) /\
    meta_n_rules (st_meta st) = List.length (st_rules st).
Proof.
  destruct (upload_dataset str_num_unused (Some "baskets.csv") table_ba 0.9 0.6)
    as [st|code detail] eqn:H; [|vm_compute in H; discriminate].
  exists st. split; [reflexivity|].
  destruct (upload_metadata _ _ _ _ _ _ H) as (_ & _ & _ & _ & H1 & _ & H2 & _).
  split; assumption.
Defined.

Lemma get_rules_after_upload_witness :
  exists st,
    upload_dataset str_num_unused (Some "baskets.csv") table_ba 0.5 0.6 = Success st /\
    meta_n_rules (st_meta st) = 0%nat /\
    get_rules (upload_dataset_state str_num_unused None (Some "baskets.csv")
                                    table_ba 0.5 0.6) = sample_rules.
Proof.
  destruct (upload_dataset str_num_unused (Some "baskets.csv") table_ba 0.5 0.6)
    as [st|code detail] eqn:H; [|vm_compute in H; discriminate].
  assert (Hn : meta_n_rules (st_meta st) = 0%nat).
  { vm_compute in H. injection H as <-. reflexivity. }
  exists st. split; [reflexivity|]. split; [exact Hn|].
  pose proof (get_rules_after_upload str_num_unused None _ _ _ _ _ H) as (_ & _ & H0 & _).
  unfold upload_dataset_state in H0 |- *. rewrite H in H0 |- *. exact (H0 Hn).
Defined.

Lemma analyze_dataset_stats_witness :
  rectangular_table table_ba /\
  exists stats,
    analyze_dataset str_num_unused json_text_only table_ba = HttpOk stats /\
    0 <= sparsity stats /\ sparsity stats <= 1.
Proof.
  split; [exact table_ba_rectangular|].
  destruct (analyze_dataset str_num_unused json_text_only table_ba) as [stats|code] eqn:H;
    [|vm_compute in H; discriminate].
  exists stats. split; [reflexivity|].
  destruct (analyze_dataset_stats _ _ _ _ table_ba_rectangular H)
    as (enc & _ & _ & _ & H0 & H1 & _).
  split; assumption.
Defined.

Lemma analyze_dataset_errors_witness :
  in_unit_interval 0.5 = true /\
  in_unit_interval 0.6 = true /\
  df_empty table_no_rows = true /\
  (analyze_dataset str_num_unused json_text_only table_no_rows = HttpError 500 /\
   upload_dataset str_num_unused (Some "baskets.csv") table_no_rows 0.5 0.6
   = HTTPException 400 CsvFileEmpty) /\
  (exists df_encoded,
     detect_and_encode str_num_unused table_product_ids = Ok df_encoded) /\
  analyze_dataset str_num_unused json_text_only table_product_ids = HttpError 500.
Proof.
  assert (H1 : in_unit_interval 0.5 = true) by reflexivity.
  assert (H2 : in_unit_interval 0.6 = true) by reflexivity.
  assert (H3 : df_empty table_no_rows = true) by reflexivity.
  do 3 (split; [assumption|]).
  split.
  - exact (proj1 (proj2 (analyze_dataset_errors str_num_unused json_text_only
                           (Some "baskets.csv") table_no_rows 0.5 0.6 H1 H2)) H3).
  - destruct (detect_and_encode str_num_unused table_product_ids) as [enc|e] eqn:H;
      [|vm_compute in H; discriminate].
    split; [now exists enc|].
    apply (proj1 (proj2 (proj2 (analyze_dataset_errors str_num_unused json_text_only
                                  (Some "baskets.csv") table_product_ids 0.5 0.6 H1 H2)))).
    right. exists enc. split; [exact H|].
    vm_compute in H. injection H as <-. left. reflexivity.
Defined.

Lemma recommended_support_keeps_items_witness :
  binary_matrix (enc_values encoded_ba) /\
  0.02 <= series_min (item_frequencies encoded_ba) /\
  exists fi,
    apriori encoded_ba (suggested_min_support (dataset_stats encoded_ba)) = Ok fi /\
    In {| support := support1 (enc_values encoded_ba) 0;
          itemsets := [nth 0 (enc_columns encoded_ba) PNaN] |} fi.
Proof.
  assert (Hm : 0.02 <= series_min (item_frequencies encoded_ba)) by discriminate.
  split; [exact encoded_ba_binary|]. split; [exact Hm|].
  destruct (apriori encoded_ba (suggested_min_support (dataset_stats encoded_ba)))
    as [fi|e] eqn:H; [|vm_compute in H; discriminate].
  exists fi. split; [reflexivity|].
  apply (recommended_support_keeps_items encoded_ba fi encoded_ba_binary Hm H 0).
  simpl. lia.
Defined.

Lemma transactional_to_onehot_vocabulary_witness :
  exists enc,
    transactional_to_onehot (map (map PStr) baskets_example) = Ok enc /\
    exists vocabulary,
      enc_columns enc = map PStr vocabulary /\
      StronglySorted (fun a b => String.ltb a b = true) vocabulary.
Proof.
  destruct (transactional_to_onehot (map (map PStr) baskets_example)) as [enc|e] eqn:H;
    [|vm_compute in H; discriminate].
  exists enc. split; [reflexivity|].
  destruct (transactional_to_onehot_vocabulary baskets_example enc H) as (v & H1 & H2 & _).
  exists v. split; assumption.
Defined.


Lemma transactions_per_format_witness :
  rectangular_table table_unnamed /\
  exists enc,
    detect_and_encode str_num_unused table_unnamed = Ok enc /\
    List.length (enc_values enc) = 2%nat.
Proof.
  assert (Hr : rectangular_table table_unnamed)
    by (unfold rectangular_table;
        repeat first [apply Forall_cons | apply Forall_nil]; reflexivity).
  split; [exact Hr|].
  destruct (detect_and_encode str_num_unused table_unnamed) as [enc|e] eqn:H;
    [|vm_compute in H; discriminate].
  exists enc. split; [reflexivity|].
  exact (transactions_per_format str_num_unused table_unnamed enc Hr H).
Defined.


Lemma transactional_to_onehot_no_transactions_witness :
  Forall (fun t : list pyobj => t = []) [[]; []] /\
  transactional_to_onehot [[]; []]
  = Raise (ValueError "No valid transactions found in the data").
Proof.
  assert (H : Forall (fun t : list pyobj => t = []) [[]; []])
    by (repeat first [apply Forall_cons | apply Forall_nil]; reflexivity).
  split; [exact H|].
  exact (proj2 (transactional_to_onehot_no_transactions [[]; []]) H).
Defined.

Lemma encode_onehot_no_items_witness :
  exists enc,
    encode_onehot table_ba = Ok enc /\
    enc_columns enc = map (fun c => PStr (col_name c)) table_ba.
Proof.
  destruct (encode_onehot table_ba) as [enc|e] eqn:H; [|vm_compute in H; discriminate].
  exists enc. split; [reflexivity|].
  exact (proj1 (proj2 (encode_onehot_no_items table_ba) enc H)).
Defined.

Lemma get_frequent_itemsets_sorted_witness :
  get_frequent_itemsets None = [] /\
  StronglySorted (fun a b => support b <= support a) (get_frequent_itemsets None).
Proof.
  destruct (get_frequent_itemsets_sorted None) as (H1 & H2 & _).
  split; [exact (H2 eq_refl) | exact H1].
Defined.

Lemma clean_itemsets_spec_witness :
  exists fi',
    clean_itemsets [{| support := 1 # 4; itemsets := [PStr "b"; PStr "a"] |}] = Ok fi' /\
    Forall2 (fun r r' => support r' = support r /\
                         Permutation (itemsets r) (itemsets r'))
            [{| support := 1 # 4; itemsets := [PStr "b"; PStr "a"] |}] fi'.
Proof.
  destruct (clean_itemsets [{| support := 1 # 4; itemsets := [PStr "b"; PStr "a"] |}])
    as [fi'|e] eqn:H; [|vm_compute in H; discriminate].
  exists fi'. split; [reflexivity|].
  pose proof (proj1 (clean_itemsets_spec _) fi' H) as HF.
  clear H. induction HF as [|r r' l l' (H1 & H2 & _) _ IH]; constructor; auto.
Defined.
